(** * rds connect: cached instance resolution, credential target and
      terminal handoff

    A shallow embedding of package [connect] of the [rds] command line tool
    (instance cache, name resolution, last-selection marker, credential
    target, [Run], [startAndWait]) together with the properties its design
    document states about them.

    Go strings are byte sequences: they are modelled by [string], whose
    characters are the 256 values of [ascii].  The operating system and the
    cloud services are not part of the repository: the file system, the
    clock, the terminal and the process environment are fields of a [World]
    that is threaded through the code, and library or service calls whose
    answer the tool cannot compute are fields of a [Collaborators] record. *)

From Stdlib Require Import ZArith String Ascii List Lia DecimalString.
From stdpp Require Import gmap strings list.

Local Open Scope Z_scope.

(* ===================================================================== *)
(** * Part I: the model *)
(* ===================================================================== *)

(** ** Package [strings] of the Go standard library, as far as it is used *)

Module GoStrings.

(** [strings.HasPrefix(s, prefix)] *)
Fixpoint HasPrefix (s prefix : string) {struct prefix} : bool :=
  match prefix, s with
  | EmptyString, _ => true
  | String _ _, EmptyString => false
  | String p prefix', String c s' => Ascii.eqb c p && HasPrefix s' prefix'
  end.

(** [strings.Contains(s, substr)]: [substr] occurs at some offset of [s]
    (the empty string occurs everywhere). *)
Fixpoint Contains (s substr : string) : bool :=
  HasPrefix s substr ||
  match s with
  | EmptyString => false
  | String _ s' => Contains s' substr
  end.

(** [strings.Split(s, sep)] for a non-empty separator: the fields between
    the non-overlapping occurrences of [sep], scanned left to right.
    [skip] counts the bytes of a separator that are still to be passed
    over, [cur] is the field read so far. *)
Fixpoint splitFrom (skip : nat) (cur s sep : string) : list string :=
  match s with
  | EmptyString => [cur]
  | String c s' =>
      match skip with
      | S k => splitFrom k cur s' sep
      | O =>
          if HasPrefix s sep
          then cur :: splitFrom (Nat.pred (String.length sep)) "" s' sep
          else splitFrom O (cur +:+ String c "") s' sep
      end
  end.

(** The tool only ever splits on [":"].  With an empty separator Go
    returns the UTF-8 sequences of [s] one by one; on the one-byte
    characters the tool handles these are the bytes of [s]. *)
Fixpoint explode (s : string) : list string :=
  match s with
  | EmptyString => []
  | String c s' => String c "" :: explode s'
  end.

Definition Split (s sep : string) : list string :=
  match sep with
  | EmptyString => explode s
  | String _ _ => splitFrom O "" s sep
  end.

(** [strings.Join(elems, sep)] *)
Fixpoint Join (elems : list string) (sep : string) : string :=
  match elems with
  | [] => ""
  | [e] => e
  | e :: rest => e +:+ sep +:+ Join rest sep
  end.

(** A field is free of colons; the colon-separated fields of a string
    are the colon-free strings it is the join of. *)
Definition colonFree (f : string) : Prop := Contains f ":" = false.

Definition colonFields (s : string) (fields : list string) : Prop :=
  s = Join fields ":" /\ fields <> [] /\ Forall colonFree fields.

(** White space in the sense of [unicode.IsSpace], as encoded in UTF-8:
    the six ASCII characters tab, line feed, vertical tab, form feed,
    carriage return and space, then U+0085, U+00A0, U+1680,
    U+2000..U+200A, U+2028, U+2029, U+202F, U+205F and U+3000. *)
Definition byte (n : nat) : ascii := ascii_of_nat n.

Definition bytes (l : list nat) : string :=
  fold_right (fun n s => String (byte n) s) EmptyString l.

Definition spaceEncodings : list string :=
  map bytes
    ([[9]; [10]; [11]; [12]; [13]; [32];
      [194; 133]; [194; 160]; [225; 154; 128]] ++
     map (fun k => [226; 128; k]) (seq 128 11) ++
     [[226; 128; 168]; [226; 128; 169]; [226; 128; 175];
      [226; 129; 159]; [227; 128; 128]])%nat.

(** The white-space character [s] starts with, if any. *)
Definition leadingSpace (s : string) : option string :=
  List.find (HasPrefix s) spaceEncodings.

Definition dropBytes (n : nat) (s : string) : string :=
  String.substring n (String.length s - n) s.

(** [strings.TrimLeftFunc(s, unicode.IsSpace)]; every step removes at
    least one byte, so the length of [s] is fuel enough. *)
Fixpoint trimLeftFuel (fuel : nat) (s : string) : string :=
  match fuel with
  | O => s
  | S fuel' =>
      match leadingSpace s with
      | Some sp => trimLeftFuel fuel' (dropBytes (String.length sp) s)
      | None => s
      end
  end.

Definition TrimLeftSpace (s : string) : string :=
  trimLeftFuel (String.length s) s.

Definition reverse (s : string) : string :=
  string_of_list_ascii (rev (list_ascii_of_string s)).

(** The white-space character [s] ends with, if any: the last rune of
    [s] is decoded from the bytes that close the string. *)
Definition trailingSpace (s : string) : option string :=
  List.find (fun sp => HasPrefix (reverse s) (reverse sp)) spaceEncodings.

Definition takeBytes (n : nat) (s : string) : string :=
  String.substring 0 n s.

Fixpoint trimRightFuel (fuel : nat) (s : string) : string :=
  match fuel with
  | O => s
  | S fuel' =>
      match trailingSpace s with
      | Some sp =>
          trimRightFuel fuel'
            (takeBytes (String.length s - String.length sp) s)
      | None => s
      end
  end.

Definition TrimRightSpace (s : string) : string :=
  trimRightFuel (String.length s) s.

(** [strings.TrimSpace(s)] *)
Definition TrimSpace (s : string) : string :=
  TrimRightSpace (TrimLeftSpace s).

End GoStrings.

Import GoStrings.

(** ** Results of Go calls *)

(** A call returns a value, returns an error (modelled by its message, the
    text [err.Error()] yields), or panics. *)
Inductive result (A : Type) : Type :=
| Ok (a : A)
| Err (msg : string)
| Panic (msg : string).

Arguments Ok {A} a.
Arguments Err {A} msg.
Arguments Panic {A} msg.

(** ** Data model (types.go) *)

(** CacheVersion is incremented when InstanceInfo (or cache format) changes. *)
Definition CacheVersion : string := "v2".

(** InstanceInfo describes one RDS PostgreSQL instance. *)
Record InstanceInfo : Type := mkInstanceInfo {
  ID : string;
  Host : string;
  Size : string;
  Port : Z;            (* int32 *)
  Version : string;
  SourceID : string
}.

(** CacheEnvelope is the on-disk cache format for the instance list. *)
Record CacheEnvelope : Type := mkCacheEnvelope {
  EnvVersion : string;
  Instances : list InstanceInfo
}.

(** RDSCreds holds DB username/password from Secrets Manager. *)
Record RDSCreds : Type := mkRDSCreds {
  Username : string;
  Password : string
}.

(** PritunlConnection represents one Pritunl VPN connection. *)
Record PritunlConnection : Type := mkPritunlConnection {
  Name : string;
  Connected : bool
}.

(** The zero value [InstanceInfo{}]. *)
Definition zeroInstance : InstanceInfo := mkInstanceInfo "" "" "" 0 "" "".

(** ** Credential target *)

(** [instanceSecretTargetID], connect.go lines 160-172. *)
Definition instanceSecretTargetID (selected : InstanceInfo) : string :=
  if String.eqb (SourceID selected) "" then ID selected
  else if HasPrefix (SourceID selected) "arn:aws:rds:" then
    let parts := Split (SourceID selected) ":" in
    if (7 <=? length parts)%nat then nth 6 parts ""
    else ID selected
  else SourceID selected.

(** ** The world outside the program *)

(** A regular file: its bytes and its last-modified time (nanoseconds of
    wall-clock time). *)
Record File : Type := mkFile {
  content : string;
  modTime : Z
}.

(** The part of [exec.Cmd] the tool fills in. *)
Record Cmd : Type := mkCmd {
  cmdPath : string;
  cmdArgs : list string;
  cmdEnv : list string;
  Setpgid : bool
}.

(** What the program does to its surroundings, in the order it does it. *)
Inductive Event : Type :=
| EvPrint (text : string)
| EvDescribeDBInstances (region : string)
| EvGetSecretValue (region secretID : string)
| EvMkdirAll (dir : string)
| EvWriteFile (path data : string)
| EvStart (cmd : Cmd)
| EvWait (pid : Z)
| EvTIOCSPGRP (pgid : Z)
| EvSIGTTOU
| EvNativeConnect (host : string) (port : Z) (user password dbname : string).

(** What the terminal driver does with a [TIOCSPGRP] that comes from a
    process group other than the foreground one.  The tool neither ignores
    nor blocks SIGTTOU, and the Go runtime leaves that signal at its
    default, so such a call is never simply carried out: the driver sends
    SIGTTOU to the group of the caller, which stops it, or, where that
    group is orphaned and nobody could continue it, fails the call with an
    error of the system. *)
Inductive Background : Type :=
| Suspends
| Fails (errno : string).

Record World : Type := mkWorld {
  environ : gmap string string;   (* process environment *)
  files : gmap string File;       (* file system, by path *)
  readonly : gset string;         (* paths that cannot be written *)
  now : Z;                        (* wall clock, in nanoseconds *)
  stdinIsTerminal : bool;         (* term.IsTerminal(0) *)
  foreground : Z;                 (* foreground process group of the terminal *)
  pgrp : Z;                       (* unix.Getpgrp() of the tool *)
  background : Background;        (* the terminal's answer to a background group *)
  trace : list Event              (* oldest first *)
}.

Definition withFiles (f : gmap string File) (w : World) : World :=
  mkWorld (environ w) f (readonly w) (now w) (stdinIsTerminal w)
          (foreground w) (pgrp w) (background w) (trace w).

Definition withForeground (pg : Z) (w : World) : World :=
  mkWorld (environ w) (files w) (readonly w) (now w) (stdinIsTerminal w)
          pg (pgrp w) (background w) (trace w).

Definition withTrace (t : list Event) (w : World) : World :=
  mkWorld (environ w) (files w) (readonly w) (now w) (stdinIsTerminal w)
          (foreground w) (pgrp w) (background w) t.

(** The clock moves between two runs of the tool, never inside the model
    of one call. *)
Definition withNow (t : Z) (w : World) : World :=
  mkWorld (environ w) (files w) (readonly w) t (stdinIsTerminal w)
          (foreground w) (pgrp w) (background w) (trace w).

(** ** Stateful code: a state monad over [World] with errors and panics *)

Definition M (A : Type) : Type := World -> result A * World.

Definition ret {A : Type} (a : A) : M A := fun w => (Ok a, w).

Definition bind {A B : Type} (m : M A) (k : A -> M B) : M B :=
  fun w =>
    match m w with
    | (Ok a, w') => k a w'
    | (Err e, w') => (Err e, w')
    | (Panic p, w') => (Panic p, w')
    end.

Notation "x <- m ;; k" := (bind m (fun x => k))
  (at level 100, m at next level, right associativity).
Notation "m ;;; k" := (bind m (fun _ => k))
  (at level 100, right associativity).

Definition lift {A : Type} (r : result A) : M A := fun w => (r, w).

Definition gets {A : Type} (f : World -> A) : M A := fun w => (Ok (f w), w).

Definition emit (e : Event) : M unit :=
  fun w => (Ok tt, withTrace (trace w ++ [e]) w).

(** [fmt.Errorf(prefix + "%w", err)] on the error path of [m]. *)
Definition wrapErr {A : Type} (prefix : string) (m : M A) : M A :=
  fun w =>
    match m w with
    | (Err e, w') => (Err (prefix +:+ e), w')
    | r => r
    end.

(** [_ = f()]: the error a call returns is dropped. *)
Definition ignoreErr (m : M unit) : M unit :=
  fun w =>
    match m w with
    | (Err _, w') => (Ok tt, w')
    | r => r
    end.

(** ** Operating system calls *)

(** [os.Getenv]: the empty string when the variable is not set. *)
Definition os_Getenv (key : string) (w : World) : string :=
  default "" (environ w !! key).

(** [os.Environ] *)
Definition os_Environ (w : World) : list string :=
  (fun kv => fst kv +:+ "=" +:+ snd kv) <$> map_to_list (environ w).

(** [os.ReadFile]: [None] when the file cannot be read. *)
Definition os_ReadFile (path : string) (w : World) : option string :=
  content <$> files w !! path.

(** [os.Stat]: [None] (a nil [FileInfo]) when there is no such file. *)
Definition os_Stat (path : string) (w : World) : option File :=
  files w !! path.

(** [os.MkdirAll(dir, 0755)]; directories are not part of [World], the call
    is only recorded.  Every caller drops its error. *)
Definition os_MkdirAll (dir : string) : M unit := emit (EvMkdirAll dir).

(** [os.WriteFile(path, data, 0644)]: replaces the file and stamps it with
    the current time, or fails and leaves the file system as it was. *)
Definition os_WriteFile (path data : string) : M unit :=
  emit (EvWriteFile path data) ;;;
  fun w =>
    if decide (path ∈ readonly w) then (Err ("open " +:+ path +:+ ": permission denied"), w)
    else (Ok tt, withFiles (<[path := mkFile data (now w)]> (files w)) w).

(** ** Package [time] *)

(** [time.Hour], a [Duration] counts nanoseconds in an [int64]. *)
Definition Hour : Z := 3600 * 1000000000.
Definition minDuration : Z := - 2 ^ 63.
Definition maxDuration : Z := 2 ^ 63 - 1.

(** [t.Sub(u)]: the difference, saturated to the range of [Duration]. *)
Definition time_Sub (t u : Z) : Z :=
  let d := t - u in
  if d <? minDuration then minDuration
  else if maxDuration <? d then maxDuration
  else d.

(** [time.Since(t)] *)
Definition time_Since (t : Z) (w : World) : Z := time_Sub (now w) t.

(** ** The collaborators *)

(** [aws.Config]: the region and the rest (credentials of the profile). *)
Record Config : Type := mkConfig {
  Region : string;
  Credentials : string
}.

(** The client [secretsmanager.NewFromConfig] builds: the options copied
    from the configuration after the option functions have run. *)
Record SecretsClient : Type := mkSecretsClient {
  smRegion : string;
  smCredentials : string
}.

Definition secretsmanager_NewFromConfig (cfg : Config)
    (setRegion : string -> string) : SecretsClient :=
  mkSecretsClient (setRegion (Region cfg)) (Credentials cfg).

Record Endpoint : Type := mkEndpoint {
  Address : option string;
  EndpointPort : option Z
}.

(** [rdstypes.DBInstance]: every field is a pointer and may be nil. *)
Record DBInstance : Type := mkDBInstance {
  Engine : option string;
  DBInstanceIdentifier : option string;
  DBEndpoint : option Endpoint;
  DBInstanceClass : option string;
  EngineVersion : option string;
  ReadReplicaSourceDBInstanceIdentifier : option string
}.

(** [aws.ToString]: the empty string for nil. *)
Definition aws_ToString (p : option string) : string := default "" p.

Record Collaborators : Type := mkCollaborators {
  (** [filepath.Join(elem...)] *)
  filepath_Join : list string -> string;
  (** [json.Marshal] and [json.Unmarshal] at the types the tool uses *)
  json_MarshalEnvelope : CacheEnvelope -> string;
  json_UnmarshalEnvelope : string -> option CacheEnvelope;
  json_UnmarshalCreds : string -> result RDSCreds;
  json_UnmarshalConns : string -> option (list PritunlConnection);
  (** [fuzzyfinder.Find]: the index the user picks, or an error *)
  fuzzyfinder_Find : list InstanceInfo -> result Z;
  (** [awsconfig.LoadDefaultConfig] for a profile, with or without
      [WithRegion] *)
  awsconfig_LoadDefaultConfig : string -> option string -> result Config;
  (** [rdsClient.DescribeDBInstances] *)
  rds_DescribeDBInstances : Config -> result (list DBInstance);
  (** [sm.GetSecretValue]: the [SecretString] pointer of the answer *)
  secretsmanager_GetSecretValue :
    SecretsClient -> string -> result (option string);
  (** [exec.LookPath] *)
  exec_LookPath : string -> option string;
  (** [exec.Command(bin, args...).Output()] *)
  exec_Output : string -> list string -> result string;
  (** [cmd.Start]: the process id of the child *)
  cmd_Start : Cmd -> result Z;
  (** [cmd.Wait]: [None] when the child exits with status 0 *)
  cmd_Wait : Cmd -> Z -> option string
}.

(** [fmt.Sprintf("%d", n)] *)
Definition formatInt (n : Z) : string := NilZero.string_of_int (Z.to_int n).

(** The line feed that ends a printed line. *)
Definition nl : string := String (ascii_of_nat 10) "".

(** Options configures a connect run (profile, region, flags, args). *)
Record Options : Type := mkOptions {
  Profile : string;
  OptRegion : string;
  LastConnected : bool;
  Args : list string
}.

(** ** Package [connect] *)

Definition vpnProfileMapping : gmap string string :=
  list_to_map
    [("ackodev", "sso_ackodevvpnusers");
     ("ackoprod", "sso_ackoprodvpnusers");
     ("ackolife", "sso_ackolifevpnusers");
     ("ackodrive", "sso_ackodrive_prod")].

(** The loop of [ValidatePritunlConnections]: does some connection let the
    check pass? *)
Fixpoint vpnSatisfied (exists_ : bool) (requiredVPN : string)
    (conns : list PritunlConnection) : bool :=
  match conns with
  | [] => false
  | c :: rest =>
      if exists_ && Contains (Name c) requiredVPN && Connected c then true
      else if negb exists_ && Connected c then true
      else vpnSatisfied exists_ requiredVPN rest
  end.

(** ValidatePritunlConnections checks if connections satisfy the required
    VPN for profile. *)
Definition ValidatePritunlConnections (conns : list PritunlConnection)
    (profile : string) : result unit :=
  let requiredVPN := default "" (vpnProfileMapping !! profile) in
  let exists_ := bool_decide (is_Some (vpnProfileMapping !! profile)) in
  if vpnSatisfied exists_ requiredVPN conns then Ok tt
  else if exists_ then
    Err ("required VPN profile '" +:+ requiredVPN +:+ "' is not connected")
  else Err "no active VPN connection found".

(** [instances[idx]] for a Go [int] index. *)
Definition index {A : Type} (l : list A) (idx : Z) : result A :=
  match (if 0 <=? idx then l !! Z.to_nat idx else None) with
  | Some a => Ok a
  | None => Panic "index out of range"
  end.

(** [os/exec], [x/term] and [x/sys/unix] on file descriptor 0, the only one
    the tool asks about. *)
Definition term_IsTerminal (fd : Z) (w : World) : bool :=
  (fd =? 0) && stdinIsTerminal w.

(** [unix.IoctlSetPointerInt(fd, unix.TIOCSPGRP, pgid)]: asks the terminal
    behind [fd] to make [pgid] its foreground process group.  The terminal
    does so for a caller in its foreground group.  A caller in any other
    group is answered as [background] says: the call fails and the terminal
    stays as it is, or the tool is stopped by SIGTTOU.  A stopped call is
    taken up again whenever the tool is continued, and it is carried out,
    and returns, only once somebody else (the [fg] of a shell) has made the
    group of the tool the foreground group; what the trace holds after
    [EvSIGTTOU] happens only then. *)
Definition unix_IoctlSetPointerInt_TIOCSPGRP (fd pgid : Z) : M unit :=
  emit (EvTIOCSPGRP pgid) ;;;
  fun w =>
    if term_IsTerminal fd w then
      if pgrp w =? foreground w then (Ok tt, withForeground pgid w)
      else
        match background w with
        | Suspends =>
            (Ok tt, withForeground pgid (withTrace (trace w ++ [EvSIGTTOU]) w))
        | Fails errno => (Err errno, w)
        end
    else (Err "inappropriate ioctl for device", w).

(** [cmd.SysProcAttr = &syscall.SysProcAttr{Setpgid: true}]: the command
    will run in a process group of its own. *)
Definition inOwnGroup (cmd : Cmd) : Cmd :=
  mkCmd (cmdPath cmd) (cmdArgs cmd) (cmdEnv cmd) true.

(** The tests of the loops over the instance list: [inst.ID == name] and
    [strings.Contains(inst.ID, name)]. *)
Definition hasID (name : string) (inst : InstanceInfo) : bool :=
  String.eqb (ID inst) name.

Definition containsName (name : string) (inst : InstanceInfo) : bool :=
  Contains (ID inst) name.

Section Connect.

Variable C : Collaborators.

(** [getCacheDir], connect.go lines 23-28. *)
Definition getCacheDir (w : World) : string :=
  let d := os_Getenv "RDS_CACHE_DIR" w in
  if negb (String.eqb d "") then d
  else filepath_Join C [os_Getenv "HOME" w; ".cache"; "rds"].

(** CheckVPNWithPritunl runs the Pritunl client and validates the current
    VPN state for profile; a missing or failing CLI lets the flow
    continue. *)
Definition CheckVPNWithPritunl (profile : string) : M unit :=
  let bin := "/Applications/Pritunl.app/Contents/Resources/pritunl-client" in
  fun w =>
    match os_Stat bin w with
    | None => (Ok tt, w)
    | Some _ =>
        match exec_Output C bin ["list"; "-j"] with
        | Ok out =>
            match json_UnmarshalConns C out with
            | Some conns => (ValidatePritunlConnections conns profile, w)
            | None => (Ok tt, w)
            end
        | Err _ => (Ok tt, w)
        | Panic p => (Panic p, w)
        end
    end.

(** The cache file of a profile and region (line 78) and the
    last-selection file of a profile (lines 212 and 219). *)
Definition instancesFile (profile region : string) (w : World) : string :=
  filepath_Join C
    [getCacheDir w; profile +:+ "_" +:+ region +:+ "_instances.json"].

Definition lastConnectedFile (profile : string) (w : World) : string :=
  filepath_Join C [getCacheDir w; profile +:+ "_last_connected"].

(** Lines 80-88 of [GetInstancesWithCache]: the cached list when the
    cache file can be used, nothing when it cannot.  The modification
    time is only asked for once the version has matched. *)
Definition cachedInstances (cacheFile : string) (w : World)
    : result (option (list InstanceInfo)) :=
  match os_ReadFile cacheFile w with
  | Some data =>
      match json_UnmarshalEnvelope C data with
      | Some envelope =>
          if String.eqb (EnvVersion envelope) CacheVersion then
            match os_Stat cacheFile w with
            | Some info =>
                if time_Since (modTime info) w <? Hour
                then Ok (Some (Instances envelope))
                else Ok None
            | None => Panic "nil pointer dereference"
            end
          else Ok None
      | None => Ok None
      end
  | None => Ok None
  end.

(** The struct literal of lines 101-108; [None] when [db.Endpoint] or
    its port is nil and the dereference panics. *)
Definition toInstanceInfo (db : DBInstance) : option InstanceInfo :=
  match DBEndpoint db with
  | Some ep =>
      match EndpointPort ep with
      | Some port =>
          Some (mkInstanceInfo
                  (aws_ToString (DBInstanceIdentifier db))
                  (aws_ToString (Address ep))
                  (aws_ToString (DBInstanceClass db))
                  port
                  (aws_ToString (EngineVersion db))
                  (aws_ToString (ReadReplicaSourceDBInstanceIdentifier db)))
      | None => None
      end
  | None => None
  end.

(** The loop of lines 98-110: the PostgreSQL instances, in the order of
    the answer. *)
Fixpoint postgresInstances (dbs : list DBInstance)
    : result (list InstanceInfo) :=
  match dbs with
  | [] => Ok []
  | db :: rest =>
      if String.eqb (aws_ToString (Engine db)) "postgres" then
        match toInstanceInfo db with
        | Some inst =>
            match postgresInstances rest with
            | Ok instances => Ok (inst :: instances)
            | failure => failure
            end
        | None => Panic "nil pointer dereference"
        end
      else postgresInstances rest
  end.

(** Lines 92-110: the instances the cloud reports, PostgreSQL only. *)
Definition fetchInstances (cfg : Config) : M (list InstanceInfo) :=
  emit (EvDescribeDBInstances (Region cfg)) ;;;
  out <- lift (rds_DescribeDBInstances C cfg) ;;
  lift (postgresInstances out).

(** Lines 112-117: the envelope is written with the current version;
    neither call is checked for an error. *)
Definition saveCache (cacheDir cacheFile : string)
    (instances : list InstanceInfo) : M unit :=
  ignoreErr (os_MkdirAll cacheDir) ;;;
  (let newCacheData :=
     json_MarshalEnvelope C (mkCacheEnvelope CacheVersion instances) in
   ignoreErr (os_WriteFile cacheFile newCacheData)).

(** Lines 90-119: what is done when the cache cannot be used. *)
Definition refetchInstances (cfg : Config) (profile : string)
    (cacheDir cacheFile : string) : M (list InstanceInfo) :=
  emit (EvPrint ("🔍 Fetching RDS instances [" +:+ profile +:+ ":"
                 +:+ Region cfg +:+ "]..." +:+ nl)) ;;;
  instances <- fetchInstances cfg ;;
  saveCache cacheDir cacheFile instances ;;;
  ret instances.

(** GetInstancesWithCache returns RDS PostgreSQL instances (cached or
    from AWS). Profile is used for cache key. *)
Definition GetInstancesWithCache (cfg : Config) (profile : string)
    : M (list InstanceInfo) :=
  cacheDir <- gets getCacheDir ;;
  cacheFile <- gets (instancesFile profile (Region cfg)) ;;
  cached <- (fun w => (cachedInstances cacheFile w, w)) ;;
  match cached with
  | Some instances => ret instances
  | None => refetchInstances cfg profile cacheDir cacheFile
  end.

(** [pickWithFuzzyFinder], lines 122-134. *)
Definition pickWithFuzzyFinder (instances : list InstanceInfo)
    : result InstanceInfo :=
  match fuzzyfinder_Find C instances with
  | Ok idx => index instances idx
  | Err e => Err e
  | Panic p => Panic p
  end.

(** Lines 143-157 of [findByName]: the second pass, over the identifiers
    that contain [name]. *)
Definition substringMatch (instances : list InstanceInfo) (name : string)
    : result InstanceInfo :=
  let matches := List.filter (containsName name) instances in
  if (length matches =? 1)%nat then index matches 0
  else if (1 <? length matches)%nat then pickWithFuzzyFinder matches
  else Err ("no instance matching '" +:+ name +:+ "'").

(** [findByName], lines 136-158: the first instance whose identifier is
    [name], and the second pass when there is none. *)
Definition findByName (instances : list InstanceInfo) (name : string)
    : result InstanceInfo :=
  match List.find (hasID name) instances with
  | Some inst => Ok inst
  | None => substringMatch instances name
  end.

(** [getRDSCredentials], lines 174-196. *)
Definition getRDSCredentials (cfg : Config) (selected : InstanceInfo)
    (homeRegion : string) : M RDSCreds :=
  let secretTargetID := instanceSecretTargetID selected in
  (if negb (String.eqb (SourceID selected) "")
      && HasPrefix (SourceID selected) "arn:aws:rds:"
      && negb (String.eqb secretTargetID (ID selected))
   then emit (EvPrint ("🌐 DR Replica detected. Fetching master secret '"
                       +:+ secretTargetID +:+ "' from primary region: "
                       +:+ homeRegion +:+ nl))
   else ret tt) ;;;
  (let sm := secretsmanager_NewFromConfig cfg (fun _ => homeRegion) in
   let secretID := "root/" +:+ secretTargetID +:+ "/psql" in
   emit (EvGetSecretValue (smRegion sm) secretID) ;;;
   match secretsmanager_GetSecretValue C sm secretID with
   | Ok (Some secretString) => lift (json_UnmarshalCreds C secretString)
   | Ok None => lift (Panic "nil pointer dereference")
   | Err e =>
       lift (Err ("failed to fetch secret '" +:+ secretID +:+ "' in "
                  +:+ homeRegion +:+ ": " +:+ e))
   | Panic p => lift (Panic p)
   end).

(** [buildConnectArgs], lines 198-200. *)
Definition buildConnectArgs (inst : InstanceInfo) (creds : RDSCreds)
    : list string :=
  ["-h"; Host inst; "-p"; formatInt (Port inst);
   "-U"; Username creds; "-d"; "postgres"].

(** startAndWait runs the command in its own process group and gives it
    the terminal so only the child receives Ctrl+C (exec_unix.go). *)
Definition startAndWait (cmd : Cmd) : M unit :=
  let cmd := inOwnGroup cmd in
  emit (EvStart cmd) ;;;
  pid <- lift (cmd_Start C cmd) ;;
  (let fd := 0 in
   isTerminal <- gets (term_IsTerminal fd) ;;
   (if isTerminal : bool
    then ignoreErr (unix_IoctlSetPointerInt_TIOCSPGRP fd pid)
    else ret tt) ;;;
   emit (EvWait pid) ;;;
   (let err := cmd_Wait C cmd pid in
    isTerminal <- gets (term_IsTerminal fd) ;;
    (if isTerminal : bool
     then parent <- gets pgrp ;;
          ignoreErr (unix_IoctlSetPointerInt_TIOCSPGRP fd parent)
     else ret tt) ;;;
    match err with
    | Some e => lift (Err e)
    | None => ret tt
    end)).

(** [executeExternal], lines 202-208. *)
Definition executeExternal (bin : string) (inst : InstanceInfo)
    (creds : RDSCreds) : M unit :=
  let args := buildConnectArgs inst creds in
  environment <- gets os_Environ ;;
  (let cmd :=
     mkCmd bin args (environment ++ ["PGPASSWORD=" +:+ Password creds])
           false in
   ignoreErr (startAndWait cmd)).

(** [saveLastID], lines 210-215. *)
Definition saveLastID (id profile : string) : M unit :=
  cacheDir <- gets getCacheDir ;;
  path <- gets (lastConnectedFile profile) ;;
  ignoreErr (os_MkdirAll cacheDir) ;;;
  ignoreErr (os_WriteFile path id).

(** [loadLastConnected], lines 217-233. *)
Definition loadLastConnected (instances : list InstanceInfo)
    (profile : string) (w : World) : result InstanceInfo :=
  let path := lastConnectedFile profile w in
  match os_ReadFile path w with
  | None => Err ("no history found for profile '" +:+ profile +:+ "'")
  | Some data =>
      let lastID := TrimSpace data in
      match List.find (hasID lastID) instances with
      | Some inst => Ok inst
      | None =>
          Err ("last used instance '" +:+ lastID
               +:+ "' not found in current profile")
      end
  end.

(** [runNativeConnect], lines 235-271: the session with the database
    driver is a collaborator of its own; the model records that it is
    opened and with what. *)
Definition runNativeConnect (host : string) (port : Z)
    (user password dbname : string) : M unit :=
  emit (EvNativeConnect host port user password dbname).

(** [loadAWSConfig], lines 273-294. *)
Definition loadAWSConfig (profile region : string)
    : result (Config * string) :=
  match awsconfig_LoadDefaultConfig C profile (Some "ap-south-1") with
  | Ok homeCfg =>
      let homeRegion := Region homeCfg in
      let opts := if negb (String.eqb region "") then Some region else None in
      match awsconfig_LoadDefaultConfig C profile opts with
      | Ok cfg => Ok (cfg, homeRegion)
      | Err e => Err ("load AWS config: " +:+ e)
      | Panic p => Panic p
      end
  | Err e => Err ("load AWS config (home): " +:+ e)
  | Panic p => Panic p
  end.

(** The three ways of lines 37-43 to arrive at one instance. *)
Definition selectInstance (opts : Options) (instances : list InstanceInfo)
    (w : World) : result InstanceInfo :=
  match Args opts with
  | name :: _ => findByName instances name
  | [] =>
      if LastConnected opts then loadLastConnected instances (Profile opts) w
      else pickWithFuzzyFinder instances
  end.

(** Lines 57-70: the client that is launched. *)
Definition launch (selected : InstanceInfo) (creds : RDSCreds) : M unit :=
  match exec_LookPath C "pgcli" with
  | Some path =>
      emit (EvPrint ("✨ Launching pgcli..." +:+ nl)) ;;;
      executeExternal path selected creds
  | None =>
      match exec_LookPath C "psql" with
      | Some path =>
          emit (EvPrint ("📂 Launching psql..." +:+ nl)) ;;;
          executeExternal path selected creds
      | None =>
          emit (EvPrint ("⚠️  No binary clients found. Launching Native Fallback..."
                         +:+ nl)) ;;;
          runNativeConnect (Host selected) (Port selected)
                           (Username creds) (Password creds) "postgres"
      end
  end.

(** Lines 20-22 of [Run]: a failed VPN check is only reported. *)
Definition vpnWarning (profile : string) : M unit :=
  fun w =>
    match CheckVPNWithPritunl profile w with
    | (Err e, w') =>
        emit (EvPrint ("⚠️  VPN check: " +:+ e +:+ " (continuing anyway)"
                       +:+ nl)) w'
    | r => r
    end.

(** Line 55 of [Run]. *)
Definition printTarget (selected : InstanceInfo) : M unit :=
  emit (EvPrint (nl +:+ "🚀 Target: " +:+ ID selected +:+ " ["
                 +:+ Host selected +:+ "]" +:+ nl)).

(** Run performs optional VPN check, instance selection, credential
    fetch, and launches pgcli/psql or native client. *)
Definition Run (opts : Options) : M unit :=
  vpnWarning (Profile opts) ;;;
  loaded <- lift (loadAWSConfig (Profile opts) (OptRegion opts)) ;;
  (let cfg := fst loaded in
   let homeRegion := snd loaded in
   instances <- wrapErr "fetch instances: "
                  (GetInstancesWithCache cfg (Profile opts)) ;;
   selected <- wrapErr "selection: "
                 (fun w => (selectInstance opts instances w, w)) ;;
   creds <- wrapErr "secrets: "
              (getRDSCredentials cfg selected homeRegion) ;;
   saveLastID (ID selected) (Profile opts) ;;;
   printTarget selected ;;;
   launch selected creds).

End Connect.

(** ** Vocabulary of the properties *)

(** The cache file at [path] may be used and holds [instances]: it can be
    read, its content parses as an envelope with the current version tag,
    and it was last modified less than one hour ago. *)
Definition usableCache (C : Collaborators) (path : string) (w : World)
    (instances : list InstanceInfo) : Prop :=
  exists file envelope,
    files w !! path = Some file /\
    json_UnmarshalEnvelope C (content file) = Some envelope /\
    EnvVersion envelope = CacheVersion /\
    now w - modTime file < Hour /\
    instances = Instances envelope.

(** [evs] holds a write to the file at [path]. *)
Definition writesTo (path : string) (evs : list Event) : Prop :=
  exists data, In (EvWriteFile path data) evs.

(** World [w'] is reached from [w] by the events [evs]: the trace grows by
    them, the environment, the permissions and the clock stay, and a file
    is as it was unless [evs] write to it. *)
Definition steps (evs : list Event) (w w' : World) : Prop :=
  trace w' = trace w ++ evs /\
  environ w' = environ w /\
  readonly w' = readonly w /\
  now w' = now w /\
  (forall path, ~ writesTo path evs -> files w' !! path = files w !! path).

(** Lines 20-32 of [Run]: everything before the selection. *)
Definition discover (C : Collaborators) (opts : Options)
    : M (Config * string * list InstanceInfo) :=
  vpnWarning C (Profile opts) ;;;
  loaded <- lift (loadAWSConfig C (Profile opts) (OptRegion opts)) ;;
  instances <- wrapErr "fetch instances: "
                 (GetInstancesWithCache C (fst loaded) (Profile opts)) ;;
  ret (fst loaded, snd loaded, instances).

(** The restoring call of [startAndWait] is among the events the call adds
    to the trace of [w]. *)
Definition restoreExecuted (C : Collaborators) (cmd : Cmd) (w : World) : Prop :=
  In (EvTIOCSPGRP (pgrp w))
     (drop (length (trace w)) (trace (snd (startAndWait C cmd w)))).

(** The events of a handoff: the start of the child, the wait for it, the
    calls on the terminal and the stop they can bring about. *)
Definition handoffEvent (e : Event) : bool :=
  match e with
  | EvStart _ | EvWait _ | EvTIOCSPGRP _ | EvSIGTTOU => true
  | _ => false
  end.

(** ** Sample collaborators and worlds *)

(** A small installation on which the model can be run: a path join for
    clean elements, an encoder and a decoder for the JSON layout of the two
    files the tool exchanges, a fleet of three databases, and a terminal. *)
Module Sample.

(** [filepath.Join] on elements that are already clean: the non-empty
    ones, separated by a slash. *)
Definition joinPath (elems : list string) : string :=
  Join (List.filter (fun e => negb (String.eqb e "")) elems) "/".

Definition dq : string := String (ascii_of_nat 34) "".

Definition jsonString (s : string) : string := dq +:+ s +:+ dq.

Definition jsonField (key value : string) : string :=
  jsonString key +:+ ":" +:+ value.

Definition jsonInstance (i : InstanceInfo) : string :=
  "{" +:+ Join [jsonField "id" (jsonString (ID i));
                jsonField "host" (jsonString (Host i));
                jsonField "size" (jsonString (Size i));
                jsonField "port" (formatInt (Port i));
                jsonField "version" (jsonString (Version i));
                jsonField "source_id" (jsonString (SourceID i))] ","
      +:+ "}".

(** The text [json.Marshal] produces for an envelope whose strings need
    no escaping; a nil slice is written [null]. *)
Definition marshalEnvelope (e : CacheEnvelope) : string :=
  "{" +:+ jsonField "version" (jsonString (EnvVersion e)) +:+ ","
      +:+ jsonField "instances"
            (match Instances e with
             | [] => "null"
             | l => "[" +:+ Join (map jsonInstance l) "," +:+ "]"
             end)
      +:+ "}".

(** A parser reads a value off the front of the input. *)
Definition Parser (A : Type) : Type := string -> option (A * string).

Definition pure {A : Type} (a : A) : Parser A := fun s => Some (a, s).

Definition andThen {A B : Type} (p : Parser A) (k : A -> Parser B)
    : Parser B :=
  fun s => match p s with
           | Some (a, rest) => k a rest
           | None => None
           end.

Definition orElse {A : Type} (p q : Parser A) : Parser A :=
  fun s => match p s with
           | Some r => Some r
           | None => q s
           end.

Definition expect (lit : string) : Parser unit :=
  fun s => if HasPrefix s lit
           then Some (tt, dropBytes (String.length lit) s)
           else None.

Fixpoint upToQuote (s : string) : option (string * string) :=
  match s with
  | EmptyString => None
  | String c rest =>
      if Ascii.eqb c (ascii_of_nat 34) then Some ("", rest)
      else match upToQuote rest with
           | Some (body, rest') => Some (String c body, rest')
           | None => None
           end
  end.

Definition quoted : Parser string :=
  andThen (expect dq) (fun _ => upToQuote).

Definition isDigit (c : ascii) : bool :=
  let n := nat_of_ascii c in ((48 <=? n) && (n <=? 57))%nat.

Fixpoint digits (s : string) : string * string :=
  match s with
  | EmptyString => ("", "")
  | String c rest =>
      if isDigit c || Ascii.eqb c "-"
      then let '(d, rest') := digits rest in (String c d, rest')
      else ("", s)
  end.

Definition integer : Parser Z :=
  fun s => let '(d, rest) := digits s in
           match NilZero.int_of_string d with
           | Some n => Some (Z.of_int n, rest)
           | None => None
           end.

Definition field {A : Type} (key : string) (value : Parser A) : Parser A :=
  andThen (expect (jsonField key "")) (fun _ => value).

Definition parseInstance : Parser InstanceInfo :=
  andThen (expect "{") (fun _ =>
  andThen (field "id" quoted) (fun id =>
  andThen (expect ",") (fun _ =>
  andThen (field "host" quoted) (fun host =>
  andThen (expect ",") (fun _ =>
  andThen (field "size" quoted) (fun size =>
  andThen (expect ",") (fun _ =>
  andThen (field "port" integer) (fun port =>
  andThen (expect ",") (fun _ =>
  andThen (field "version" quoted) (fun version =>
  andThen (expect ",") (fun _ =>
  andThen (field "source_id" quoted) (fun source =>
  andThen (expect "}") (fun _ =>
  pure (mkInstanceInfo id host size port version source)))))))))))))).

Fixpoint parseInstances (fuel : nat) : Parser (list InstanceInfo) :=
  match fuel with
  | O => fun _ => None
  | S fuel' =>
      andThen parseInstance (fun inst =>
      orElse (andThen (expect "]") (fun _ => pure [inst]))
             (andThen (expect ",") (fun _ =>
              andThen (parseInstances fuel') (fun rest =>
              pure (inst :: rest)))))
  end.

Definition parseEnvelope (fuel : nat) : Parser CacheEnvelope :=
  andThen (expect "{") (fun _ =>
  andThen (field "version" quoted) (fun version =>
  andThen (expect ",") (fun _ =>
  andThen (field "instances"
             (orElse (andThen (expect "null") (fun _ => pure []))
             (orElse (andThen (expect "[]") (fun _ => pure []))
                     (andThen (expect "[") (fun _ => parseInstances fuel)))))
          (fun instances =>
  andThen (expect "}") (fun _ =>
  pure (mkCacheEnvelope version instances)))))).

(** [json.Unmarshal] into an envelope, for the layout above. *)
Definition unmarshalEnvelope (data : string) : option CacheEnvelope :=
  match parseEnvelope (String.length data) data with
  | Some (envelope, EmptyString) => Some envelope
  | _ => None
  end.

(** [json.Unmarshal] into credentials. *)
Definition unmarshalCreds (data : string) : result RDSCreds :=
  match andThen (expect "{") (fun _ =>
        andThen (field "username" quoted) (fun user =>
        andThen (expect ",") (fun _ =>
        andThen (field "password" quoted) (fun password =>
        andThen (expect "}") (fun _ =>
        pure (mkRDSCreds user password)))))) data with
  | Some (creds, EmptyString) => Ok creds
  | _ => Err "invalid character looking for beginning of value"
  end.

Definition database (engine id host class version : string)
    (source : option string) : DBInstance :=
  mkDBInstance (Some engine) (Some id)
    (Some (mkEndpoint (Some host) (Some 5432)))
    (Some class) (Some version) source.

Definition fleet : list DBInstance :=
  [database "postgres" "staging-db-1" "staging.xxx.rds.amazonaws.com"
            "db.t3.small" "14" None;
   database "mysql" "orders-mysql" "orders.xxx.rds.amazonaws.com"
            "db.t3.small" "8.0" None;
   database "postgres" "metabasedev-poc"
            "metabasedev-poc.xxxxx.ap-south-1.rds.amazonaws.com"
            "db.t3.micro" "15" None].

Definition secretPayload : string :=
  "{" +:+ jsonField "username" (jsonString "postgres") +:+ ","
      +:+ jsonField "password" (jsonString "test-secret") +:+ "}".

(** Collaborators that answer a secret lookup with [secret], start a
    child with [start] and end the wait for it with [wait]; the only
    client installed is psql, the user picks the first candidate. *)
Definition collaborators (secret : result (option string))
    (start : result Z) (wait : option string) : Collaborators :=
  mkCollaborators
    joinPath
    marshalEnvelope
    unmarshalEnvelope
    unmarshalCreds
    (fun _ => None)
    (fun _ => Ok 0)
    (fun profile region =>
       Ok (mkConfig (default "eu-west-1" region) profile))
    (fun _ => Ok fleet)
    (fun _ _ => secret)
    (fun name => if String.eqb name "psql" then Some "/usr/bin/psql"
                 else None)
    (fun _ _ => Err "exit status 1")
    (fun _ => start)
    (fun _ _ => wait).

(** Everything works. *)
Definition healthy : Collaborators :=
  collaborators (Ok (Some secretPayload)) (Ok 4242) None.

(** A fresh machine: empty cache directory, interactive terminal owned
    by the tool's process group 100, which a shell with job control has
    started, clock at [t]. *)
Definition freshWorld (t : Z) : World :=
  mkWorld {[ "RDS_CACHE_DIR" := "/tmp/rds" ]} ∅ ∅ t true 100 100 Suspends [].

Definition metabase : InstanceInfo :=
  mkInstanceInfo "metabasedev-poc"
    "metabasedev-poc.xxxxx.ap-south-1.rds.amazonaws.com"
    "db.t3.micro" 5432 "15" "".

Definition staging : InstanceInfo :=
  mkInstanceInfo "staging-db-1" "staging.xxx.rds.amazonaws.com"
    "db.t3.small" 5432 "14" "".

(** The configuration [collaborators] load for the profile [testprofile]
    and its cache file once a first call has fetched the fleet, seen at
    time [t]. *)
Definition config : Config := mkConfig "eu-west-1" "testprofile".

Definition cachedWorld (t : Z) : World :=
  withNow t (snd (GetInstancesWithCache healthy config "testprofile"
                    (freshWorld 0))).

Definition byName (name : string) : Options :=
  mkOptions "testprofile" "" false [name].

(** The secret store refuses the lookup. *)
Definition denied : Collaborators :=
  collaborators (Err "AccessDeniedException") (Ok 4242) None.

(** The client starts and ends with a failure. *)
Definition failingClient : Collaborators :=
  collaborators (Ok (Some secretPayload)) (Ok 4242) (Some "exit status 1").

Definition lastFile : string := "/tmp/rds/testprofile_last_connected".

Definition psql : Cmd :=
  mkCmd "/usr/bin/psql" ["-h"; "localhost"] [] false.

End Sample.

(** ** More of the Go standard library *)

Module GoStringsMore.

(** [strings.HasSuffix(s, suffix)]:
    [len(s) >= len(suffix) && s[len(s)-len(suffix):] == suffix]. *)
Definition HasSuffix (s suffix : string) : bool :=
  (String.length suffix <=? String.length s)%nat &&
  String.eqb (dropBytes (String.length s - String.length suffix) s) suffix.

(** Is byte [c] one of the bytes of [cutset]? *)
Fixpoint byteIn (c : ascii) (cutset : string) : bool :=
  match cutset with
  | EmptyString => false
  | String x rest => Ascii.eqb c x || byteIn c rest
  end.

(** [strings.TrimLeft] and [strings.TrimRight] for a cut set of ASCII
    characters, which Go trims byte by byte. *)
Fixpoint TrimLeft (s cutset : string) : string :=
  match s with
  | EmptyString => EmptyString
  | String c rest => if byteIn c cutset then TrimLeft rest cutset else s
  end.

Fixpoint TrimRight (s cutset : string) : string :=
  match s with
  | EmptyString => EmptyString
  | String c rest =>
      match TrimRight rest cutset with
      | EmptyString => if byteIn c cutset then EmptyString else String c ""
      | kept => String c kept
      end
  end.

(** [strings.Trim(s, cutset)], for an ASCII cut set. *)
Definition Trim (s cutset : string) : string :=
  TrimLeft (TrimRight s cutset) cutset.

End GoStringsMore.

Import GoStringsMore.

(** The horizontal tab of ["%s\t%s"]. *)
Definition tab : string := String (ascii_of_nat 9) "".

(** ** Package [cmd]: the command line *)

(** [cobra.ShellCompDirective], the two values the tool returns. *)
Inductive ShellCompDirective : Type :=
| ShellCompDirectiveError
| ShellCompDirectiveNoFileComp.

(** How [runConnect] ends: it returns, it leaves the process through
    [os.Exit], or it panics. *)
Inductive Exit : Type :=
| Returned
| Exited (code : Z)
| Panicked (msg : string).

(** The loop of lines 94-99 of the completion of [rds connect]: one line
    ["<id>\t<size>"] per instance whose identifier starts with what has
    been typed. *)
Definition completionLine (inst : InstanceInfo) : string :=
  ID inst +:+ tab +:+ Size inst.

Definition startsWith (toComplete : string) (inst : InstanceInfo) : bool :=
  HasPrefix (ID inst) toComplete.

Definition instanceCompletions (instances : list InstanceInfo)
    (toComplete : string) : list string :=
  map completionLine (List.filter (startsWith toComplete) instances).

(** The section names of an AWS credentials file that start with what has
    been typed: the loop of lines 53-62 of root.go. *)
Definition isSectionLine (line : string) : bool :=
  HasPrefix line "[" && HasSuffix line "]".

Definition profilesIn (data toComplete : string) : list string :=
  List.filter (fun profile => HasPrefix profile toComplete)
    (map (fun line => Trim line "[]")
       (List.filter isSectionLine (Split data nl))).

Section CommandLine.

Variable C : Collaborators.

(** [connectCmd.ValidArgsFunction], connect.go of package [cmd], lines
    67-101; [awsProfile] is the global the [--profile] flag sets, [rFlag]
    the value of the [--region] flag. *)
Definition connectValidArgs (awsProfile rFlag : string) (args : list string)
    (toComplete : string) : M (list string * ShellCompDirective) :=
  fun w =>
    if (0 <? length args)%nat then (Ok ([], ShellCompDirectiveNoFileComp), w)
    else
      let region :=
        if negb (String.eqb rFlag "") then Some rFlag
        else if negb (String.eqb (os_Getenv "AWS_REGION" w) "")
             then Some (os_Getenv "AWS_REGION" w)
             else None in
      match awsconfig_LoadDefaultConfig C awsProfile region with
      | Ok cfg =>
          match GetInstancesWithCache C cfg awsProfile w with
          | (Ok instances, w') =>
              (Ok (instanceCompletions instances toComplete,
                   ShellCompDirectiveNoFileComp), w')
          | (Err _, w') => (Ok ([], ShellCompDirectiveError), w')
          | (Panic p, w') => (Panic p, w')
          end
      | Err _ => (Ok ([], ShellCompDirectiveError), w)
      | Panic p => (Panic p, w)
      end.

(** The completion of the [--profile] flag, root.go lines 44-64; on Unix
    [os.UserHomeDir] is the value of [HOME]. *)
Definition profileFlagCompletion (toComplete : string) (w : World)
    : list string * ShellCompDirective :=
  let home := os_Getenv "HOME" w in
  let credsPath := filepath_Join C [home; ".aws"; "credentials"] in
  match os_ReadFile credsPath w with
  | None => ([], ShellCompDirectiveError)
  | Some data => (profilesIn data toComplete, ShellCompDirectiveNoFileComp)
  end.

(** [runConnect], connect.go of package [cmd], lines 106-120. *)
Definition runConnect (awsProfile awsRegion : string) (lastConnected : bool)
    (args : list string) (w : World) : Exit * World :=
  let opts := mkOptions awsProfile awsRegion lastConnected args in
  match Run C opts w with
  | (Ok _, w') => (Returned, w')
  | (Err e, w') => (Exited 1, snd (emit (EvPrint ("❌ " +:+ e +:+ nl)) w'))
  | (Panic p, w') => (Panicked p, w')
  end.

End CommandLine.

(** ** Package [cmd] before the split: the earlier credential lookup *)

Module Legacy.

Section Legacy.

Variable C : Collaborators.

(** Lines 345-357 of the earlier [getRDSCredentials]: the secret target,
    and whether the replica notice is printed. *)
Definition secretTarget (selected : InstanceInfo) : string * bool :=
  if negb (String.eqb (SourceID selected) "") then
    if HasPrefix (SourceID selected) "arn:aws:rds:" then
      let parts := Split (SourceID selected) ":" in
      if (7 <=? length parts)%nat then (nth 6 parts "", true)
      else (ID selected, false)
    else (SourceID selected, false)
  else (ID selected, false).

(** [getRDSCredentials] of package [cmd], lines 343-375. *)
Definition getRDSCredentials (cfg : Config) (selected : InstanceInfo)
    (homeRegion : string) : M RDSCreds :=
  let secretTargetID := fst (secretTarget selected) in
  (if snd (secretTarget selected)
   then emit (EvPrint ("🌐 DR Replica detected. Fetching master secret '"
                       +:+ secretTargetID +:+ "' from primary region: "
                       +:+ homeRegion +:+ nl))
   else ret tt) ;;;
  (let sm := secretsmanager_NewFromConfig cfg (fun _ => homeRegion) in
   let secretID := "root/" +:+ secretTargetID +:+ "/psql" in
   emit (EvGetSecretValue (smRegion sm) secretID) ;;;
   match secretsmanager_GetSecretValue C sm secretID with
   | Ok (Some secretString) => lift (json_UnmarshalCreds C secretString)
   | Ok None => lift (Panic "nil pointer dereference")
   | Err e =>
       lift (Err ("failed to fetch secret '" +:+ secretID +:+ "' in "
                  +:+ homeRegion +:+ ": " +:+ e))
   | Panic p => lift (Panic p)
   end).

End Legacy.

End Legacy.

(** ** The session of the native client *)

(** The database driver: opening a connection string, the round trip of
    [db.Ping], and [db.Query] with the column names and the rows of the
    answer, every value as [%v] prints it.  A call fails with [inl]. *)
Record Driver : Type := mkDriver {
  sql_Open : string -> string + unit;
  db_Ping : string -> string + unit;
  db_Query : string -> string -> string + (list string * list (list string))
}.

(** What a session does, in order. *)
Inductive SessionEvent : Type :=
| Printed (text : string)
| Queried (query : string)
| Crashed (msg : string)
| ClosedPrompt
| ClosedDB.

Section NativeSession.

Variable D : Driver.

(** [executeAndPrint], connect.go lines 296-318, on the connection opened
    with [conn]. *)
Definition executeAndPrint (conn query : string) : list SessionEvent :=
  Queried query ::
  match db_Query D conn query with
  | inl e => [Printed ("ERROR: " +:+ e +:+ nl)]
  | inr (cols, rows) =>
      Printed (Join cols " | " +:+ nl) ::
      flat_map (fun row => map (fun val => Printed (val +:+ " | ")) row
                           ++ [Printed nl]) rows
  end.

(** The loop of lines 257-270 on the lines [rl.Readline] returns before its
    first error (end of input, interrupt). *)
Fixpoint readEvalPrint (conn : string) (typed : list string)
    : list SessionEvent :=
  match typed with
  | [] => []
  | line :: rest =>
      let query := TrimSpace line in
      if String.eqb query "" then readEvalPrint conn rest
      else if String.eqb query "exit" || String.eqb query "quit" then []
      else executeAndPrint conn query ++ readEvalPrint conn rest
  end.

(** [runNativeConnect], lines 235-271, with the session written out;
    [typed] is [None] when [readline.NewEx] fails, which leaves [rl] nil
    for the first [Readline].  The deferred calls close the prompt, then
    the database. *)
Definition nativeSession (host : string) (port : Z)
    (user password dbname : string) (typed : option (list string))
    : list SessionEvent :=
  let connStr :=
    "host=" +:+ host +:+ " port=" +:+ formatInt port +:+ " user=" +:+ user
    +:+ " password=" +:+ password +:+ " dbname=" +:+ dbname
    +:+ " sslmode=require" in
  match sql_Open D connStr with
  | inl e => [Printed ("❌ Connection Error: " +:+ e +:+ nl)]
  | inr _ =>
      match db_Ping D connStr with
      | inl e => [Printed ("❌ Connection Failed: " +:+ e +:+ nl); ClosedDB]
      | inr _ =>
          Printed ("✅ Connected to " +:+ host +:+ " (Native Mode)" +:+ nl) ::
          match typed with
          | Some lines => readEvalPrint connStr lines ++ [ClosedPrompt; ClosedDB]
          | None => [Crashed "nil pointer dereference"; ClosedDB]
          end
      end
  end.

End NativeSession.

(** ** Vocabulary of the further properties *)

(** A database is a PostgreSQL one. *)
Definition isPostgres (db : DBInstance) : bool :=
  String.eqb (aws_ToString (Engine db)) "postgres".

(** The queries a session sends to the database, in order. *)
Definition queriesOf (evs : list SessionEvent) : list string :=
  omap (fun e => match e with Queried q => Some q | _ => None end) evs.

(** A typed line ends the session. *)
Definition isExit (query : string) : bool :=
  String.eqb query "exit" || String.eqb query "quit".

(** The longest prefix of a list whose elements pass a test. *)
Fixpoint takeUntil {A : Type} (stop : A -> bool) (l : list A) : list A :=
  match l with
  | [] => []
  | a :: rest => if stop a then [] else a :: takeUntil stop rest
  end.

(** The events a computation adds to the trace. *)
Definition eventsOf {A : Type} (m : M A) (w : World) : list Event :=
  drop (length (trace w)) (trace (snd (m w))).

(** The source of an instance names a replica source by resource name with
    at least seven fields. *)
Definition arnReplica (selected : InstanceInfo) : Prop :=
  HasPrefix (SourceID selected) "arn:aws:rds:" = true /\
  (7 <= length (Split (SourceID selected) ":"))%nat.

(** ** Further sample collaborators *)

Module Scenario.

(** [Sample.healthy] with another answer of the cloud. *)
Definition withCloud (cloud : result (list DBInstance)) : Collaborators :=
  mkCollaborators
    (filepath_Join Sample.healthy)
    (json_MarshalEnvelope Sample.healthy)
    (json_UnmarshalEnvelope Sample.healthy)
    (json_UnmarshalCreds Sample.healthy)
    (json_UnmarshalConns Sample.healthy)
    (fuzzyfinder_Find Sample.healthy)
    (awsconfig_LoadDefaultConfig Sample.healthy)
    (fun _ => cloud)
    (secretsmanager_GetSecretValue Sample.healthy)
    (exec_LookPath Sample.healthy)
    (exec_Output Sample.healthy)
    (cmd_Start Sample.healthy)
    (cmd_Wait Sample.healthy).

(** The cloud cannot be reached. *)
Definition offline : Collaborators :=
  withCloud (Err "RequestError: send request failed").

(** The cache file of the sample profile cannot be written. *)
Definition readonlyWorld (t : Z) : World :=
  mkWorld {[ "RDS_CACHE_DIR" := "/tmp/rds" ]} ∅
          {[ "/tmp/rds/testprofile_eu-west-1_instances.json" ]}
          t true 100 100 Suspends [].

(** The tool has no shell above it in its session (the one process of a
    container that was given a terminal): its process group is orphaned,
    and the terminal fails the calls a background group makes. *)
Definition orphaned (t : Z) : World :=
  mkWorld {[ "RDS_CACHE_DIR" := "/tmp/rds" ]} ∅ ∅
          t true 100 100 (Fails "input/output error") [].

(** The profile is not configured. *)
Definition noProfile : Collaborators :=
  mkCollaborators
    (filepath_Join Sample.healthy)
    (json_MarshalEnvelope Sample.healthy)
    (json_UnmarshalEnvelope Sample.healthy)
    (json_UnmarshalCreds Sample.healthy)
    (json_UnmarshalConns Sample.healthy)
    (fuzzyfinder_Find Sample.healthy)
    (fun _ _ => Err "failed to get shared config profile, testprofile")
    (rds_DescribeDBInstances Sample.healthy)
    (secretsmanager_GetSecretValue Sample.healthy)
    (exec_LookPath Sample.healthy)
    (exec_Output Sample.healthy)
    (cmd_Start Sample.healthy)
    (cmd_Wait Sample.healthy).

(** psql is found but cannot be started. *)
Definition missingClient : Collaborators :=
  Sample.collaborators (Ok (Some Sample.secretPayload))
    (Err "fork/exec /usr/bin/psql: permission denied") None.

(** A home directory with an AWS credentials file of three sections, the
    last of which ends in a carriage return. *)
Definition credentials : string :=
  Join ["[default]"; "aws_access_key_id = AKIAEXAMPLE"; "[dev-admin]";
        "aws_access_key_id = AKIAEXAMPLE"; "[dev-crlf]" +:+ String (ascii_of_nat 13) "";
        ""] nl.

Definition awsWorld : World :=
  mkWorld {[ "HOME" := "/home/u" ]}
          {[ "/home/u/.aws/credentials" := mkFile credentials 0 ]}
          ∅ 0 true 100 100 Suspends [].

(** The Pritunl client is installed and reports the VPN of the profile
    [ackodev] as not connected. *)
Definition vpnDown : Collaborators :=
  mkCollaborators
    (filepath_Join Sample.healthy)
    (json_MarshalEnvelope Sample.healthy)
    (json_UnmarshalEnvelope Sample.healthy)
    (json_UnmarshalCreds Sample.healthy)
    (fun _ => Some [mkPritunlConnection "sso_ackodevvpnusers" false])
    (fuzzyfinder_Find Sample.healthy)
    (awsconfig_LoadDefaultConfig Sample.healthy)
    (rds_DescribeDBInstances Sample.healthy)
    (secretsmanager_GetSecretValue Sample.healthy)
    (exec_LookPath Sample.healthy)
    (fun _ _ => Ok "[...]")
    (cmd_Start Sample.healthy)
    (cmd_Wait Sample.healthy).

Definition pritunlWorld : World :=
  mkWorld {[ "RDS_CACHE_DIR" := "/tmp/rds" ]}
          {[ "/Applications/Pritunl.app/Contents/Resources/pritunl-client"
             := mkFile "" 0 ]}
          ∅ 0 true 100 100 Suspends [].

(** A database that answers [select 1] and rejects everything else. *)
Definition database : Driver :=
  mkDriver
    (fun _ => inr tt)
    (fun _ => inr tt)
    (fun _ query =>
       if String.eqb query "select 1" then inr (["?column?"], [["1"]])
       else inl "pq: syntax error").

(** A database that cannot be reached. *)
Definition unreachable : Driver :=
  mkDriver
    (fun _ => inr tt)
    (fun _ => inl "dial tcp: i/o timeout")
    (fun _ _ => inl "sql: database is closed").

End Scenario.

(* ===================================================================== *)
(** * Part II: properties *)
(* ===================================================================== *)

(** ** Strings *)

Section StringFacts.

(** The two equations of [append]. *)
Lemma append_empty_l (s : string) : "" +:+ s = s.
Proof. reflexivity. Qed.

Lemma append_cons (c : ascii) (s t : string) :
  String c s +:+ t = String c (s +:+ t).
Proof. reflexivity. Qed.

Lemma append_empty_r (s : string) : s +:+ "" = s.
Proof.
  induction s as [|c s IH]; [reflexivity |].
  now rewrite append_cons, IH.
Qed.

Lemma append_assoc (a b c : string) : (a +:+ b) +:+ c = a +:+ (b +:+ c).
Proof.
  induction a as [|x a IH]; [reflexivity |].
  now rewrite !append_cons, IH.
Qed.

(** [HasPrefix s p] holds exactly when [s] is [p] followed by something. *)
Lemma HasPrefix_spec (s p : string) :
  HasPrefix s p = true <-> exists rest, s = p +:+ rest.
Proof.
  revert s. induction p as [|x p IH]; intros s; simpl.
  - split; [intros _; now exists s | reflexivity].
  - destruct s as [|c s]; simpl.
    + split; [discriminate | intros [rest H]; discriminate].
    + rewrite andb_true_iff, Ascii.eqb_eq, IH. split.
      * intros [-> [rest ->]]. now exists rest.
      * intros [rest H]. rewrite append_cons in H. injection H as -> ->.
        split; [reflexivity | now exists rest].
Qed.

Lemma HasPrefix_empty (s : string) : HasPrefix s "" = true.
Proof. now destruct s. Qed.

Lemma HasPrefix_append (p rest : string) : HasPrefix (p +:+ rest) p = true.
Proof. apply HasPrefix_spec. now exists rest. Qed.

(** One step of [Contains]. *)
Lemma Contains_cons (c : ascii) (s sub : string) :
  Contains (String c s) sub = HasPrefix (String c s) sub || Contains s sub.
Proof. reflexivity. Qed.

(** [Contains s sub] holds exactly when [sub] occurs somewhere in [s]. *)
Lemma Contains_spec (s sub : string) :
  Contains s sub = true <-> exists pre post, s = pre +:+ sub +:+ post.
Proof.
  induction s as [|c s IH].
  - cbn [Contains]. rewrite orb_false_r, HasPrefix_spec. split.
    + intros [rest H]. now exists "", rest.
    + intros [pre [post H]]. destruct pre; [now exists post | discriminate].
  - rewrite Contains_cons, orb_true_iff, IH, HasPrefix_spec. split.
    + intros [[rest H] | [pre [post H]]].
      * now exists "", rest.
      * exists (String c pre), post. now rewrite append_cons, H.
    + intros [pre [post H]]. destruct pre as [|x pre].
      * left. now exists post.
      * right. rewrite append_cons in H. injection H as _ H.
        now exists pre, post.
Qed.

(** An identifier contains itself: an exact match is a substring match. *)
Lemma Contains_refl (s : string) : Contains s s = true.
Proof.
  apply Contains_spec. exists "", "".
  now rewrite append_empty_r.
Qed.

Lemma colonFree_cons (c : ascii) (f : string) :
  colonFree (String c f) -> c <> ":"%char /\ colonFree f.
Proof.
  unfold colonFree. rewrite Contains_cons, orb_false_iff.
  cbn [HasPrefix]. rewrite andb_true_r.
  intros [H H']. split; [now apply Ascii.eqb_neq | exact H'].
Qed.

(** Reading a colon-free field moves it into the current field. *)
Lemma splitFrom_field (f cur rest : string) :
  colonFree f ->
  splitFrom O cur (f +:+ rest) ":" = splitFrom O (cur +:+ f) rest ":".
Proof.
  revert cur. induction f as [|c f IH]; intros cur Hf.
  - now rewrite append_empty_r.
  - apply colonFree_cons in Hf as [Hc Hf].
    apply Ascii.eqb_neq in Hc.
    rewrite append_cons. cbn [splitFrom HasPrefix].
    rewrite Hc. cbn [andb].
    rewrite IH by exact Hf.
    now rewrite append_assoc.
Qed.

(** Splitting on colons undoes joining colon-free fields with colons. *)
Lemma Split_Join (fields : list string) :
  fields <> [] -> Forall colonFree fields ->
  Split (Join fields ":") ":" = fields.
Proof.
  unfold Split. induction fields as [|f fields IH]; [congruence |].
  intros _ Hall. inversion Hall as [|? ? Hf Hrest]; subst.
  destruct fields as [|g fields].
  - cbn [Join]. rewrite <- (append_empty_r f) at 1.
    rewrite splitFrom_field by exact Hf. reflexivity.
  - change (Join (f :: g :: fields) ":")
      with (f +:+ ":" +:+ Join (g :: fields) ":").
    rewrite splitFrom_field by exact Hf.
    rewrite append_cons, append_empty_l. cbn [splitFrom HasPrefix].
    rewrite Ascii.eqb_refl. cbn [andb String.length Nat.pred].
    rewrite append_empty_l.
    f_equal. apply IH; [discriminate | exact Hrest].
Qed.

Lemma Split_colonFields (s : string) (fields : list string) :
  colonFields s fields -> Split s ":" = fields.
Proof. intros (-> & Hne & Hall). now apply Split_Join. Qed.

(** Nothing is trimmed off a string that neither starts nor ends with
    white space. *)
Lemma TrimSpace_clean (s : string) :
  leadingSpace s = None -> trailingSpace s = None -> TrimSpace s = s.
Proof.
  intros Hl Hr. unfold TrimSpace, TrimLeftSpace.
  assert (trimLeftFuel (String.length s) s = s) as ->.
  { destruct (String.length s); cbn [trimLeftFuel]; [reflexivity | now rewrite Hl]. }
  unfold TrimRightSpace.
  destruct (String.length s); cbn [trimRightFuel]; [reflexivity | now rewrite Hr].
Qed.

End StringFacts.

(** ** Credential target *)

(** C1. The credential target of an instance: its own identifier when it has
    no replication source; for a source with the prefix [arn:aws:rds:], the
    colon-separated field of index 6 when there are at least 7 fields and
    the instance's own identifier when there are fewer; and a source without
    that prefix as it stands.  The fields are stated both as [Split]
    computes them and as any decomposition of the source into colon-free
    fields. *)
Theorem instanceSecretTargetID_cases (selected : InstanceInfo) :
  let source := SourceID selected in
  let target := instanceSecretTargetID selected in
  (source = "" -> target = ID selected) /\
  (HasPrefix source "arn:aws:rds:" = true ->
     (7 <= length (Split source ":") -> target = nth 6 (Split source ":") "")%nat /\
     (length (Split source ":") < 7 -> target = ID selected)%nat /\
     forall fields, colonFields source fields ->
       (7 <= length fields -> target = nth 6 fields "")%nat /\
       (length fields < 7 -> target = ID selected)%nat) /\
  (source <> "" -> HasPrefix source "arn:aws:rds:" = false -> target = source).
Proof.
  intros source target. subst source target. unfold instanceSecretTargetID.
  destruct (String.eqb_spec (SourceID selected) "") as [Hempty | Hsome].
  - rewrite Hempty. simpl. repeat split; try congruence; try discriminate.
  - split; [congruence |]. split.
    + intros ->.
      assert (forall parts : list string,
                 ((7 <= length parts)%nat ->
                  (if (7 <=? length parts)%nat then nth 6 parts "" else ID selected)
                  = nth 6 parts "") /\
                 ((length parts < 7)%nat ->
                  (if (7 <=? length parts)%nat then nth 6 parts "" else ID selected)
                  = ID selected)) as Hparts.
      { intros parts. split; intros Hlen.
        - apply Nat.leb_le in Hlen. now rewrite Hlen.
        - apply Nat.leb_gt in Hlen. now rewrite Hlen. }
      split; [apply Hparts |]. split; [apply Hparts |].
      intros fields Hfields. rewrite (Split_colonFields _ _ Hfields).
      apply Hparts.
    + intros _ ->. reflexivity.
Qed.

(** The three sources of the design document's scenarios. *)
Lemma instanceSecretTargetID_cases_witness :
  instanceSecretTargetID (mkInstanceInfo "my-db" "" "" 0 "" "") = "my-db" /\
  instanceSecretTargetID
    (mkInstanceInfo "replica-db" "" "" 0 ""
       "arn:aws:rds:ap-south-1:123456789012:db:master-db") = "master-db" /\
  instanceSecretTargetID (mkInstanceInfo "my-db" "" "" 0 "" "arn:aws:rds:a:b:c")
    = "my-db" /\
  instanceSecretTargetID (mkInstanceInfo "replica-db" "" "" 0 "" "master-db")
    = "master-db".
Proof.
  split; [| split; [| split]].
  - pose proof (instanceSecretTargetID_cases
                  (mkInstanceInfo "my-db" "" "" 0 "" "")) as (Hnone & _).
    exact (Hnone eq_refl).
  - pose proof (instanceSecretTargetID_cases
                  (mkInstanceInfo "replica-db" "" "" 0 ""
                     "arn:aws:rds:ap-south-1:123456789012:db:master-db"))
      as (_ & Harn & _).
    destruct (Harn eq_refl) as (_ & _ & Hfields).
    apply (Hfields ["arn"; "aws"; "rds"; "ap-south-1"; "123456789012"; "db";
                    "master-db"]).
    + split; [reflexivity |]. split; [discriminate |].
      repeat constructor.
    + simpl. lia.
  - pose proof (instanceSecretTargetID_cases
                  (mkInstanceInfo "my-db" "" "" 0 "" "arn:aws:rds:a:b:c"))
      as (_ & Harn & _).
    destruct (Harn eq_refl) as (_ & Hshort & _).
    apply Hshort. vm_compute. lia.
  - pose proof (instanceSecretTargetID_cases
                  (mkInstanceInfo "replica-db" "" "" 0 "" "master-db"))
      as (_ & _ & Hplain).
    apply Hplain; [discriminate | reflexivity].
Defined.

(** ** Name resolution *)

Section Resolution.

Variable C : Collaborators.

(** [List.find] returns the first element that passes the test. *)
Lemma find_first {A : Type} (f : A -> bool) (l : list A) (x : A) :
  List.find f l = Some x ->
  exists pre post,
    l = pre ++ x :: post /\ f x = true /\ (forall y, In y pre -> f y = false).
Proof.
  induction l as [|a l IH]; simpl; [discriminate |].
  destruct (f a) eqn:Hfa.
  - intros [= ->]. exists [], l. repeat split; [assumption | intros y []].
  - intros Hfind. destruct (IH Hfind) as (pre & post & -> & Hx & Hpre).
    exists (a :: pre), post. repeat split; [assumption |].
    intros y [<- | Hy]; [assumption | now apply Hpre].
Qed.

Lemma find_finds {A : Type} (f : A -> bool) (l : list A) (x : A) :
  In x l -> f x = true -> exists y, List.find f l = Some y.
Proof.
  intros Hin Hfx. destruct (List.find f l) as [y|] eqn:Hfind; [now exists y |].
  pose proof (find_none f l Hfind x Hin). congruence.
Qed.

Lemma find_absent {A : Type} (f : A -> bool) (l : list A) :
  (forall y, In y l -> f y = false) -> List.find f l = None.
Proof.
  intros Hnone. destruct (List.find f l) as [y|] eqn:Hfind; [| reflexivity].
  apply find_some in Hfind as [Hin Hfy]. rewrite (Hnone y Hin) in Hfy.
  discriminate.
Qed.

Lemma filter_none {A : Type} (f : A -> bool) (l : list A) :
  (forall y, In y l -> f y = false) -> List.filter f l = [].
Proof.
  induction l as [|a l IH]; intros Hnone; simpl; [reflexivity |].
  rewrite (Hnone a) by now left. apply IH. intros y Hy. apply Hnone. now right.
Qed.

Lemma filter_single {A : Type} (f : A -> bool) (pre post : list A) (x : A) :
  f x = true -> (forall y, In y (pre ++ post) -> f y = false) ->
  List.filter f (pre ++ x :: post) = [x].
Proof.
  intros Hx Hrest. rewrite List.filter_app. simpl. rewrite Hx.
  rewrite !filter_none; [reflexivity | |];
    intros y Hy; apply Hrest, in_or_app; auto.
Qed.

(** A Go index expression that does not panic yields an element. *)
Lemma index_In {A : Type} (l : list A) (idx : Z) (a : A) :
  index l idx = Ok a -> In a l.
Proof.
  unfold index. destruct (0 <=? idx); [| discriminate].
  destruct (l !! Z.to_nat idx) as [b|] eqn:Hb; [| discriminate].
  intros [= <-]. apply list_elem_of_In. eapply list_elem_of_lookup_2. exact Hb.
Qed.

Lemma pickWithFuzzyFinder_In (instances : list InstanceInfo) (inst : InstanceInfo) :
  pickWithFuzzyFinder C instances = Ok inst -> In inst instances.
Proof.
  unfold pickWithFuzzyFinder.
  destruct (fuzzyfinder_Find C instances); try discriminate.
  apply index_In.
Qed.

Lemma substringMatch_In (instances : list InstanceInfo) (name : string)
    (inst : InstanceInfo) :
  substringMatch C instances name = Ok inst -> In inst instances.
Proof.
  unfold substringMatch.
  set (matches := List.filter _ instances).
  assert (forall i, In i matches -> In i instances) as Hsub.
  { intros i Hi. now apply filter_In in Hi. }
  destruct (length matches =? 1)%nat.
  - intros H. now apply Hsub, (index_In _ 0).
  - destruct (1 <? length matches)%nat; [| discriminate].
    intros H. now apply Hsub, pickWithFuzzyFinder_In.
Qed.

Lemma findByName_In (instances : list InstanceInfo) (name : string)
    (inst : InstanceInfo) :
  findByName C instances name = Ok inst -> In inst instances.
Proof.
  unfold findByName.
  destruct (List.find _ instances) as [found|] eqn:Hfind.
  - intros [= <-]. now apply find_some in Hfind.
  - apply substringMatch_In.
Qed.

Lemma loadLastConnected_In (instances : list InstanceInfo) (profile : string)
    (w : World) (inst : InstanceInfo) :
  loadLastConnected C instances profile w = Ok inst -> In inst instances.
Proof.
  unfold loadLastConnected.
  destruct (os_ReadFile _ w); [| discriminate].
  destruct (List.find _ instances) as [found|] eqn:Hfind; [| discriminate].
  intros [= <-]. now apply find_some in Hfind.
Qed.

(** Without an identifier equal to the name, the second pass decides. *)
Lemma findByName_second_pass (instances : list InstanceInfo) (name : string) :
  (forall i, In i instances -> ID i <> name) ->
  findByName C instances name = substringMatch C instances name.
Proof.
  intros Hnone. unfold findByName.
  rewrite find_absent; [reflexivity |].
  intros i Hi. apply String.eqb_neq. now apply Hnone.
Qed.

(** C2. A name that is the identifier of an instance of the list resolves
    to the first instance with that identifier, whatever the other
    identifiers contain and whatever the picker would answer; it is the
    given instance when no other record carries the identifier.  The
    second pass decides only when no identifier equals the name. *)
Theorem findByName_exact (instances : list InstanceInfo) (name : string) :
  (forall inst, In inst instances -> ID inst = name ->
     exists pre found post,
       instances = pre ++ found :: post /\
       (forall i, In i pre -> ID i <> name) /\
       ID found = name /\
       findByName C instances name = Ok found /\
       ((forall other, In other instances -> ID other = name -> other = inst) ->
        found = inst)) /\
  ((forall i, In i instances -> ID i <> name) ->
     findByName C instances name = substringMatch C instances name).
Proof.
  split.
  - intros inst Hin Hid.
    destruct (find_finds (hasID name) instances inst Hin) as [found Hfind].
    { now apply String.eqb_eq. }
    destruct (find_first _ _ _ Hfind) as (pre & post & Hsplit & Hfound & Hpre).
    apply String.eqb_eq in Hfound.
    exists pre, found, post. repeat split; try assumption.
    + intros i Hi. apply String.eqb_neq. now apply Hpre.
    + unfold findByName. now rewrite Hfind.
    + intros Hunique. apply Hunique; [| assumption].
      rewrite Hsplit. apply in_or_app. right. now left.
  - apply findByName_second_pass.
Qed.

(** C7. With no identifier equal to the name: when exactly one instance
    of the list has an identifier containing the name, that instance is
    returned; when none has, the lookup fails with the message
    [no instance matching '<name>']. *)
Theorem findByName_substring (instances : list InstanceInfo) (name : string) :
  (forall i, In i instances -> ID i <> name) ->
  (forall pre inst post,
      instances = pre ++ inst :: post ->
      Contains (ID inst) name = true ->
      (forall i, In i (pre ++ post) -> Contains (ID i) name = false) ->
      findByName C instances name = Ok inst) /\
  ((forall i, In i instances -> Contains (ID i) name = false) ->
   findByName C instances name = Err ("no instance matching '" +:+ name +:+ "'")).
Proof.
  intros Hnone.
  rewrite (findByName_second_pass instances name Hnone). unfold substringMatch.
  split.
  - intros pre inst post -> Hinst Hrest.
    rewrite (filter_single (containsName name)) by assumption.
    reflexivity.
  - intros Hnomatch. rewrite filter_none by assumption. reflexivity.
Qed.

(** C10. Whatever a lookup by name, a lookup of the last selection or the
    selection step as a whole returns is one of the records of the list
    it was given: no record is made up or altered. *)
Theorem resolution_returns_member (instances : list InstanceInfo) :
  (forall name inst,
      findByName C instances name = Ok inst -> In inst instances) /\
  (forall profile w inst,
      loadLastConnected C instances profile w = Ok inst -> In inst instances) /\
  (forall opts w inst,
      selectInstance C opts instances w = Ok inst -> In inst instances).
Proof.
  split; [| split].
  - intros name inst. apply findByName_In.
  - intros profile w inst. apply loadLastConnected_In.
  - intros opts w inst. unfold selectInstance.
    destruct (Args opts) as [|name rest].
    + destruct (LastConnected opts).
      * apply loadLastConnected_In.
      * apply pickWithFuzzyFinder_In.
    + apply findByName_In.
Qed.

End Resolution.

(** A replica whose identifier contains the identifier of its source comes
    first in the list; the name still resolves to the source. *)
Lemma findByName_exact_witness :
  findByName Sample.healthy
    [mkInstanceInfo "metabasedev-poc-2" "" "" 5432 "15" "metabasedev-poc";
     Sample.metabase; Sample.staging]
    "metabasedev-poc" = Ok Sample.metabase.
Proof.
  destruct (findByName_exact Sample.healthy
              [mkInstanceInfo "metabasedev-poc-2" "" "" 5432 "15" "metabasedev-poc";
               Sample.metabase; Sample.staging]
              "metabasedev-poc") as [Hexact _].
  destruct (Hexact Sample.metabase) as (pre & found & post & _ & _ & _ & Hres & Hsame).
  - right. now left.
  - reflexivity.
  - rewrite Hres. f_equal. apply Hsame.
    intros other [<- | [<- | [<- | []]]]; [discriminate | reflexivity | discriminate].
Defined.

(** The end-to-end scenario of the design document, and a name nothing
    matches. *)
Lemma findByName_substring_witness :
  findByName Sample.healthy [Sample.staging; Sample.metabase] "metabasedev"
    = Ok Sample.metabase /\
  findByName Sample.healthy [Sample.staging; Sample.metabase] "nonexistent"
    = Err "no instance matching 'nonexistent'".
Proof.
  split.
  - assert (forall i, In i [Sample.staging; Sample.metabase] ->
                      ID i <> "metabasedev") as Hnone.
    { intros i [<- | [<- | []]]; discriminate. }
    destruct (findByName_substring Sample.healthy _ _ Hnone) as [Hone _].
    apply (Hone [Sample.staging] Sample.metabase []); [reflexivity | reflexivity |].
    intros i [<- | []]. reflexivity.
  - assert (forall i, In i [Sample.staging; Sample.metabase] ->
                      ID i <> "nonexistent") as Hnone.
    { intros i [<- | [<- | []]]; discriminate. }
    destruct (findByName_substring Sample.healthy _ _ Hnone) as [_ Hzero].
    apply Hzero. intros i [<- | [<- | []]]; reflexivity.
Defined.

Lemma resolution_returns_member_witness :
  In Sample.metabase [Sample.staging; Sample.metabase].
Proof.
  destruct (resolution_returns_member Sample.healthy
              [Sample.staging; Sample.metabase]) as [Hname _].
  apply (Hname "metabasedev"). reflexivity.
Defined.

(** ** Cache store *)

Section CacheStore.

Variable C : Collaborators.

(** Saturating the age does not change how it compares with one hour. *)
Lemma time_Since_fresh (t : Z) (w : World) :
  (time_Since t w <? Hour) = (now w - t <? Hour).
Proof.
  unfold time_Since, time_Sub.
  assert (minDuration = -9223372036854775808) as Hmin by reflexivity.
  assert (maxDuration = 9223372036854775807) as Hmax by reflexivity.
  assert (Hour = 3600000000000) as Hhour by reflexivity.
  destruct (Z.ltb_spec (now w - t) minDuration);
    [| destruct (Z.ltb_spec maxDuration (now w - t))];
    destruct (Z.ltb_spec (now w - t) Hour);
    try reflexivity; apply Z.ltb_lt || apply Z.ltb_ge; lia.
Qed.

(** The load step never panics: the cache file it asks the modification
    time of is the file it has just read. *)
Lemma cachedInstances_total (path : string) (w : World) :
  exists cached, cachedInstances C path w = Ok cached.
Proof.
  unfold cachedInstances, os_ReadFile, os_Stat.
  destruct (files w !! path) as [file|]; simpl; [| now eexists].
  destruct (json_UnmarshalEnvelope C (content file)); [| now eexists].
  destruct (String.eqb _ _); [| now eexists].
  destruct (_ <? _); now eexists.
Qed.

Lemma cachedInstances_usable (path : string) (w : World)
    (instances : list InstanceInfo) :
  cachedInstances C path w = Ok (Some instances) <->
  usableCache C path w instances.
Proof.
  unfold cachedInstances, usableCache, os_ReadFile, os_Stat.
  destruct (files w !! path) as [file|] eqn:Hfile; simpl.
  - destruct (json_UnmarshalEnvelope C (content file)) as [envelope|] eqn:Hjson.
    + destruct (String.eqb_spec (EnvVersion envelope) CacheVersion) as [Hv | Hv].
      * rewrite time_Since_fresh.
        destruct (Z.ltb_spec (now w - modTime file) Hour) as [Hage | Hage].
        -- split.
           ++ intros [= <-]. now exists file, envelope.
           ++ intros (f & e & [= <-] & He & _ & _ & ->).
              rewrite Hjson in He. now injection He as <-.
        -- split; [discriminate |].
           intros (f & e & [= <-] & _ & _ & Hlt & _). lia.
      * split; [discriminate |].
        intros (f & e & [= <-] & He & Hve & _). congruence.
    + split; [discriminate |].
      intros (f & e & [= <-] & He & _). congruence.
  - split; [discriminate |].
    intros (f & e & Hf & _). discriminate.
Qed.

Lemma cachedInstances_absent (path : string) (w : World) :
  cachedInstances C path w = Ok None <->
  forall instances, ~ usableCache C path w instances.
Proof.
  split.
  - intros Hnone instances Huse.
    apply cachedInstances_usable in Huse. congruence.
  - intros Hno. destruct (cachedInstances_total path w) as [[l|] H]; [| exact H].
    exfalso. apply (Hno l). now apply cachedInstances_usable.
Qed.

Lemma GetInstancesWithCache_cached (cfg : Config) (profile : string) (w : World)
    (cached : option (list InstanceInfo)) :
  cachedInstances C (instancesFile C profile (Region cfg) w) w = Ok cached ->
  GetInstancesWithCache C cfg profile w =
  match cached with
  | Some instances => (Ok instances, w)
  | None =>
      refetchInstances C cfg profile (getCacheDir C w)
        (instancesFile C profile (Region cfg) w) w
  end.
Proof.
  intros H. unfold GetInstancesWithCache, bind, gets. rewrite H.
  now destruct cached.
Qed.


(** The cache directory and the two file names depend on the environment
    only. *)
Lemma getCacheDir_environ (w w' : World) :
  environ w' = environ w -> getCacheDir C w' = getCacheDir C w.
Proof. intros H. unfold getCacheDir, os_Getenv. now rewrite H. Qed.

Lemma instancesFile_environ (profile region : string) (w w' : World) :
  environ w' = environ w ->
  instancesFile C profile region w' = instancesFile C profile region w.
Proof. intros H. unfold instancesFile. now rewrite (getCacheDir_environ w w' H). Qed.

Lemma lastConnectedFile_environ (profile : string) (w w' : World) :
  environ w' = environ w ->
  lastConnectedFile C profile w' = lastConnectedFile C profile w.
Proof. intros H. unfold lastConnectedFile. now rewrite (getCacheDir_environ w w' H). Qed.

(** The best-effort write both [saveCache] and [saveLastID] end in: the
    directory is asked for, the file is written, and no error of either
    call is looked at. *)
Lemma bestEffortWrite (dir path data : string) (w : World) :
  let r := (ignoreErr (os_MkdirAll dir) ;;; ignoreErr (os_WriteFile path data)) w in
  fst r = Ok tt /\
  steps [EvMkdirAll dir; EvWriteFile path data] w (snd r) /\
  (path ∉ readonly w -> files (snd r) !! path = Some (mkFile data (now w))) /\
  (path ∈ readonly w -> files (snd r) = files w).
Proof.
  unfold ignoreErr, os_MkdirAll, os_WriteFile, bind, emit, steps. cbn.
  destruct (decide (path ∈ readonly w)) as [Hro | Hrw]; cbn.
  - repeat split; try reflexivity; try tauto.
    now rewrite <- app_assoc.
  - repeat split; try reflexivity; try tauto.
    + now rewrite <- app_assoc.
    + intros other Hother. apply lookup_insert_ne.
      intros <-. apply Hother. exists data. right. now left.
    + intros _. apply lookup_insert_eq.
Qed.


Lemma steps_refl (w : World) : steps [] w w.
Proof. unfold steps. rewrite app_nil_r. repeat split; reflexivity. Qed.

Lemma steps_trans (evs1 evs2 : list Event) (w w1 w2 : World) :
  steps evs1 w w1 -> steps evs2 w1 w2 -> steps (evs1 ++ evs2) w w2.
Proof.
  intros (Ht1 & He1 & Hr1 & Hn1 & Hf1) (Ht2 & He2 & Hr2 & Hn2 & Hf2).
  unfold steps. repeat split; try congruence.
  - now rewrite Ht2, Ht1, app_assoc.
  - intros path Hpath. rewrite Hf2, Hf1; [reflexivity | |];
      intros [data Hin]; apply Hpath; exists data; apply in_or_app; auto.
Qed.

Lemma steps_emit (e : Event) (w : World) : steps [e] w (snd (emit e w)).
Proof. unfold steps, emit. cbn. repeat split; reflexivity. Qed.

Lemma saveCache_spec (dir path : string) (records : list InstanceInfo) (w : World) :
  let data := json_MarshalEnvelope C (mkCacheEnvelope CacheVersion records) in
  let r := saveCache C dir path records w in
  fst r = Ok tt /\
  steps [EvMkdirAll dir; EvWriteFile path data] w (snd r) /\
  (path ∉ readonly w -> files (snd r) !! path = Some (mkFile data (now w))) /\
  (path ∈ readonly w -> files (snd r) = files w).
Proof. apply bestEffortWrite. Qed.

(** What a refetch does: it announces itself, asks the cloud, and, when
    that succeeds, writes the cache file and nothing else. *)
Lemma refetchInstances_steps (cfg : Config) (profile dir path : string) (w : World) :
  let r := refetchInstances C cfg profile dir path w in
  exists rest,
    steps (EvPrint ("🔍 Fetching RDS instances [" +:+ profile +:+ ":"
                    +:+ Region cfg +:+ "]..." +:+ nl)
           :: EvDescribeDBInstances (Region cfg) :: rest) w (snd r) /\
    (forall other, writesTo other rest -> other = path) /\
    (forall instances, fst r = Ok instances ->
       path ∉ readonly w ->
       files (snd r) !! path =
       Some (mkFile (json_MarshalEnvelope C (mkCacheEnvelope CacheVersion instances))
                    (now w))).
Proof.
  set (announce := EvPrint _). set (ask := EvDescribeDBInstances _).
  unfold refetchInstances, fetchInstances, bind, lift, ret.
  fold announce ask. cbn [emit fst snd].
  set (w2 := withTrace (_ ++ [ask]) _).
  assert (steps [announce; ask] w w2) as Hw2.
  { unfold steps, w2. cbn. rewrite <- app_assoc. repeat split; reflexivity. }
  assert (readonly w2 = readonly w /\ now w2 = now w) as [Hro Hnow].
  { split; apply Hw2. }
  destruct (rds_DescribeDBInstances C cfg) as [out | e | p];
    [destruct (postgresInstances out) as [instances | e | p] |..];
    cbn [fst snd];
    try (exists []; split; [exact Hw2 |]; split;
         [intros other [data []] | discriminate]).
  destruct (saveCache_spec dir path instances w2) as (Hok & Hsteps & Hrw & _).
  destruct (saveCache C dir path instances w2) as [[[] | e | p] w3];
    try discriminate. cbn [fst snd] in *.
  eexists. split; [exact (steps_trans _ _ _ _ _ Hw2 Hsteps) |]. split.
  - intros other [data [Hin | [Hin | []]]]; [discriminate | now injection Hin].
  - intros l [= <-] Hpath. rewrite <- Hnow. apply Hrw. now rewrite Hro.
Qed.

(** C4. The load step returns a list exactly when the cache file parses,
    carries the current version and was modified less than an hour ago, and
    it returns nothing in every other case; with a usable file
    [GetInstancesWithCache] answers from it and leaves the world alone,
    without one it refetches from the cloud. *)
Theorem cache_load_iff (cfg : Config) (profile : string) (w : World) :
  let path := instancesFile C profile (Region cfg) w in
  (forall instances,
      cachedInstances C path w = Ok (Some instances) <->
      usableCache C path w instances) /\
  (cachedInstances C path w = Ok None <->
   forall instances, ~ usableCache C path w instances) /\
  (forall instances,
      usableCache C path w instances ->
      GetInstancesWithCache C cfg profile w = (Ok instances, w)) /\
  ((forall instances, ~ usableCache C path w instances) ->
   GetInstancesWithCache C cfg profile w =
     refetchInstances C cfg profile (getCacheDir C w) path w /\
   exists announcement rest,
     trace (snd (GetInstancesWithCache C cfg profile w)) =
     trace w ++ EvPrint announcement :: EvDescribeDBInstances (Region cfg) :: rest).
Proof.
  intros path. split; [| split; [| split]].
  - intros instances. apply cachedInstances_usable.
  - apply cachedInstances_absent.
  - intros instances Huse. apply cachedInstances_usable in Huse.
    now rewrite (GetInstancesWithCache_cached _ _ _ _ Huse).
  - intros Hno. apply cachedInstances_absent in Hno.
    rewrite (GetInstancesWithCache_cached _ _ _ _ Hno). split; [reflexivity |].
    destruct (refetchInstances_steps cfg profile (getCacheDir C w) path w)
      as (rest & (Htrace & _) & _).
    eexists _, rest. exact Htrace.
Qed.

(** C8. Once a list of records has been saved for a profile and region,
    loading for the same profile and region less than one hour later gives
    the same list back, provided the file could be written and the JSON
    encoding of this envelope decodes to it. *)
Theorem cache_roundtrip (cfg : Config) (profile : string)
    (records : list InstanceInfo) (w later : World) :
  let path := instancesFile C profile (Region cfg) w in
  let envelope := mkCacheEnvelope CacheVersion records in
  let saved := snd (saveCache C (getCacheDir C w) path records w) in
  path ∉ readonly w ->
  json_UnmarshalEnvelope C (json_MarshalEnvelope C envelope) = Some envelope ->
  environ later = environ saved ->
  files later !! path = files saved !! path ->
  now later - now saved < Hour ->
  cachedInstances C path later = Ok (Some records) /\
  GetInstancesWithCache C cfg profile later = (Ok records, later).
Proof.
  intros path envelope saved Hrw Hjson Henv Hfile Hage.
  destruct (saveCache_spec (getCacheDir C w) path records w)
    as (_ & (_ & Henv' & _ & Hnow & _) & Hwritten & _).
  fold saved in Henv', Hnow, Hwritten.
  assert (cachedInstances C path later = Ok (Some records)) as Hload.
  { apply cachedInstances_usable.
    exists (mkFile (json_MarshalEnvelope C envelope) (now w)), envelope.
    repeat split.
    - rewrite Hfile. now apply Hwritten.
    - exact Hjson.
    - cbn. lia. }
  split; [exact Hload |].
  assert (instancesFile C profile (Region cfg) later = path) as Hpath.
  { apply instancesFile_environ. congruence. }
  rewrite <- Hpath in Hload.
  now rewrite (GetInstancesWithCache_cached _ _ _ _ Hload).
Qed.

(** The same on the level of calls: a call that had to refetch is followed,
    within the hour, by calls that answer from the cache with the same
    list. *)
Lemma GetInstancesWithCache_again (cfg : Config) (profile : string)
    (instances : list InstanceInfo) (w w1 later : World) :
  let path := instancesFile C profile (Region cfg) w in
  let envelope := mkCacheEnvelope CacheVersion instances in
  (forall cached, ~ usableCache C path w cached) ->
  GetInstancesWithCache C cfg profile w = (Ok instances, w1) ->
  path ∉ readonly w ->
  json_UnmarshalEnvelope C (json_MarshalEnvelope C envelope) = Some envelope ->
  environ later = environ w1 ->
  files later !! path = files w1 !! path ->
  now later - now w1 < Hour ->
  GetInstancesWithCache C cfg profile later = (Ok instances, later).
Proof.
  intros path envelope Hno Hcall Hrw Hjson Henv Hfile Hage.
  apply cachedInstances_absent in Hno.
  rewrite (GetInstancesWithCache_cached _ _ _ _ Hno) in Hcall.
  destruct (refetchInstances_steps cfg profile (getCacheDir C w) path w)
    as (rest & (_ & Henv' & _ & Hnow & _) & _ & Hwritten).
  fold path in Hcall. rewrite Hcall in *. cbn [fst snd] in *.
  specialize (Hwritten instances eq_refl Hrw).
  assert (cachedInstances C (instancesFile C profile (Region cfg) later) later
          = Ok (Some instances)) as Hload.
  { rewrite (instancesFile_environ profile (Region cfg) w later) by congruence.
    apply cachedInstances_usable.
    exists (mkFile (json_MarshalEnvelope C envelope) (now w)), envelope.
    repeat split.
    - fold path. now rewrite Hfile.
    - exact Hjson.
    - cbn. lia. }
  now rewrite (GetInstancesWithCache_cached _ _ _ _ Hload).
Qed.

End CacheStore.

(** One nanosecond before the hour is over the cache answers; at the full
    hour it is taken for absent and the fleet is fetched again. *)
Lemma cache_load_iff_witness :
  GetInstancesWithCache Sample.healthy Sample.config "testprofile"
    (Sample.cachedWorld (Hour - 1))
  = (Ok [Sample.staging; Sample.metabase], Sample.cachedWorld (Hour - 1)) /\
  GetInstancesWithCache Sample.healthy Sample.config "testprofile"
    (Sample.cachedWorld Hour)
  = refetchInstances Sample.healthy Sample.config "testprofile" "/tmp/rds"
      "/tmp/rds/testprofile_eu-west-1_instances.json" (Sample.cachedWorld Hour).
Proof.
  split.
  - destruct (cache_load_iff Sample.healthy Sample.config "testprofile"
                (Sample.cachedWorld (Hour - 1))) as (Hiff & _ & Hhit & _).
    apply Hhit, Hiff. vm_compute. reflexivity.
  - destruct (cache_load_iff Sample.healthy Sample.config "testprofile"
                (Sample.cachedWorld Hour)) as (_ & Habsent & _ & Hmiss).
    apply Hmiss, Habsent. vm_compute. reflexivity.
Defined.

Lemma cache_roundtrip_witness :
  let saved :=
    snd (saveCache Sample.healthy "/tmp/rds"
           "/tmp/rds/testprofile_eu-west-1_instances.json"
           [Sample.staging; Sample.metabase] (Sample.freshWorld 0)) in
  GetInstancesWithCache Sample.healthy Sample.config "testprofile"
    (withNow (Hour - 1) saved)
  = (Ok [Sample.staging; Sample.metabase], withNow (Hour - 1) saved).
Proof.
  intros saved.
  apply (cache_roundtrip Sample.healthy Sample.config "testprofile"
           [Sample.staging; Sample.metabase] (Sample.freshWorld 0)
           (withNow (Hour - 1) saved)).
  - apply not_elem_of_empty.
  - vm_compute. reflexivity.
  - reflexivity.
  - reflexivity.
  - vm_compute. reflexivity.
Defined.

(** ** Last selection *)

Section LastSelection.

Variable C : Collaborators.

Lemma bind_gets {A B : Type} (f : World -> A) (k : A -> M B) (w : World) :
  (x <- gets f ;; k x) w = k (f w) w.
Proof. reflexivity. Qed.

Lemma saveLastID_spec (id profile : string) (w : World) :
  let last := lastConnectedFile C profile w in
  let r := saveLastID C id profile w in
  fst r = Ok tt /\
  steps [EvMkdirAll (getCacheDir C w); EvWriteFile last id] w (snd r) /\
  (last ∉ readonly w -> files (snd r) !! last = Some (mkFile id (now w))) /\
  (last ∈ readonly w -> files (snd r) = files w).
Proof.
  intros last r. subst r. unfold saveLastID. rewrite !bind_gets.
  apply bestEffortWrite.
Qed.

(** Reading the marker: the stored text is trimmed, then looked up. *)
Lemma loadLastConnected_read (instances : list InstanceInfo) (profile : string)
    (w : World) (file : File) :
  files w !! lastConnectedFile C profile w = Some file ->
  loadLastConnected C instances profile w =
  match List.find (hasID (TrimSpace (content file))) instances with
  | Some inst => Ok inst
  | None =>
      Err ("last used instance '" +:+ TrimSpace (content file)
           +:+ "' not found in current profile")
  end.
Proof.
  intros Hfile. unfold loadLastConnected, os_ReadFile. now rewrite Hfile.
Qed.

(** C6. After identifier [X] has been saved for a profile, loading for that
    profile trims the stored text and returns the first instance whose
    identifier is the trimmed [X] (the instance itself when identifiers
    are unique), at any later time; it fails naming the trimmed identifier
    when the list has no such instance, and naming the profile when
    nothing was ever recorded.  Trimming leaves an [X] alone that neither
    starts nor ends with white space. *)
Theorem last_selection_roundtrip (X profile : string)
    (instances : list InstanceInfo) (w later : World) :
  let last := lastConnectedFile C profile w in
  let saved := snd (saveLastID C X profile w) in
  (last ∉ readonly w ->
   environ later = environ saved ->
   files later !! last = files saved !! last ->
   (forall inst, In inst instances -> ID inst = TrimSpace X ->
      exists found,
        loadLastConnected C instances profile later = Ok found /\
        In found instances /\ ID found = TrimSpace X /\
        ((forall other, In other instances -> ID other = TrimSpace X ->
                        other = inst) -> found = inst)) /\
   ((forall i, In i instances -> ID i <> TrimSpace X) ->
    loadLastConnected C instances profile later =
    Err ("last used instance '" +:+ TrimSpace X
         +:+ "' not found in current profile"))) /\
  (files w !! last = None ->
   loadLastConnected C instances profile w =
   Err ("no history found for profile '" +:+ profile +:+ "'")) /\
  (forall file, files w !! last = Some file ->
   (forall i, In i instances -> ID i <> TrimSpace (content file)) ->
   loadLastConnected C instances profile w =
   Err ("last used instance '" +:+ TrimSpace (content file)
        +:+ "' not found in current profile")) /\
  (leadingSpace X = None -> trailingSpace X = None -> TrimSpace X = X).
Proof.
  intros last saved. split; [| split; [| split]]; [| | | apply TrimSpace_clean].
  - intros Hrw Henv Hfile.
    destruct (saveLastID_spec X profile w) as (_ & (_ & Henv' & _) & Hwritten & _).
    fold last saved in Henv', Hwritten.
    assert (files later !! lastConnectedFile C profile later
            = Some (mkFile X (now w))) as Hread.
    { rewrite (lastConnectedFile_environ C profile w later) by congruence.
      fold last. rewrite Hfile. now apply Hwritten. }
    rewrite (loadLastConnected_read instances profile later _ Hread). cbn [content].
    split.
    + intros inst Hin Hid.
      destruct (find_finds (hasID (TrimSpace X)) instances inst Hin) as [found Hfind].
      { now apply String.eqb_eq. }
      rewrite Hfind. exists found.
      pose proof (find_some _ _ Hfind) as [Hfin Hfid].
      apply String.eqb_eq in Hfid. repeat split; try assumption.
      intros Hunique. now apply Hunique.
    + intros Hnone. rewrite find_absent; [reflexivity |].
      intros i Hi. apply String.eqb_neq. now apply Hnone.
  - intros Hnone. unfold loadLastConnected, os_ReadFile. fold last.
    now rewrite Hnone.
  - intros file Hfile Hnone.
    rewrite (loadLastConnected_read instances profile w file Hfile).
    rewrite find_absent; [reflexivity |].
    intros i Hi. apply String.eqb_neq. now apply Hnone.
Qed.

End LastSelection.

(** The test of the repository: save, then load from a list of two; and the
    two failures, with the texts the tests expect. *)
Lemma last_selection_roundtrip_witness :
  let saved := snd (saveLastID Sample.healthy "metabasedev-poc" "testprofile"
                      (Sample.freshWorld 0)) in
  loadLastConnected Sample.healthy [Sample.metabase; Sample.staging]
    "testprofile" (withNow (24 * Hour) saved) = Ok Sample.metabase /\
  loadLastConnected Sample.healthy [Sample.staging] "testprofile" saved
  = Err "last used instance 'metabasedev-poc' not found in current profile" /\
  loadLastConnected Sample.healthy [Sample.staging] "noprofile"
    (Sample.freshWorld 0)
  = Err "no history found for profile 'noprofile'".
Proof.
  intros saved.
  split; [| split].
  - destruct (last_selection_roundtrip Sample.healthy "metabasedev-poc"
                "testprofile" [Sample.metabase; Sample.staging]
                (Sample.freshWorld 0) (withNow (24 * Hour) saved))
      as (Hsaved & _).
    destruct Hsaved as [Hfound _];
      [apply not_elem_of_empty | reflexivity | reflexivity |].
    destruct (Hfound Sample.metabase) as (found & Hload & _ & _ & Hsame);
      [now left | reflexivity |].
    rewrite Hload. f_equal. apply Hsame.
    intros other [<- | [<- | []]]; [reflexivity | discriminate].
  - destruct (last_selection_roundtrip Sample.healthy "metabasedev-poc"
                "testprofile" [Sample.staging] (Sample.freshWorld 0) saved)
      as (Hsaved & _).
    destruct Hsaved as [_ Habsent];
      [apply not_elem_of_empty | reflexivity | reflexivity |].
    apply Habsent. intros i [<- | []]. discriminate.
  - destruct (last_selection_roundtrip Sample.healthy "any" "noprofile"
                [Sample.staging] (Sample.freshWorld 0) (Sample.freshWorld 0))
      as (_ & Hnone & _).
    apply Hnone. reflexivity.
Defined.

(** ** Credentials *)

Section CredentialLookup.

Variable C : Collaborators.

(** The name of the secret of an instance. *)
Lemma getRDSCredentials_run (cfg : Config) (selected : InstanceInfo)
    (homeRegion : string) (w : World) :
  let secretID := "root/" +:+ instanceSecretTargetID selected +:+ "/psql" in
  let r := getRDSCredentials C cfg selected homeRegion w in
  exists notice,
    (notice = [] \/ exists text, notice = [EvPrint text]) /\
    snd r = withTrace (trace w ++ notice ++ [EvGetSecretValue homeRegion secretID]) w /\
    fst r =
    match secretsmanager_GetSecretValue C
            (mkSecretsClient homeRegion (Credentials cfg)) secretID with
    | Ok (Some secretString) => json_UnmarshalCreds C secretString
    | Ok None => Panic "nil pointer dereference"
    | Err e =>
        Err ("failed to fetch secret '" +:+ secretID +:+ "' in "
             +:+ homeRegion +:+ ": " +:+ e)
    | Panic p => Panic p
    end.
Proof.
  intros secretID r. subst r. unfold getRDSCredentials.
  fold secretID. unfold secretsmanager_NewFromConfig. cbn [smRegion].
  destruct (negb (String.eqb (SourceID selected) "")
            && HasPrefix (SourceID selected) "arn:aws:rds:"
            && negb (String.eqb (instanceSecretTargetID selected) (ID selected))).
  - eexists [_]. split; [right; now eexists |].
    unfold bind, emit, lift, withTrace. cbn.
    destruct (secretsmanager_GetSecretValue C _ secretID) as [[s|] | e | p];
      cbn; rewrite <- app_assoc; split; reflexivity.
  - exists []. split; [now left |].
    unfold bind, emit, lift, ret, withTrace. cbn.
    destruct (secretsmanager_GetSecretValue C _ secretID) as [[s|] | e | p];
      cbn; split; reflexivity.
Qed.

Lemma getRDSCredentials_steps (cfg : Config) (selected : InstanceInfo)
    (homeRegion : string) (w : World) :
  exists evs,
    steps evs w (snd (getRDSCredentials C cfg selected homeRegion w)) /\
    (forall path, ~ writesTo path evs) /\
    files (snd (getRDSCredentials C cfg selected homeRegion w)) = files w.
Proof.
  destruct (getRDSCredentials_run cfg selected homeRegion w)
    as (notice & Hnotice & -> & _).
  eexists. split; [| split].
  - unfold steps. cbn. repeat split; reflexivity.
  - intros path [data Hin]. apply in_app_or in Hin as [Hin | [Hin | []]].
    + destruct Hnotice as [-> | [text ->]]; [destruct Hin |].
      destruct Hin as [Hin | []]. discriminate.
    + discriminate.
  - reflexivity.
Qed.

(** C9. For every selected instance the one call to the secret store is
    made by a client whose region is the home region, with or without a
    replication source; the region of the configuration the instance was
    found with plays no part in it. *)
Theorem credentials_home_region (cfg : Config) (selected : InstanceInfo)
    (homeRegion : string) (w : World) :
  let secretID := "root/" +:+ instanceSecretTargetID selected +:+ "/psql" in
  let r := getRDSCredentials C cfg selected homeRegion w in
  (exists notice,
      (notice = [] \/ exists text, notice = [EvPrint text]) /\
      trace (snd r) =
      trace w ++ notice ++ [EvGetSecretValue homeRegion secretID]) /\
  fst r =
    match secretsmanager_GetSecretValue C
            (mkSecretsClient homeRegion (Credentials cfg)) secretID with
    | Ok (Some secretString) => json_UnmarshalCreds C secretString
    | Ok None => Panic "nil pointer dereference"
    | Err e =>
        Err ("failed to fetch secret '" +:+ secretID +:+ "' in "
             +:+ homeRegion +:+ ": " +:+ e)
    | Panic p => Panic p
    end /\
  (forall region,
      getRDSCredentials C (mkConfig region (Credentials cfg)) selected
        homeRegion w = r).
Proof.
  intros secretID r.
  destruct (getRDSCredentials_run cfg selected homeRegion w)
    as (notice & Hnotice & Hworld & Hresult).
  fold secretID r in Hworld, Hresult.
  split; [| split].
  - exists notice. split; [exact Hnotice |]. now rewrite Hworld.
  - exact Hresult.
  - intros region. reflexivity.
Qed.

End CredentialLookup.

(** An instance of its own, a replica named by a plain identifier and a
    replica in another region, found through a configuration for
    eu-west-1: each secret is asked for in the home region. *)
Lemma credentials_home_region_witness :
  (exists notice,
      trace (snd (getRDSCredentials Sample.healthy Sample.config
                    (mkInstanceInfo "my-db" "" "" 5432 "15" "")
                    "ap-south-1" (Sample.freshWorld 0)))
      = notice ++ [EvGetSecretValue "ap-south-1" "root/my-db/psql"]) /\
  (exists notice,
      trace (snd (getRDSCredentials Sample.healthy Sample.config
                    (mkInstanceInfo "replica-db" "" "" 5432 "15" "master-db")
                    "ap-south-1" (Sample.freshWorld 0)))
      = notice ++ [EvGetSecretValue "ap-south-1" "root/master-db/psql"]) /\
  (exists notice,
      trace (snd (getRDSCredentials Sample.healthy Sample.config
                    (mkInstanceInfo "replica-db" "" "" 5432 "15"
                       "arn:aws:rds:ap-south-1:123456789012:db:master-db")
                    "ap-south-1" (Sample.freshWorld 0)))
      = notice ++ [EvGetSecretValue "ap-south-1" "root/master-db/psql"]).
Proof.
  split; [| split].
  - destruct (credentials_home_region Sample.healthy Sample.config
                (mkInstanceInfo "my-db" "" "" 5432 "15" "")
                "ap-south-1" (Sample.freshWorld 0))
      as ((notice & _ & Htrace) & _).
    exists notice. exact Htrace.
  - destruct (credentials_home_region Sample.healthy Sample.config
                (mkInstanceInfo "replica-db" "" "" 5432 "15" "master-db")
                "ap-south-1" (Sample.freshWorld 0))
      as ((notice & _ & Htrace) & _).
    exists notice. exact Htrace.
  - destruct (credentials_home_region Sample.healthy Sample.config
                (mkInstanceInfo "replica-db" "" "" 5432 "15"
                   "arn:aws:rds:ap-south-1:123456789012:db:master-db")
                "ap-south-1" (Sample.freshWorld 0))
      as ((notice & _ & Htrace) & _).
    exists notice. exact Htrace.
Defined.

(** ** Terminal handoff *)

Section Handoff.

Variable C : Collaborators.

(** What a call of [startAndWait] leaves behind, on every path: the start
    of the child and events of the handoff after it, a terminal that may
    have changed hands, and nothing else; its result is the error of the
    start or that of the wait. *)
Lemma startAndWait_run (cmd : Cmd) (w : World) :
  let child := inOwnGroup cmd in
  let r := startAndWait C cmd w in
  (exists evs,
      trace (snd r) = trace w ++ EvStart child :: evs /\
      forallb handoffEvent evs = true) /\
  (environ (snd r) = environ w /\ files (snd r) = files w /\
   readonly (snd r) = readonly w /\ now (snd r) = now w) /\
  fst r = match cmd_Start C child with
          | Ok pid =>
              match cmd_Wait C child pid with
              | Some e => Err e
              | None => Ok tt
              end
          | Err e => Err e
          | Panic p => Panic p
          end.
Proof.
  intros child r. subst r.
  unfold startAndWait. fold child.
  unfold bind, lift, gets, ignoreErr, unix_IoctlSetPointerInt_TIOCSPGRP,
    bind, emit, ret, term_IsTerminal.
  cbn.
  destruct (cmd_Start C child) as [pid | e | p];
    [| split; [exists []; split | split; [repeat split |]]; reflexivity ..].
  destruct (stdinIsTerminal w) eqn:Htty,
    (pgrp w =? foreground w) eqn:Hfront, (pgrp w =? pid) eqn:Hchild,
    (background w) eqn:Hback;
    repeat (progress (rewrite ?Htty, ?Hfront, ?Hchild, ?Hback; cbn));
    destruct (cmd_Wait C child pid); cbn;
    (split; [| split; [repeat split |]; reflexivity]);
    rewrite <- ?app_assoc; cbn [app];
    eexists; split; reflexivity.
Qed.

(** C3, on the code. A child that cannot be started makes the call return
    the error of the start before the terminal is touched.  A child that
    was started by a tool in the foreground of an interactive terminal is
    given the terminal and waited for, and the result is that of the wait;
    the call that is to give the terminal back is then made from a group
    that is no longer the foreground one, and is not carried out: where the
    terminal fails such a call the error is dropped and the terminal stays
    with the group of the child, and under job control the call stops the
    tool, which goes on only when a shell continues it in the foreground.
    When standard input is no terminal the child is only waited for. *)
Theorem startAndWait_terminal (cmd : Cmd) (w : World) :
  let child := inOwnGroup cmd in
  let r := startAndWait C cmd w in
  let waited pid :=
    match cmd_Wait C child pid with
    | Some e => Err e
    | None => Ok tt
    end in
  (forall e, cmd_Start C child = Err e ->
     r = (Err e, withTrace (trace w ++ [EvStart child]) w)) /\
  (forall pid, cmd_Start C child = Ok pid -> stdinIsTerminal w = true ->
     foreground w = pgrp w -> pid <> pgrp w ->
     fst r = waited pid /\
     (forall errno, background w = Fails errno ->
        trace (snd r) =
          trace w ++ [EvStart child; EvTIOCSPGRP pid; EvWait pid;
                      EvTIOCSPGRP (pgrp w)] /\
        foreground (snd r) = pid) /\
     (background w = Suspends ->
        trace (snd r) =
          trace w ++ [EvStart child; EvTIOCSPGRP pid; EvWait pid;
                      EvTIOCSPGRP (pgrp w); EvSIGTTOU])) /\
  (forall pid, cmd_Start C child = Ok pid -> stdinIsTerminal w = false ->
     trace (snd r) = trace w ++ [EvStart child; EvWait pid] /\
     foreground (snd r) = foreground w /\
     fst r = waited pid).
Proof.
  intros child r waited. subst r waited.
  unfold startAndWait. fold child.
  unfold bind, lift, gets, ignoreErr, unix_IoctlSetPointerInt_TIOCSPGRP,
    bind, emit, ret, term_IsTerminal.
  cbn.
  split; [| split].
  - intros e ->. reflexivity.
  - intros pid -> Htty Hfg Hchild.
    assert ((pgrp w =? pid) = false) as Hback by lia.
    repeat (progress (rewrite ?Htty, ?Hfg, ?Z.eqb_refl, ?Hback; cbn)).
    split; [| split].
    + destruct (background w), (cmd_Wait C child pid);
        repeat (progress (rewrite ?Htty; cbn)); reflexivity.
    + intros errno ->. repeat (progress (rewrite ?Htty; cbn)).
      destruct (cmd_Wait C child pid); cbn;
        rewrite <- ?app_assoc; split; reflexivity.
    + intros ->. repeat (progress (rewrite ?Htty; cbn)).
      destruct (cmd_Wait C child pid); cbn;
        rewrite <- ?app_assoc; reflexivity.
  - intros pid -> Htty.
    repeat (progress (rewrite ?Htty; cbn)).
    destruct (cmd_Wait C child pid); cbn;
      rewrite <- ?app_assoc; repeat split; reflexivity.
Qed.

(** Nothing [startAndWait] does writes a file. *)
Lemma startAndWait_steps (cmd : Cmd) (w : World) :
  exists evs,
    steps evs w (snd (startAndWait C cmd w)) /\
    (forall path, ~ writesTo path evs) /\
    files (snd (startAndWait C cmd w)) = files w.
Proof.
  destruct (startAndWait_run cmd w)
    as ((evs & Htrace & Hevs) & (Henv & Hfiles & Hro & Hnow) & _).
  exists (EvStart (inOwnGroup cmd) :: evs).
  split; [| split; [| exact Hfiles]].
  - unfold steps. repeat split; try assumption.
    intros path _. now rewrite Hfiles.
  - intros path [data [Hin | Hin]]; [discriminate |].
    rewrite forallb_forall in Hevs. now apply Hevs in Hin.
Qed.

End Handoff.

(** On an interactive terminal a child that cannot be started makes
    [startAndWait] return before any call on the terminal: the call that
    names the process group of the tool is not among its events. *)
Lemma restore_skipped_when_start_fails :
  stdinIsTerminal (Sample.freshWorld 0) = true /\
  ~ restoreExecuted
      (Sample.collaborators (Ok None)
         (Err "fork/exec /usr/bin/psql: no such file or directory") None)
      Sample.psql (Sample.freshWorld 0).
Proof.
  split; [reflexivity |].
  unfold restoreExecuted. vm_compute.
  intros [Hin | []]. discriminate.
Qed.

(** psql, started as process 4242 by a tool that is the foreground job of
    a shell, and by one whose process group is orphaned. *)
Lemma startAndWait_terminal_witness :
  trace (snd (startAndWait (Sample.collaborators (Ok None) (Ok 4242) None)
                Sample.psql (Sample.freshWorld 0)))
  = [EvStart (inOwnGroup Sample.psql); EvTIOCSPGRP 4242; EvWait 4242;
     EvTIOCSPGRP 100; EvSIGTTOU] /\
  (trace (snd (startAndWait (Sample.collaborators (Ok None) (Ok 4242) None)
                 Sample.psql (Scenario.orphaned 0)))
   = [EvStart (inOwnGroup Sample.psql); EvTIOCSPGRP 4242; EvWait 4242;
      EvTIOCSPGRP 100] /\
   foreground (snd (startAndWait (Sample.collaborators (Ok None) (Ok 4242) None)
                      Sample.psql (Scenario.orphaned 0)))
   = 4242) /\
  pgrp (Scenario.orphaned 0) = 100.
Proof.
  split; [| split; [| reflexivity]].
  - destruct (startAndWait_terminal
                (Sample.collaborators (Ok None) (Ok 4242) None)
                Sample.psql (Sample.freshWorld 0)) as (_ & Hstarted & _).
    destruct (Hstarted 4242 eq_refl eq_refl eq_refl) as (_ & _ & Hstopped).
    + discriminate.
    + exact (Hstopped eq_refl).
  - destruct (startAndWait_terminal
                (Sample.collaborators (Ok None) (Ok 4242) None)
                Sample.psql (Scenario.orphaned 0)) as (_ & Hstarted & _).
    destruct (Hstarted 4242 eq_refl eq_refl eq_refl) as (_ & Hfailed & _).
    + discriminate.
    + exact (Hfailed _ eq_refl).
Defined.

(** ** The run as a whole *)

Section RunFlow.

Variable C : Collaborators.

Lemma bind_emit {A : Type} (e : Event) (m : M A) (w : World) :
  (emit e ;;; m) w = m (snd (emit e w)).
Proof. reflexivity. Qed.

Lemma snd_ignoreErr (m : M unit) (w : World) : snd (ignoreErr m w) = snd (m w).
Proof. unfold ignoreErr. now destruct (m w) as [[[] | e | p] w']. Qed.

Lemma no_writes_nil (path : string) : ~ writesTo path [].
Proof. intros [data []]. Qed.

Lemma no_writes_print (path text : string) : ~ writesTo path [EvPrint text].
Proof. intros [data [Hin | []]]. discriminate. Qed.

Lemma vpnWarning_steps (profile : string) (w : World) :
  exists evs,
    steps evs w (snd (vpnWarning C profile w)) /\
    (forall path, ~ writesTo path evs).
Proof.
  unfold vpnWarning, CheckVPNWithPritunl.
  destruct (os_Stat _ w);
    [destruct (exec_Output C _ _);
     [destruct (json_UnmarshalConns C _);
      [destruct (ValidatePritunlConnections _ _) |] |..] |];
    cbn [fst snd];
    first [ exists []; split; [apply steps_refl | apply no_writes_nil]
          | eexists [_]; split; [apply steps_emit | intros path; apply no_writes_print] ].
Qed.

Lemma GetInstancesWithCache_steps (cfg : Config) (profile : string) (w : World) :
  exists evs,
    steps evs w (snd (GetInstancesWithCache C cfg profile w)) /\
    (forall path, writesTo path evs ->
                  path = instancesFile C profile (Region cfg) w).
Proof.
  destruct (cachedInstances_total C (instancesFile C profile (Region cfg) w) w)
    as [cached Hcached].
  rewrite (GetInstancesWithCache_cached C _ _ _ _ Hcached).
  destruct cached as [instances|].
  - exists []. split; [apply steps_refl |]. intros path H.
    now apply no_writes_nil in H.
  - destruct (refetchInstances_steps C cfg profile (getCacheDir C w)
                (instancesFile C profile (Region cfg) w) w)
      as (rest & Hsteps & Hwrites & _).
    eexists. split; [exact Hsteps |].
    intros path [data [Hin | [Hin | Hin]]]; try discriminate.
    apply Hwrites. now exists data.
Qed.

(** Before the selection, the only file that may have been written is the
    instance cache of the profile and region. *)
Lemma discover_steps (opts : Options) (w w1 : World)
    (cfg : Config) (home : string) (instances : list InstanceInfo) :
  discover C opts w = (Ok (cfg, home, instances), w1) ->
  exists evs,
    steps evs w w1 /\
    (forall path, writesTo path evs ->
                  path = instancesFile C (Profile opts) (Region cfg) w).
Proof.
  unfold discover, bind, lift, wrapErr, ret.
  destruct (vpnWarning_steps (Profile opts) w) as (evs0 & Hsteps0 & Hwrites0).
  destruct (vpnWarning C (Profile opts) w) as [[[] | e | p] w0];
    try discriminate. cbn [snd] in Hsteps0.
  destruct (loadAWSConfig C (Profile opts) (OptRegion opts))
    as [[cfg' home'] | e | p]; try discriminate. cbn [fst snd].
  destruct (GetInstancesWithCache_steps cfg' (Profile opts) w0)
    as (evs1 & Hsteps1 & Hwrites1).
  destruct (GetInstancesWithCache C cfg' (Profile opts) w0)
    as [[instances' | e | p] w1'];
    try discriminate. cbn [snd] in Hsteps1.
  intros [= -> -> -> ->].
  exists (evs0 ++ evs1). split; [exact (steps_trans _ _ _ _ _ Hsteps0 Hsteps1) |].
  intros path [data Hin]. apply in_app_or in Hin as [Hin | Hin].
  - exfalso. apply (Hwrites0 path). now exists data.
  - rewrite <- (instancesFile_environ C (Profile opts) (Region cfg) w w0)
      by apply Hsteps0.
    apply Hwrites1. now exists data.
Qed.

(** [Run] continues from where [discover] has arrived. *)
Lemma Run_after_discover (opts : Options) (w w1 : World)
    (cfg : Config) (home : string) (instances : list InstanceInfo) :
  discover C opts w = (Ok (cfg, home, instances), w1) ->
  Run C opts w =
  (selected <- wrapErr "selection: "
                 (fun w => (selectInstance C opts instances w, w)) ;;
   creds <- wrapErr "secrets: " (getRDSCredentials C cfg selected home) ;;
   saveLastID C (ID selected) (Profile opts) ;;;
   printTarget selected ;;;
   launch C selected creds) w1.
Proof.
  unfold Run, discover, bind, lift, wrapErr, ret.
  destruct (vpnWarning C (Profile opts) w) as [[[] | e | p] w0];
    try discriminate.
  destruct (loadAWSConfig C (Profile opts) (OptRegion opts))
    as [[cfg' home'] | e | p]; try discriminate. cbn [fst snd].
  destruct (GetInstancesWithCache C cfg' (Profile opts) w0)
    as [[instances' | e | p] w1'];
    try discriminate.
  intros [= -> -> -> ->]. reflexivity.
Qed.


Lemma executeExternal_steps (bin : string) (inst : InstanceInfo)
    (creds : RDSCreds) (w : World) :
  exists evs,
    steps evs w (snd (executeExternal C bin inst creds w)) /\
    (forall path, ~ writesTo path evs).
Proof.
  unfold executeExternal. rewrite bind_gets, snd_ignoreErr.
  destruct (startAndWait_steps C
              (mkCmd bin (buildConnectArgs inst creds)
                 (os_Environ w ++ ["PGPASSWORD=" +:+ Password creds]) false) w)
    as (evs & Hsteps & Hwrites & _).
  now exists evs.
Qed.

(** Launching a client, whichever it is, writes no file. *)
Lemma launch_steps (selected : InstanceInfo) (creds : RDSCreds) (w : World) :
  exists evs,
    steps evs w (snd (launch C selected creds w)) /\
    (forall path, ~ writesTo path evs).
Proof.
  assert (forall text bin,
             exists evs,
               steps evs w
                 (snd ((emit (EvPrint text) ;;;
                        executeExternal C bin selected creds) w)) /\
               (forall path, ~ writesTo path evs)) as Hexternal.
  { intros text bin. rewrite bind_emit.
    destruct (executeExternal_steps bin selected creds (snd (emit (EvPrint text) w)))
      as (evs & Hsteps & Hwrites).
    exists ([EvPrint text] ++ evs). split.
    - exact (steps_trans _ _ _ _ _ (steps_emit _ w) Hsteps).
    - intros path [data Hin]. apply in_app_or in Hin as [Hin | Hin].
      + apply (no_writes_print path text). now exists data.
      + apply (Hwrites path). now exists data. }
  unfold launch.
  destruct (exec_LookPath C "pgcli") as [path|]; [apply Hexternal |].
  destruct (exec_LookPath C "psql") as [path|]; [apply Hexternal |].
  rewrite bind_emit. unfold runNativeConnect.
  eexists [_; _]. split.
  - exact (steps_trans [_] [_] _ _ _ (steps_emit _ w) (steps_emit _ _)).
  - intros path [data [Hin | [Hin | []]]]; discriminate.
Qed.

(** C5. Once the instances are known: a failed selection and a failed
    credential fetch make [Run] return the error with the last-selection
    file as it was and no write to it; a successful credential fetch is
    followed by the write of the selected identifier to that file, then by
    the line naming the target, and only then by the launch of the client,
    whose outcome changes neither the result of [Run] being the launch's
    nor the file. *)
Theorem Run_last_selection (opts : Options) (w w1 : World)
    (cfg : Config) (home : string) (instances : list InstanceInfo) :
  let last := lastConnectedFile C (Profile opts) w in
  instancesFile C (Profile opts) (Region cfg) w <> last ->
  discover C opts w = (Ok (cfg, home, instances), w1) ->
  (forall e, selectInstance C opts instances w1 = Err e ->
     Run C opts w = (Err ("selection: " +:+ e), w1) /\
     files w1 !! last = files w !! last /\
     exists evs, trace w1 = trace w ++ evs /\ ~ writesTo last evs) /\
  (forall selected e w2,
     selectInstance C opts instances w1 = Ok selected ->
     getRDSCredentials C cfg selected home w1 = (Err e, w2) ->
     Run C opts w = (Err ("secrets: " +:+ e), w2) /\
     files w2 !! last = files w !! last /\
     exists evs, trace w2 = trace w ++ evs /\ ~ writesTo last evs) /\
  (forall selected creds w2,
     selectInstance C opts instances w1 = Ok selected ->
     getRDSCredentials C cfg selected home w1 = (Ok creds, w2) ->
     let saved := snd (saveLastID C (ID selected) (Profile opts) w2) in
     let ready := snd (printTarget selected saved) in
     Run C opts w = launch C selected creds ready /\
     (exists target,
        trace ready =
        trace w2 ++ [EvMkdirAll (getCacheDir C w);
                     EvWriteFile last (ID selected); EvPrint target]) /\
     (last ∉ readonly w ->
      files ready !! last = Some (mkFile (ID selected) (now w))) /\
     files (snd (Run C opts w)) !! last = files ready !! last).
Proof.
  intros last Hdistinct Hdiscover.
  rewrite (Run_after_discover _ _ _ _ _ _ Hdiscover).
  destruct (discover_steps _ _ _ _ _ _ Hdiscover) as (evs1 & Hsteps1 & Hwrites1).
  assert (~ writesTo last evs1) as Hkept1.
  { intros Hw. apply Hdistinct. symmetry. now apply Hwrites1. }
  split; [| split].
  - intros e Hsel. unfold bind, wrapErr. rewrite Hsel. split; [reflexivity |].
    split; [now apply Hsteps1 |]. exists evs1. split; [apply Hsteps1 | exact Hkept1].
  - intros selected e w2 Hsel Hcreds.
    unfold bind, wrapErr. rewrite Hsel, Hcreds. split; [reflexivity |].
    destruct (getRDSCredentials_steps C cfg selected home w1)
      as (evs2 & Hsteps2 & Hwrites2 & _).
    rewrite Hcreds in Hsteps2. cbn [snd] in Hsteps2.
    pose proof (steps_trans _ _ _ _ _ Hsteps1 Hsteps2) as Hsteps.
    assert (~ writesTo last (evs1 ++ evs2)) as Hkept.
    { intros [data Hin]. apply in_app_or in Hin as [Hin | Hin].
      - apply Hkept1. now exists data.
      - apply (Hwrites2 last). now exists data. }
    split; [now apply Hsteps |]. exists (evs1 ++ evs2).
    split; [apply Hsteps | exact Hkept].
  - intros selected creds w2 Hsel Hcreds saved ready.
    destruct (getRDSCredentials_steps C cfg selected home w1)
      as (evs2 & Hsteps2 & _).
    rewrite Hcreds in Hsteps2. cbn [snd] in Hsteps2.
    pose proof (steps_trans _ _ _ _ _ Hsteps1 Hsteps2)
      as (_ & Henv & Hro & Hnow & _).
    destruct (saveLastID_spec C (ID selected) (Profile opts) w2)
      as (Hok & (Htrace & _) & Hwritten & _).
    fold saved in Hok, Htrace, Hwritten.
    rewrite (lastConnectedFile_environ C (Profile opts) w w2 Henv) in Htrace, Hwritten.
    rewrite (getCacheDir_environ C w w2 Henv) in Htrace.
    fold last in Htrace, Hwritten.
    assert ((selected0 <- wrapErr "selection: "
                 (fun w => (selectInstance C opts instances w, w)) ;;
             creds0 <- wrapErr "secrets: " (getRDSCredentials C cfg selected0 home) ;;
             saveLastID C (ID selected0) (Profile opts) ;;;
             printTarget selected0 ;;;
             launch C selected0 creds0) w1
            = launch C selected creds ready) as Hrun.
    { unfold bind, wrapErr. rewrite Hsel, Hcreds.
      subst ready. fold saved.
      destruct (saveLastID C (ID selected) (Profile opts) w2) as [[[] | e | p] ws];
        try discriminate.
      reflexivity. }
    rewrite Hrun. split; [reflexivity |]. split; [| split].
    + eexists. subst ready. unfold printTarget. cbn [emit snd trace withTrace].
      rewrite Htrace, <- app_assoc. reflexivity.
    + intros Hrw. subst ready. unfold printTarget. cbn [emit snd files withTrace].
      rewrite <- Hnow. apply Hwritten. now rewrite Hro.
    + destruct (launch_steps selected creds ready) as (evs & Hsteps & Hwrites).
      now apply Hsteps.
Qed.

End RunFlow.

(** Three runs on a fresh machine: a name nothing matches, a secret store
    that refuses, and a client that fails after it was launched.  Only the
    last leaves a last-selection file. *)
Lemma Run_last_selection_witness :
  fst (Run Sample.healthy (Sample.byName "nonexistent") (Sample.freshWorld 7))
  = Err "selection: no instance matching 'nonexistent'" /\
  files (snd (Run Sample.healthy (Sample.byName "nonexistent")
                (Sample.freshWorld 7))) !! Sample.lastFile = None /\
  fst (Run Sample.denied (Sample.byName "metabasedev") (Sample.freshWorld 7))
  = Err "secrets: failed to fetch secret 'root/metabasedev-poc/psql' in ap-south-1: AccessDeniedException" /\
  files (snd (Run Sample.denied (Sample.byName "metabasedev")
                (Sample.freshWorld 7))) !! Sample.lastFile = None /\
  files (snd (Run Sample.failingClient (Sample.byName "metabasedev")
                (Sample.freshWorld 7))) !! Sample.lastFile
  = Some (mkFile "metabasedev-poc" 7).
Proof.
  assert (forall C name,
             instancesFile C (Profile (Sample.byName name))
               (Region Sample.config) (Sample.freshWorld 7)
             = filepath_Join C ["/tmp/rds"; "testprofile_eu-west-1_instances.json"])
    as Hfile by reflexivity.
  pose proof (Run_last_selection Sample.healthy (Sample.byName "nonexistent")
                (Sample.freshWorld 7)
                (snd (discover Sample.healthy (Sample.byName "nonexistent")
                        (Sample.freshWorld 7)))
                Sample.config "ap-south-1" [Sample.staging; Sample.metabase])
    as Hnone.
  pose proof (Run_last_selection Sample.denied (Sample.byName "metabasedev")
                (Sample.freshWorld 7)
                (snd (discover Sample.denied (Sample.byName "metabasedev")
                        (Sample.freshWorld 7)))
                Sample.config "ap-south-1" [Sample.staging; Sample.metabase])
    as Hdenied.
  pose proof (Run_last_selection Sample.failingClient (Sample.byName "metabasedev")
                (Sample.freshWorld 7)
                (snd (discover Sample.failingClient (Sample.byName "metabasedev")
                        (Sample.freshWorld 7)))
                Sample.config "ap-south-1" [Sample.staging; Sample.metabase])
    as Hclient.
  cbn zeta in Hnone, Hdenied, Hclient.
  destruct Hnone as (Hsel & _ & _);
    [apply String.eqb_neq; reflexivity | vm_compute; reflexivity |].
  destruct Hdenied as (_ & Hsecret & _);
    [apply String.eqb_neq; reflexivity | vm_compute; reflexivity |].
  destruct Hclient as (_ & _ & Hlaunched);
    [apply String.eqb_neq; reflexivity | vm_compute; reflexivity |].
  destruct (Hsel "no instance matching 'nonexistent'") as (Hrun1 & Hkept1 & _);
    [reflexivity |].
  destruct (Hsecret Sample.metabase
              "failed to fetch secret 'root/metabasedev-poc/psql' in ap-south-1: AccessDeniedException"
              (snd (getRDSCredentials Sample.denied Sample.config Sample.metabase
                      "ap-south-1"
                      (snd (discover Sample.denied (Sample.byName "metabasedev")
                              (Sample.freshWorld 7))))))
    as (Hrun2 & Hkept2 & _); [reflexivity | vm_compute; reflexivity |].
  destruct (Hlaunched Sample.metabase (mkRDSCreds "postgres" "test-secret")
              (snd (getRDSCredentials Sample.failingClient Sample.config
                      Sample.metabase "ap-south-1"
                      (snd (discover Sample.failingClient
                              (Sample.byName "metabasedev")
                              (Sample.freshWorld 7))))))
    as (_ & _ & Hwritten & Hafter); [reflexivity | vm_compute; reflexivity |].
  rewrite Hrun1, Hrun2. cbn [fst snd].
  refine (conj eq_refl (conj _ (conj eq_refl (conj _ _)))).
  - exact (eq_trans Hkept1 eq_refl).
  - exact (eq_trans Hkept2 eq_refl).
  - exact (eq_trans Hafter (Hwritten (not_elem_of_empty _))).
Defined.

(** ** The VPN check *)

Section VPNCheck.

Variable C : Collaborators.

(** The loop finds a connection that is up and, for a profile with a
    required VPN, carries its name. *)
Lemma vpnSatisfied_spec (required : option string)
    (conns : list PritunlConnection) :
  vpnSatisfied (bool_decide (is_Some required)) (default "" required) conns = true <->
  exists c, In c conns /\ Connected c = true /\
            forall vpn, required = Some vpn -> Contains (Name c) vpn = true.
Proof.
  induction conns as [|c conns IH]; cbn [vpnSatisfied].
  - split; [discriminate | intros (c & [] & _)].
  - destruct required as [vpn|]; cbn [default from_option id] in *.
    + rewrite bool_decide_true by eauto. cbn [andb negb].
      rewrite bool_decide_true in IH by eauto.
      destruct (Contains (Name c) vpn && Connected c) eqn:Hc.
      * apply andb_true_iff in Hc as [Hname Hup]. split; [| reflexivity].
        intros _. exists c. split; [now left |]. split; [exact Hup |].
        now intros vpn' [= <-].
      * rewrite IH. split.
        -- intros (c' & Hin & Hup & Hname). exists c'. split; [now right | auto].
        -- intros (c' & [<- | Hin] & Hup & Hname).
           ++ rewrite (Hname vpn eq_refl), Hup in Hc. discriminate.
           ++ now exists c'.
    + rewrite bool_decide_false by (intros [x Hx]; discriminate).
      cbn [andb negb].
      rewrite bool_decide_false in IH by (intros [x Hx]; discriminate).
      destruct (Connected c) eqn:Hup.
      * split; [| reflexivity]. intros _. exists c.
        split; [now left |]. split; [exact Hup | discriminate].
      * rewrite IH. split.
        -- intros (c' & Hin & Hup' & Hname). exists c'. split; [now right | auto].
        -- intros (c' & [<- | Hin] & Hup' & Hname); [congruence | now exists c'].
Qed.

(** X1. [ValidatePritunlConnections] accepts exactly when some connection is
    connected and, for a profile with a required VPN, has the name of that
    VPN in its own; otherwise the error names the required VPN, or says
    that no VPN is active when the profile requires none in particular. *)
Theorem ValidatePritunlConnections_spec (conns : list PritunlConnection)
    (profile : string) :
  let required := vpnProfileMapping !! profile in
  (ValidatePritunlConnections conns profile = Ok tt <->
   exists c, In c conns /\ Connected c = true /\
             forall vpn, required = Some vpn -> Contains (Name c) vpn = true) /\
  (forall vpn, required = Some vpn ->
     ValidatePritunlConnections conns profile = Ok tt \/
     ValidatePritunlConnections conns profile =
       Err ("required VPN profile '" +:+ vpn +:+ "' is not connected")) /\
  (required = None ->
     ValidatePritunlConnections conns profile = Ok tt \/
     ValidatePritunlConnections conns profile =
       Err "no active VPN connection found").
Proof.
  intros required. unfold ValidatePritunlConnections. fold required.
  pose proof (vpnSatisfied_spec required conns) as Hloop.
  destruct (vpnSatisfied _ _ conns).
  - split; [| split].
    + split; [intros _; now apply Hloop | reflexivity].
    + intros vpn _. now left.
    + intros _. now left.
  - split; [| split].
    + split; [| intros H; apply Hloop in H; discriminate].
      destruct (bool_decide _); discriminate.
    + intros vpn ->. right. rewrite bool_decide_true by eauto. reflexivity.
    + intros ->. right.
      rewrite bool_decide_false by (intros [x Hx]; discriminate). reflexivity.
Qed.

(** X2. The VPN check can only warn: [vpnWarning] never returns an error,
    leaves every file alone and adds at most one printed line; where the
    Pritunl client is not installed it does nothing at all, and a client
    that fails to run or prints something that is no JSON list passes. *)
Theorem vpnWarning_only_warns (profile : string) (w : World) :
  let bin := "/Applications/Pritunl.app/Contents/Resources/pritunl-client" in
  let r := vpnWarning C profile w in
  (forall e, fst r <> Err e) /\
  files (snd r) = files w /\
  (snd r = w \/ exists text, snd r = snd (emit (EvPrint text) w)) /\
  (files w !! bin = None -> r = (Ok tt, w)) /\
  (forall e, exec_Output C bin ["list"; "-j"] = Err e -> r = (Ok tt, w)) /\
  (forall out, exec_Output C bin ["list"; "-j"] = Ok out ->
               json_UnmarshalConns C out = None -> r = (Ok tt, w)).
Proof.
  intros bin r. subst r. unfold vpnWarning, CheckVPNWithPritunl, os_Stat.
  fold bin.
  destruct (files w !! bin) as [file|];
    [destruct (exec_Output C bin ["list"; "-j"]) as [out | e | p];
     [destruct (json_UnmarshalConns C out) as [conns|] eqn:Hjson;
      [destruct (ValidatePritunlConnections conns profile) as [[] | e | p] |] |..] |];
    cbn [fst snd emit];
    repeat split; try discriminate; try reflexivity; try (now left);
    try (right; now eexists);
    intros out' [= <-] Hnone; congruence.
Qed.

End VPNCheck.

(** A connected VPN of another name does not do for a profile with a
    required VPN, and does for a profile without one. *)
Lemma ValidatePritunlConnections_spec_witness :
  ValidatePritunlConnections
    [mkPritunlConnection "other" false;
     mkPritunlConnection "sso_ackodevvpnusers (office)" true] "ackodev" = Ok tt /\
  ValidatePritunlConnections [mkPritunlConnection "any-vpn" true] "ackoprod"
  = Err "required VPN profile 'sso_ackoprodvpnusers' is not connected" /\
  ValidatePritunlConnections [] "unknown-profile"
  = Err "no active VPN connection found".
Proof.
  split; [| split].
  - apply (ValidatePritunlConnections_spec _ "ackodev").
    exists (mkPritunlConnection "sso_ackodevvpnusers (office)" true).
    split; [right; now left |]. split; [reflexivity |].
    intros vpn [= <-]. reflexivity.
  - destruct (ValidatePritunlConnections_spec
                [mkPritunlConnection "any-vpn" true] "ackoprod")
      as (Hiff & Hmapped & _).
    destruct (Hmapped "sso_ackoprodvpnusers" eq_refl) as [Hok | Herr];
      [| exact Herr].
    apply Hiff in Hok as (c & [<- | []] & _ & Hname).
    specialize (Hname _ eq_refl). discriminate.
  - destruct (ValidatePritunlConnections_spec [] "unknown-profile")
      as (Hiff & _ & Hany).
    destruct (Hany eq_refl) as [Hok | Herr]; [| exact Herr].
    apply Hiff in Hok as (c & [] & _).
Defined.

(** ** Fetching the fleet *)

Section Fetch.

Variable C : Collaborators.

Lemma isPostgres_engine (db : DBInstance) :
  isPostgres db = true <-> Engine db = Some "postgres".
Proof.
  unfold isPostgres, aws_ToString. rewrite String.eqb_eq.
  destruct (Engine db) as [engine|]; cbn.
  - split; [now intros -> | now intros [= ->]].
  - split; discriminate.
Qed.

(** X3. The loop over the answer of the cloud keeps the databases whose
    engine is [postgres], in their order, and turns each into a record; it
    returns no error, and it panics exactly when one of those databases
    comes without an endpoint or without a port. *)
Theorem postgresInstances_spec (dbs : list DBInstance) :
  ((forall db, In db dbs -> isPostgres db = true -> toInstanceInfo db <> None) ->
   postgresInstances dbs = Ok (omap toInstanceInfo (List.filter isPostgres dbs))) /\
  ((exists db, In db dbs /\ isPostgres db = true /\ toInstanceInfo db = None) ->
   postgresInstances dbs = Panic "nil pointer dereference") /\
  (forall instances inst,
      postgresInstances dbs = Ok instances -> In inst instances ->
      exists db, In db dbs /\ Engine db = Some "postgres" /\
                 toInstanceInfo db = Some inst) /\
  (forall e, postgresInstances dbs <> Err e).
Proof.
  induction dbs as [|db dbs (IHok & IHpanic & IHin & IHerr)].
  - cbn. repeat split; try discriminate.
    + intros (db & [] & _).
    + intros instances inst [= <-] [].
  - cbn [postgresInstances List.filter]. fold (isPostgres db).
    destruct (isPostgres db) eqn:Hpg.
    + destruct (toInstanceInfo db) as [inst|] eqn:Hconv.
      * split; [| split; [| split]].
        -- intros Hall. rewrite IHok by (intros d Hd; apply Hall; now right).
           cbn. now rewrite Hconv.
        -- intros (d & [<- | Hd] & Hdpg & Hdnone); [congruence |].
           rewrite IHpanic by now exists d. reflexivity.
        -- intros instances i Hres Hi.
           destruct (postgresInstances dbs) as [rest | e | p]; try discriminate.
           injection Hres as <-. destruct Hi as [<- | Hi].
           ++ exists db. split; [now left |]. split; [| exact Hconv].
              now apply isPostgres_engine.
           ++ destruct (IHin rest i eq_refl Hi) as (d & Hd & Hrest).
              exists d. split; [now right | exact Hrest].
        -- intros e. destruct (postgresInstances dbs) as [rest | e' | p];
             try discriminate. intros [= ->]. now apply (IHerr e).
      * split; [| split; [| split]]; try discriminate.
        -- intros Hall. exfalso. apply (Hall db); [now left | exact Hpg | exact Hconv].
        -- reflexivity.
    + split; [| split; [| split]].
      * intros Hall. apply IHok. intros d Hd. apply Hall. now right.
      * intros (d & [<- | Hd] & Hdpg & Hdnone); [congruence |].
        apply IHpanic. now exists d.
      * intros instances i Hres Hi.
        destruct (IHin instances i Hres Hi) as (d & Hd & Hrest).
        exists d. split; [now right | exact Hrest].
      * exact IHerr.
Qed.

(** X4. When the cache cannot be used and the cloud refuses, the call
    returns the error of the cloud as it is and leaves every file,
    a stale cache file included, as it was. *)
Theorem GetInstancesWithCache_fetch_error (cfg : Config) (profile : string)
    (w : World) (e : string) :
  (forall cached,
      ~ usableCache C (instancesFile C profile (Region cfg) w) w cached) ->
  rds_DescribeDBInstances C cfg = Err e ->
  fst (GetInstancesWithCache C cfg profile w) = Err e /\
  files (snd (GetInstancesWithCache C cfg profile w)) = files w /\
  exists announcement,
    trace (snd (GetInstancesWithCache C cfg profile w)) =
    trace w ++ [EvPrint announcement; EvDescribeDBInstances (Region cfg)].
Proof.
  intros Hno Hcloud. apply cachedInstances_absent in Hno.
  rewrite (GetInstancesWithCache_cached C _ _ _ _ Hno).
  unfold refetchInstances, fetchInstances, bind, lift. cbn [emit fst snd].
  rewrite Hcloud. cbn. rewrite <- app_assoc.
  split; [reflexivity |]. split; [reflexivity |]. eexists. reflexivity.
Qed.

(** X5. The cache is best effort: when the cache cannot be used and the
    cloud answers, the call returns the PostgreSQL instances of the answer
    whether or not the cache file can be written; a file that cannot be
    written leaves the file system as it was, one that can holds the new
    envelope afterwards. *)
Theorem GetInstancesWithCache_best_effort (cfg : Config) (profile : string)
    (w : World) (dbs : list DBInstance) (instances : list InstanceInfo) :
  let path := instancesFile C profile (Region cfg) w in
  let r := GetInstancesWithCache C cfg profile w in
  (forall cached, ~ usableCache C path w cached) ->
  rds_DescribeDBInstances C cfg = Ok dbs ->
  postgresInstances dbs = Ok instances ->
  fst r = Ok instances /\
  (path ∈ readonly w -> files (snd r) = files w) /\
  (path ∉ readonly w ->
   files (snd r) =
   <[path := mkFile (json_MarshalEnvelope C
                       (mkCacheEnvelope CacheVersion instances)) (now w)]>
     (files w)).
Proof.
  intros path r Hno Hcloud Hfilter. subst r.
  apply cachedInstances_absent in Hno.
  rewrite (GetInstancesWithCache_cached C _ _ _ _ Hno). fold path.
  unfold refetchInstances, fetchInstances, saveCache, bind, lift, ret,
    ignoreErr, os_MkdirAll, os_WriteFile, bind.
  cbn [emit fst snd]. rewrite Hcloud, Hfilter. cbn.
  destruct (decide (path ∈ readonly w)) as [Hro | Hrw]; cbn;
    repeat split; try reflexivity; intros; tauto.
Qed.

(** X13. Asking twice is asking once: a call that returns a list, from the
    cache or from the cloud, is followed at once by a call that returns
    the same list from the cache and changes nothing, provided the cache
    file can be written and the JSON encoding of the envelope decodes to
    it. *)
Theorem GetInstancesWithCache_twice (cfg : Config) (profile : string)
    (instances : list InstanceInfo) (w : World) :
  let path := instancesFile C profile (Region cfg) w in
  let envelope := mkCacheEnvelope CacheVersion instances in
  let w1 := snd (GetInstancesWithCache C cfg profile w) in
  fst (GetInstancesWithCache C cfg profile w) = Ok instances ->
  path ∉ readonly w ->
  json_UnmarshalEnvelope C (json_MarshalEnvelope C envelope) = Some envelope ->
  GetInstancesWithCache C cfg profile w1 = (Ok instances, w1).
Proof.
  intros path envelope w1 Hfirst Hrw Hjson. subst w1.
  destruct (cachedInstances_total C path w) as [[cached|] Hcached].
  - rewrite (GetInstancesWithCache_cached C _ _ _ _ Hcached) in *.
    cbn [fst snd] in *. injection Hfirst as ->.
    now rewrite (GetInstancesWithCache_cached C _ _ _ _ Hcached).
  - destruct (GetInstancesWithCache_steps C cfg profile w)
      as (evs & (_ & _ & _ & Hnow & _) & _).
    apply (GetInstancesWithCache_again C cfg profile instances w
             (snd (GetInstancesWithCache C cfg profile w))); try assumption.
    + now apply cachedInstances_absent.
    + destruct (GetInstancesWithCache C cfg profile w) as [r w1].
      cbn [fst] in Hfirst. now subst r.
    + reflexivity.
    + reflexivity.
    + assert (0 < Hour) by reflexivity. lia.
Qed.

End Fetch.

(** The sample fleet holds a MySQL database between two PostgreSQL ones. *)
Lemma postgresInstances_spec_witness :
  postgresInstances Sample.fleet = Ok [Sample.staging; Sample.metabase] /\
  postgresInstances
    [mkDBInstance (Some "postgres") (Some "creating-db") None None None None]
  = Panic "nil pointer dereference".
Proof.
  split.
  - destruct (postgresInstances_spec Sample.fleet) as (Hok & _).
    rewrite Hok; [reflexivity |].
    intros db [<- | [<- | [<- | []]]]; discriminate.
  - destruct (postgresInstances_spec
                [mkDBInstance (Some "postgres") (Some "creating-db")
                   None None None None]) as (_ & Hpanic & _).
    apply Hpanic. eexists. split; [now left |]. split; reflexivity.
Defined.

Lemma GetInstancesWithCache_fetch_error_witness :
  fst (GetInstancesWithCache Scenario.offline Sample.config "testprofile"
         (Sample.cachedWorld Hour))
  = Err "RequestError: send request failed" /\
  files (snd (GetInstancesWithCache Scenario.offline Sample.config "testprofile"
                (Sample.cachedWorld Hour)))
  = files (Sample.cachedWorld Hour).
Proof.
  destruct (GetInstancesWithCache_fetch_error Scenario.offline Sample.config
              "testprofile" (Sample.cachedWorld Hour)
              "RequestError: send request failed")
    as (Hres & Hfiles & _).
  - apply (cachedInstances_absent Scenario.offline). vm_compute. reflexivity.
  - reflexivity.
  - split; [exact Hres | exact Hfiles].
Defined.

Lemma GetInstancesWithCache_best_effort_witness :
  fst (GetInstancesWithCache Sample.healthy Sample.config "testprofile"
         (Scenario.readonlyWorld 0))
  = Ok [Sample.staging; Sample.metabase] /\
  files (snd (GetInstancesWithCache Sample.healthy Sample.config "testprofile"
                (Scenario.readonlyWorld 0))) = ∅.
Proof.
  destruct (GetInstancesWithCache_best_effort Sample.healthy Sample.config
              "testprofile" (Scenario.readonlyWorld 0) Sample.fleet
              [Sample.staging; Sample.metabase])
    as (Hres & Hro & _).
  - apply (cachedInstances_absent Sample.healthy). vm_compute. reflexivity.
  - reflexivity.
  - reflexivity.
  - split; [exact Hres |]. apply Hro. vm_compute. reflexivity.
Defined.

(** A run that fetched the fleet at time 0 answers from the cache one
    nanosecond before the hour is over. *)
Lemma GetInstancesWithCache_again_witness :
  GetInstancesWithCache Sample.healthy Sample.config "testprofile"
    (Sample.cachedWorld (Hour - 1))
  = (Ok [Sample.staging; Sample.metabase], Sample.cachedWorld (Hour - 1)).
Proof.
  apply (GetInstancesWithCache_again Sample.healthy Sample.config "testprofile"
           [Sample.staging; Sample.metabase] (Sample.freshWorld 0)
           (snd (GetInstancesWithCache Sample.healthy Sample.config
                   "testprofile" (Sample.freshWorld 0)))).
  - apply (cachedInstances_absent Sample.healthy). vm_compute. reflexivity.
  - vm_compute. reflexivity.
  - apply not_elem_of_empty.
  - vm_compute. reflexivity.
  - reflexivity.
  - reflexivity.
  - vm_compute. reflexivity.
Defined.

Lemma GetInstancesWithCache_twice_witness :
  let w1 := snd (GetInstancesWithCache Sample.healthy Sample.config "testprofile"
                   (Sample.freshWorld 0)) in
  GetInstancesWithCache Sample.healthy Sample.config "testprofile" w1
  = (Ok [Sample.staging; Sample.metabase], w1).
Proof.
  apply (GetInstancesWithCache_twice Sample.healthy Sample.config "testprofile"
           [Sample.staging; Sample.metabase] (Sample.freshWorld 0)).
  - reflexivity.
  - apply not_elem_of_empty.
  - vm_compute. reflexivity.
Defined.

(** ** More on name resolution *)

Section NameResolution.

Variable C : Collaborators.

Lemma Contains_empty (s : string) : Contains s "" = true.
Proof. apply Contains_spec. now exists "", s. Qed.

Lemma filter_all {A : Type} (f : A -> bool) (l : list A) :
  (forall a, In a l -> f a = true) -> List.filter f l = l.
Proof.
  induction l as [|a l IH]; intros Hall; cbn; [reflexivity |].
  rewrite (Hall a) by now left. f_equal. apply IH. intros b Hb. apply Hall. now right.
Qed.

(** X6. Whatever a lookup by name returns is a record of the list whose
    identifier contains the name, be it found by the first pass, as the
    only match of the second, or through the picker. *)
Theorem findByName_contains (instances : list InstanceInfo) (name : string)
    (inst : InstanceInfo) :
  findByName C instances name = Ok inst ->
  In inst instances /\ Contains (ID inst) name = true.
Proof.
  unfold findByName, substringMatch.
  destruct (List.find (hasID name) instances) as [found|] eqn:Hfind.
  - intros [= <-]. apply find_some in Hfind as [Hin Hid].
    apply String.eqb_eq in Hid. split; [exact Hin |].
    rewrite Hid. apply Contains_refl.
  - intros Hres.
    assert (In inst (List.filter (containsName name) instances)) as Hin.
    { destruct (length _ =? 1)%nat; [now apply (index_In _ 0) |].
      destruct (1 <? length _)%nat; [| discriminate].
      now apply (pickWithFuzzyFinder_In C). }
    now apply filter_In in Hin.
Qed.

(** X7. A name that equals no identifier and is contained in two or more
    goes to the picker, which is shown the matching records only, in the
    order of the list: its error is the error of the lookup, and the
    record at the index it returns is the result. *)
Theorem findByName_ambiguous (instances : list InstanceInfo) (name : string) :
  let matches := List.filter (containsName name) instances in
  (forall i, In i instances -> ID i <> name) ->
  (2 <= length matches)%nat ->
  findByName C instances name = pickWithFuzzyFinder C matches /\
  (forall e, fuzzyfinder_Find C matches = Err e ->
             findByName C instances name = Err e) /\
  (forall idx inst,
      fuzzyfinder_Find C matches = Ok (Z.of_nat idx) ->
      matches !! idx = Some inst ->
      findByName C instances name = Ok inst).
Proof.
  intros matches Hnone Hmany.
  assert (findByName C instances name = pickWithFuzzyFinder C matches) as Hpick.
  { rewrite (findByName_second_pass C instances name Hnone).
    unfold substringMatch. fold matches.
    destruct (Nat.eqb_spec (length matches) 1) as [Hone | _]; [lia |].
    destruct (Nat.ltb_spec 1 (length matches)) as [_ | Hfew]; [reflexivity | lia]. }
  rewrite Hpick. unfold pickWithFuzzyFinder, index.
  split; [reflexivity |]. split.
  - intros e ->. reflexivity.
  - intros idx inst -> Hidx.
    destruct (Z.leb_spec 0 (Z.of_nat idx)) as [_ | Hneg]; [| lia].
    now rewrite Nat2Z.id, Hidx.
Qed.

(** X8. The empty name is contained in every identifier: where no
    identifier is empty, looking it up fails on the empty list, returns
    the record of a list of one, and otherwise is the interactive choice
    among all records. *)
Theorem findByName_empty_name (instances : list InstanceInfo) :
  (forall i, In i instances -> ID i <> "") ->
  findByName C instances "" =
  match instances with
  | [] => Err "no instance matching ''"
  | [inst] => Ok inst
  | _ => pickWithFuzzyFinder C instances
  end.
Proof.
  intros Hnone. rewrite (findByName_second_pass C instances "" Hnone).
  unfold substringMatch.
  rewrite filter_all by (intros i _; apply Contains_empty).
  destruct instances as [|inst [|other rest]]; reflexivity.
Qed.

End NameResolution.

Lemma findByName_contains_witness :
  In Sample.metabase [Sample.staging; Sample.metabase] /\
  Contains (ID Sample.metabase) "basedev" = true.
Proof.
  apply (findByName_contains Sample.healthy). reflexivity.
Defined.

(** Two staging databases: the picker of the sample chooses the first of
    the two, and never sees the third record. *)
Lemma findByName_ambiguous_witness :
  findByName Sample.healthy
    [Sample.metabase; Sample.staging;
     mkInstanceInfo "staging-db-2" "" "" 5432 "14" ""] "staging"
  = Ok Sample.staging.
Proof.
  destruct (findByName_ambiguous Sample.healthy
              [Sample.metabase; Sample.staging;
               mkInstanceInfo "staging-db-2" "" "" 5432 "14" ""] "staging")
    as (_ & _ & Hpicked).
  - intros i [<- | [<- | [<- | []]]]; discriminate.
  - cbn. lia.
  - apply (Hpicked 0%nat); reflexivity.
Defined.

Lemma findByName_empty_name_witness :
  findByName Sample.healthy [Sample.staging; Sample.metabase] ""
  = Ok Sample.staging /\
  findByName Sample.healthy [Sample.metabase] "" = Ok Sample.metabase.
Proof.
  split.
  - rewrite findByName_empty_name; [reflexivity |].
    intros i [<- | [<- | []]]; discriminate.
  - rewrite findByName_empty_name; [reflexivity |].
    intros i [<- | []]; discriminate.
Defined.

(** ** More on the run *)

Section RunOutcome.

Variable C : Collaborators.

(** X9. The home region is the region of the configuration loaded with the
    region forced to [ap-south-1]: it is the same whatever region the
    caller asks for, and the caller's region is passed on only when it is
    not empty. *)
Theorem loadAWSConfig_home (profile region : string) (cfg : Config)
    (home : string) :
  loadAWSConfig C profile region = Ok (cfg, home) ->
  (exists homeCfg,
      awsconfig_LoadDefaultConfig C profile (Some "ap-south-1") = Ok homeCfg /\
      home = Region homeCfg) /\
  awsconfig_LoadDefaultConfig C profile
    (if String.eqb region "" then None else Some region) = Ok cfg /\
  (forall region' cfg' home',
      loadAWSConfig C profile region' = Ok (cfg', home') -> home' = home).
Proof.
  unfold loadAWSConfig.
  destruct (awsconfig_LoadDefaultConfig C profile (Some "ap-south-1"))
    as [homeCfg | e | p]; try discriminate.
  destruct (String.eqb region ""); cbn [negb];
    (destruct (awsconfig_LoadDefaultConfig C profile _) as [cfg0 | e | p] eqn:Hcfg;
     try discriminate; intros [= <- <-];
     split; [now exists homeCfg |]; split; [reflexivity |];
     intros region' cfg' home';
     destruct (awsconfig_LoadDefaultConfig C profile
                 (if negb (String.eqb region' "") then Some region' else None));
     try discriminate; now intros [= _ <-]).
Qed.

(** X10. Without a configuration or without the instances nothing else is
    attempted: [Run] returns the error of the configuration as it is, and
    the error of the fetch behind [fetch instances: ], in the world the
    failed step has left. *)
Theorem Run_discovery_errors (opts : Options) (w : World) :
  let w0 := snd (vpnWarning C (Profile opts) w) in
  fst (vpnWarning C (Profile opts) w) = Ok tt ->
  (forall e, loadAWSConfig C (Profile opts) (OptRegion opts) = Err e ->
             Run C opts w = (Err e, w0)) /\
  (forall cfg home e w1,
      loadAWSConfig C (Profile opts) (OptRegion opts) = Ok (cfg, home) ->
      GetInstancesWithCache C cfg (Profile opts) w0 = (Err e, w1) ->
      Run C opts w = (Err ("fetch instances: " +:+ e), w1)).
Proof.
  intros w0 Hvpn. subst w0. unfold Run, bind, lift, wrapErr.
  destruct (vpnWarning C (Profile opts) w) as [[[] | e | p] w0];
    try discriminate. cbn [snd].
  split.
  - intros e ->. reflexivity.
  - intros cfg home e w1 -> Hfetch. cbn [fst snd]. now rewrite Hfetch.
Qed.

(** The command [executeExternal] starts. *)
Lemma executeExternal_run (bin : string) (inst : InstanceInfo)
    (creds : RDSCreds) (w : World) :
  let child := mkCmd bin (buildConnectArgs inst creds)
                 (os_Environ w ++ ["PGPASSWORD=" +:+ Password creds]) true in
  (exists rest,
      trace (snd (executeExternal C bin inst creds w)) =
      trace w ++ EvStart child :: rest /\
      forall host port user password dbname,
        ~ In (EvNativeConnect host port user password dbname) rest) /\
  ((forall p, cmd_Start C child <> Panic p) ->
   fst (executeExternal C bin inst creds w) = Ok tt).
Proof.
  intros child. unfold executeExternal. rewrite bind_gets.
  destruct (startAndWait_run C
              (mkCmd bin (buildConnectArgs inst creds)
                 (os_Environ w ++ ["PGPASSWORD=" +:+ Password creds]) false) w)
    as ((evs & Htrace & Hevs) & _ & Hres).
  change (inOwnGroup _) with child in Htrace, Hres.
  unfold ignoreErr.
  destruct (startAndWait C _ w) as [r w']. cbn [fst snd] in *.
  split.
  - exists evs. split; [destruct r; exact Htrace |].
    intros host port user password dbname Hin.
    rewrite forallb_forall in Hevs. now apply Hevs in Hin.
  - intros Hnopanic. rewrite Hres.
    destruct (cmd_Start C child) as [pid | e | p];
      [destruct (cmd_Wait C child pid) | |]; try reflexivity.
    now destruct (Hnopanic p).
Qed.

(** X11. The client is pgcli where it is installed, psql where only that
    is, and the native session where neither is.  An external client is
    started on the host, port and user of the instance, database
    [postgres], with the password as the last entry, [PGPASSWORD], of an
    otherwise inherited environment; the argument list is the same for
    every password. *)
Theorem launch_client (selected : InstanceInfo) (creds : RDSCreds) (w : World) :
  let external bin :=
    mkCmd bin
      ["-h"; Host selected; "-p"; formatInt (Port selected);
       "-U"; Username creds; "-d"; "postgres"]
      (os_Environ w ++ ["PGPASSWORD=" +:+ Password creds]) true in
  let started bin :=
    exists banner rest,
      trace (snd (launch C selected creds w)) =
      trace w ++ EvPrint banner :: EvStart (external bin) :: rest /\
      forall host port user password dbname,
        ~ In (EvNativeConnect host port user password dbname) rest in
  (forall bin, exec_LookPath C "pgcli" = Some bin -> started bin) /\
  (forall bin, exec_LookPath C "pgcli" = None ->
               exec_LookPath C "psql" = Some bin -> started bin) /\
  (exec_LookPath C "pgcli" = None -> exec_LookPath C "psql" = None ->
   exists banner,
     trace (snd (launch C selected creds w)) =
     trace w ++ [EvPrint banner;
                 EvNativeConnect (Host selected) (Port selected)
                   (Username creds) (Password creds) "postgres"]) /\
  (forall password,
      buildConnectArgs selected (mkRDSCreds (Username creds) password)
      = buildConnectArgs selected creds).
Proof.
  intros external started.
  assert (forall banner bin,
             exists rest,
               trace (snd ((emit (EvPrint banner) ;;;
                            executeExternal C bin selected creds) w)) =
               trace w ++ EvPrint banner :: EvStart (external bin) :: rest /\
               forall host port user password dbname,
                 ~ In (EvNativeConnect host port user password dbname) rest)
    as Hexternal.
  { intros banner bin. rewrite bind_emit.
    destruct (executeExternal_run bin selected creds (snd (emit (EvPrint banner) w)))
      as ((rest & Htrace & Hrest) & _).
    exists rest. split; [| exact Hrest].
    rewrite Htrace. cbn. now rewrite <- app_assoc. }
  subst started. cbn beta. unfold launch.
  split; [| split; [| split]].
  - intros bin ->. eexists. apply Hexternal.
  - intros bin -> ->. eexists. apply Hexternal.
  - intros -> ->. eexists. unfold runNativeConnect. rewrite bind_emit.
    cbn. rewrite <- app_assoc. reflexivity.
  - reflexivity.
Qed.

(** Launching ends well unless starting the child panics. *)
Lemma launch_ok (selected : InstanceInfo) (creds : RDSCreds) (w : World) :
  (forall cmd p, cmd_Start C cmd <> Panic p) ->
  fst (launch C selected creds w) = Ok tt.
Proof.
  intros Hnopanic. unfold launch.
  destruct (exec_LookPath C "pgcli") as [bin|];
    [| destruct (exec_LookPath C "psql") as [bin|]];
    rewrite bind_emit; try reflexivity;
    apply executeExternal_run; intros p; apply Hnopanic.
Qed.

(** X12. Once the credentials are there the run succeeds, whatever becomes
    of the client: a client that cannot be started or that ends with an
    error makes neither [Run] return an error nor [runConnect] leave the
    process with a status. *)
Theorem Run_ignores_client_failure (opts : Options) (w w1 w2 : World)
    (cfg : Config) (home : string) (instances : list InstanceInfo)
    (selected : InstanceInfo) (creds : RDSCreds) :
  (forall cmd p, cmd_Start C cmd <> Panic p) ->
  discover C opts w = (Ok (cfg, home, instances), w1) ->
  selectInstance C opts instances w1 = Ok selected ->
  getRDSCredentials C cfg selected home w1 = (Ok creds, w2) ->
  fst (Run C opts w) = Ok tt /\
  fst (runConnect C (Profile opts) (OptRegion opts) (LastConnected opts)
         (Args opts) w) = Returned.
Proof.
  intros Hnopanic Hdiscover Hsel Hcreds.
  assert (fst (Run C opts w) = Ok tt) as Hrun.
  { rewrite (Run_after_discover C _ _ _ _ _ _ Hdiscover).
    unfold bind, wrapErr. rewrite Hsel, Hcreds.
    destruct (saveLastID_spec C (ID selected) (Profile opts) w2) as (Hok & _).
    destruct (saveLastID C (ID selected) (Profile opts) w2) as [[[] | e | p] w3];
      try discriminate.
    unfold printTarget. cbn [emit].
    now apply launch_ok. }
  split; [exact Hrun |].
  unfold runConnect. destruct opts as [profile region last args]. cbn [Profile OptRegion LastConnected Args].
  destruct (Run C _ w) as [[[] | e | p] w']; try discriminate; reflexivity.
Qed.

End RunOutcome.

Lemma loadAWSConfig_home_witness :
  loadAWSConfig Sample.healthy "testprofile" "eu-central-1"
  = Ok (mkConfig "eu-central-1" "testprofile", "ap-south-1") /\
  forall region cfg home,
    loadAWSConfig Sample.healthy "testprofile" region = Ok (cfg, home) ->
    home = "ap-south-1".
Proof.
  split; [reflexivity |].
  intros region cfg home Hload.
  destruct (loadAWSConfig_home Sample.healthy "testprofile" "eu-central-1"
              (mkConfig "eu-central-1" "testprofile") "ap-south-1" eq_refl)
    as (_ & _ & Hsame).
  exact (Hsame region cfg home Hload).
Defined.

Lemma Run_discovery_errors_witness :
  fst (Run Scenario.noProfile (Sample.byName "metabasedev") (Sample.freshWorld 0))
  = Err "load AWS config (home): failed to get shared config profile, testprofile" /\
  fst (Run Scenario.offline (Sample.byName "metabasedev") (Sample.freshWorld 0))
  = Err "fetch instances: RequestError: send request failed".
Proof.
  split.
  - destruct (Run_discovery_errors Scenario.noProfile
                (Sample.byName "metabasedev") (Sample.freshWorld 0) eq_refl)
      as (Hconfig & _).
    rewrite (Hconfig _ eq_refl). reflexivity.
  - destruct (Run_discovery_errors Scenario.offline
                (Sample.byName "metabasedev") (Sample.freshWorld 0) eq_refl)
      as (_ & Hfetch).
    rewrite (Hfetch Sample.config "ap-south-1"
               "RequestError: send request failed"
               (snd (GetInstancesWithCache Scenario.offline Sample.config
                       "testprofile" (Sample.freshWorld 0))));
      reflexivity.
Defined.

(** psql is the client of the sample machine. *)
Lemma launch_client_witness :
  exists banner rest,
    trace (snd (launch Sample.healthy Sample.metabase
                  (mkRDSCreds "postgres" "test-secret") (Sample.freshWorld 0)))
    = EvPrint banner ::
      EvStart (mkCmd "/usr/bin/psql"
                 ["-h"; "metabasedev-poc.xxxxx.ap-south-1.rds.amazonaws.com";
                  "-p"; "5432"; "-U"; "postgres"; "-d"; "postgres"]
                 ["RDS_CACHE_DIR=/tmp/rds"; "PGPASSWORD=test-secret"] true)
      :: rest.
Proof.
  destruct (launch_client Sample.healthy Sample.metabase
              (mkRDSCreds "postgres" "test-secret") (Sample.freshWorld 0))
    as (_ & Hpsql & _).
  destruct (Hpsql "/usr/bin/psql" eq_refl eq_refl) as (banner & rest & Htrace & _).
  exists banner, rest. exact Htrace.
Defined.

(** A client that ends with an error, and one that cannot be started. *)
Lemma Run_ignores_client_failure_witness :
  fst (Run Sample.failingClient (Sample.byName "metabasedev") (Sample.freshWorld 7))
  = Ok tt /\
  fst (runConnect Scenario.missingClient "testprofile" "" false ["metabasedev"]
         (Sample.freshWorld 7)) = Returned.
Proof.
  split.
  - apply (Run_ignores_client_failure Sample.failingClient
             (Sample.byName "metabasedev") (Sample.freshWorld 7)
             (snd (discover Sample.failingClient (Sample.byName "metabasedev")
                     (Sample.freshWorld 7)))
             (snd (getRDSCredentials Sample.failingClient Sample.config
                     Sample.metabase "ap-south-1"
                     (snd (discover Sample.failingClient
                             (Sample.byName "metabasedev") (Sample.freshWorld 7)))))
             Sample.config "ap-south-1" [Sample.staging; Sample.metabase]
             Sample.metabase (mkRDSCreds "postgres" "test-secret")).
    + discriminate.
    + vm_compute. reflexivity.
    + reflexivity.
    + vm_compute. reflexivity.
  - apply (Run_ignores_client_failure Scenario.missingClient
             (Sample.byName "metabasedev") (Sample.freshWorld 7)
             (snd (discover Scenario.missingClient (Sample.byName "metabasedev")
                     (Sample.freshWorld 7)))
             (snd (getRDSCredentials Scenario.missingClient Sample.config
                     Sample.metabase "ap-south-1"
                     (snd (discover Scenario.missingClient
                             (Sample.byName "metabasedev") (Sample.freshWorld 7)))))
             Sample.config "ap-south-1" [Sample.staging; Sample.metabase]
             Sample.metabase (mkRDSCreds "postgres" "test-secret")).
    + discriminate.
    + vm_compute. reflexivity.
    + reflexivity.
    + vm_compute. reflexivity.
Defined.

(** ** More on the last selection and the credentials *)

Section StoreAndSecrets.

Variable C : Collaborators.

(** X14. The last-selection file holds one identifier, the one saved last:
    after two saves for a profile the file holds the second identifier and
    loading behaves as if the first had never been saved. *)
Theorem saveLastID_overwrites (X Y profile : string)
    (instances : list InstanceInfo) (w : World) :
  let last := lastConnectedFile C profile w in
  let twice := snd (saveLastID C Y profile (snd (saveLastID C X profile w))) in
  let once := snd (saveLastID C Y profile w) in
  last ∉ readonly w ->
  files twice !! last = Some (mkFile Y (now w)) /\
  loadLastConnected C instances profile twice =
  loadLastConnected C instances profile once.
Proof.
  intros last twice once Hrw.
  destruct (saveLastID_spec C X profile w) as (_ & (_ & Henv1 & Hro1 & Hnow1 & _) & _).
  set (w1 := snd (saveLastID C X profile w)) in *.
  destruct (saveLastID_spec C Y profile w1) as (_ & (_ & Henv2 & _) & Hwritten2 & _).
  destruct (saveLastID_spec C Y profile w) as (_ & (_ & Henv & _) & Hwritten & _).
  fold twice in Henv2, Hwritten2. fold once in Henv, Hwritten.
  rewrite (lastConnectedFile_environ C profile w w1 Henv1) in Hwritten2.
  fold last in Hwritten, Hwritten2.
  rewrite Hro1, Hnow1 in Hwritten2.
  split; [now apply Hwritten2 |].
  assert (files twice !! lastConnectedFile C profile twice = Some (mkFile Y (now w)))
    as Htwice.
  { rewrite (lastConnectedFile_environ C profile w twice) by congruence.
    now apply Hwritten2. }
  assert (files once !! lastConnectedFile C profile once = Some (mkFile Y (now w)))
    as Honce.
  { rewrite (lastConnectedFile_environ C profile w once) by congruence.
    now apply Hwritten. }
  rewrite (loadLastConnected_read C instances profile twice _ Htwice).
  rewrite (loadLastConnected_read C instances profile once _ Honce).
  reflexivity.
Qed.

(** X15. Saving the last selection leaves the instance cache alone: a
    cache that was usable before is used by the next call after it. *)
Theorem saveLastID_keeps_cache (id profile : string) (cfg : Config) (w : World)
    (cached : list InstanceInfo) :
  let path := instancesFile C profile (Region cfg) w in
  let saved := snd (saveLastID C id profile w) in
  path <> lastConnectedFile C profile w ->
  usableCache C path w cached ->
  GetInstancesWithCache C cfg profile saved = (Ok cached, saved).
Proof.
  intros path saved Hdistinct (file & envelope & Hfile & Hjson & Hversion & Hage & ->).
  destruct (saveLastID_spec C id profile w) as (_ & (_ & Henv & _ & Hnow & Hkept) & _).
  fold saved in Henv, Hnow, Hkept.
  assert (cachedInstances C (instancesFile C profile (Region cfg) saved) saved
          = Ok (Some (Instances envelope))) as Hload.
  { rewrite (instancesFile_environ C profile (Region cfg) w saved Henv).
    fold path. apply cachedInstances_usable.
    exists file, envelope. repeat split; try assumption; [| lia].
    rewrite Hkept; [exact Hfile |].
    intros [data [Hin | [Hin | []]]]; [discriminate |].
    injection Hin as Heq _. now apply Hdistinct. }
  now rewrite (GetInstancesWithCache_cached C _ _ _ _ Hload).
Qed.

(** When the replica notice is due, in terms of the fields of the source. *)
Lemma notice_condition (selected : InstanceInfo) :
  negb (String.eqb (SourceID selected) "")
  && HasPrefix (SourceID selected) "arn:aws:rds:"
  && negb (String.eqb (instanceSecretTargetID selected) (ID selected)) = true <->
  arnReplica selected /\ nth 6 (Split (SourceID selected) ":") "" <> ID selected.
Proof.
  unfold arnReplica, instanceSecretTargetID.
  destruct (String.eqb_spec (SourceID selected) "") as [Hempty | Hsome].
  - rewrite Hempty. cbn. split; [discriminate | intros [[H _] _]; discriminate].
  - cbn [negb andb].
    destruct (HasPrefix (SourceID selected) "arn:aws:rds:");
      [| cbn; split; [discriminate | intros [[H _] _]; discriminate]].
    cbn [andb].
    destruct (Nat.leb_spec 7 (length (Split (SourceID selected) ":"))) as [Hlen | Hlen].
    + rewrite negb_true_iff, String.eqb_neq. tauto.
    + rewrite String.eqb_refl. cbn [negb].
      split; [discriminate | intros [[_ H] _]; lia].
Qed.

(** X16. The replica notice is printed exactly for an instance whose source
    is a resource name of at least seven fields with a seventh field other
    than the instance's own identifier; then it comes right before the
    secret lookup, and otherwise the lookup is all that happens. *)
Theorem replica_notice (cfg : Config) (selected : InstanceInfo)
    (homeRegion : string) (w : World) :
  let secretID := "root/" +:+ instanceSecretTargetID selected +:+ "/psql" in
  let r := getRDSCredentials C cfg selected homeRegion w in
  let notice :=
    EvPrint ("🌐 DR Replica detected. Fetching master secret '"
             +:+ instanceSecretTargetID selected
             +:+ "' from primary region: " +:+ homeRegion +:+ nl) in
  (arnReplica selected /\
   nth 6 (Split (SourceID selected) ":") "" <> ID selected ->
   trace (snd r) = trace w ++ [notice; EvGetSecretValue homeRegion secretID]) /\
  (~ (arnReplica selected /\
      nth 6 (Split (SourceID selected) ":") "" <> ID selected) ->
   trace (snd r) = trace w ++ [EvGetSecretValue homeRegion secretID]).
Proof.
  intros secretID r notice. subst r.
  pose proof (notice_condition selected) as Hcond.
  unfold getRDSCredentials. fold secretID.
  destruct (negb (String.eqb (SourceID selected) "")
            && HasPrefix (SourceID selected) "arn:aws:rds:"
            && negb (String.eqb (instanceSecretTargetID selected) (ID selected))).
  - split.
    + intros _. unfold bind, emit, lift. cbn.
      destruct (secretsmanager_GetSecretValue C _ secretID) as [[s|] | e | p];
        cbn; now rewrite <- app_assoc.
    + intros Hnot. exfalso. apply Hnot. now apply Hcond.
  - split.
    + intros Hyes. apply Hcond in Hyes. discriminate.
    + intros _. unfold bind, emit, lift, ret. cbn.
      destruct (secretsmanager_GetSecretValue C _ secretID) as [[s|] | e | p];
        reflexivity.
Qed.

(** X17. The credential lookup of package [cmd] before the split and the
    one of package [connect] look up the same secret in the same region and
    return the same; they leave the same world behind except for a replica
    whose source, a resource name of at least seven fields, names the
    instance itself, where only the earlier one prints the notice. *)
Theorem legacy_lookup_agrees (cfg : Config) (selected : InstanceInfo)
    (homeRegion : string) (w : World) :
  let old := Legacy.getRDSCredentials C cfg selected homeRegion w in
  let new := getRDSCredentials C cfg selected homeRegion w in
  fst (Legacy.secretTarget selected) = instanceSecretTargetID selected /\
  fst old = fst new /\
  (~ (arnReplica selected /\
      nth 6 (Split (SourceID selected) ":") "" = ID selected) -> old = new) /\
  (arnReplica selected ->
   nth 6 (Split (SourceID selected) ":") "" = ID selected ->
   exists notice,
     trace (snd old) = trace w ++ EvPrint notice :: drop (length (trace w)) (trace (snd new))).
Proof.
  intros old new. subst old new.
  assert (fst (Legacy.secretTarget selected) = instanceSecretTargetID selected)
    as Htarget.
  { unfold Legacy.secretTarget, instanceSecretTargetID.
    destruct (String.eqb (SourceID selected) ""); cbn [negb]; [reflexivity |].
    destruct (HasPrefix (SourceID selected) "arn:aws:rds:"); [| reflexivity].
    now destruct (7 <=? length (Split (SourceID selected) ":"))%nat. }
  assert (snd (Legacy.secretTarget selected) = true <-> arnReplica selected)
    as Hflag.
  { unfold Legacy.secretTarget, arnReplica.
    destruct (String.eqb_spec (SourceID selected) "") as [Hempty | Hsome];
      cbn [negb].
    - rewrite Hempty. cbn. split; [discriminate | intros [H _]; discriminate].
    - destruct (HasPrefix (SourceID selected) "arn:aws:rds:");
        [| cbn; split; [discriminate | intros [H _]; discriminate]].
      destruct (Nat.leb_spec 7 (length (Split (SourceID selected) ":")))
        as [Hlen | Hlen]; cbn [snd].
      + tauto.
      + split; [discriminate | intros [_ H']; lia]. }
  pose proof (notice_condition selected) as Hcond.
  unfold Legacy.getRDSCredentials, getRDSCredentials. rewrite Htarget.
  set (secretID := "root/" +:+ instanceSecretTargetID selected +:+ "/psql").
  destruct (snd (Legacy.secretTarget selected)) eqn:Hold;
    destruct (negb (String.eqb (SourceID selected) "")
              && HasPrefix (SourceID selected) "arn:aws:rds:"
              && negb (String.eqb (instanceSecretTargetID selected) (ID selected)))
      eqn:Hnew.
  - (* both print *)
    split; [reflexivity |]. split; [reflexivity |]. split; [reflexivity |].
    intros _ Hself. exfalso.
    destruct (proj1 Hcond eq_refl) as [_ Hother]. now apply Hother.
  - (* only the earlier one prints *)
    split; [reflexivity |].
    unfold bind, emit, lift, ret. cbn.
    destruct (secretsmanager_GetSecretValue C _ secretID) as [[s|] | e | p]; cbn;
      (split; [reflexivity |]); (split;
       [intros Hnot; exfalso; apply Hnot;
        split; [now apply Hflag |];
        destruct (string_dec (nth 6 (Split (SourceID selected) ":") "") (ID selected))
          as [Heq | Hne]; [exact Heq |];
        assert (false = true) by (apply Hcond; split; [now apply Hflag | exact Hne]);
        discriminate
       | intros _ _; eexists;
         rewrite <- app_assoc, drop_app_length; reflexivity ]).
  - (* only the later one would print: impossible *)
    exfalso. destruct (proj1 Hcond eq_refl) as [Harn _].
    apply Hflag in Harn. discriminate.
  - (* neither prints *)
    split; [reflexivity |]. split; [reflexivity |]. split; [reflexivity |].
    intros Harn _. apply Hflag in Harn. discriminate.
Qed.

End StoreAndSecrets.

Lemma saveLastID_overwrites_witness :
  loadLastConnected Sample.healthy [Sample.staging; Sample.metabase] "testprofile"
    (snd (saveLastID Sample.healthy "metabasedev-poc" "testprofile"
            (snd (saveLastID Sample.healthy "staging-db-1" "testprofile"
                    (Sample.freshWorld 0)))))
  = Ok Sample.metabase.
Proof.
  destruct (saveLastID_overwrites Sample.healthy "staging-db-1" "metabasedev-poc"
              "testprofile" [Sample.staging; Sample.metabase]
              (Sample.freshWorld 0)) as (_ & Hload).
  - apply not_elem_of_empty.
  - rewrite Hload. reflexivity.
Defined.

Lemma saveLastID_keeps_cache_witness :
  let saved := snd (saveLastID Sample.healthy "metabasedev-poc" "testprofile"
                      (Sample.cachedWorld (Hour - 1))) in
  GetInstancesWithCache Sample.healthy Sample.config "testprofile" saved
  = (Ok [Sample.staging; Sample.metabase], saved).
Proof.
  intros saved.
  apply (saveLastID_keeps_cache Sample.healthy "metabasedev-poc" "testprofile"
           Sample.config (Sample.cachedWorld (Hour - 1))).
  - apply String.eqb_neq. reflexivity.
  - apply (cachedInstances_usable Sample.healthy). vm_compute. reflexivity.
Defined.

(** A replica of a master in the home region, and an instance whose source
    names the instance itself. *)
Lemma replica_notice_witness :
  (exists notice,
      trace (snd (getRDSCredentials Sample.healthy Sample.config
                    (mkInstanceInfo "replica-db" "" "" 5432 "15"
                       "arn:aws:rds:ap-south-1:123456789012:db:master-db")
                    "ap-south-1" (Sample.freshWorld 0)))
      = [EvPrint notice; EvGetSecretValue "ap-south-1" "root/master-db/psql"]) /\
  trace (snd (getRDSCredentials Sample.healthy Sample.config
                (mkInstanceInfo "my-db" "" "" 5432 "15"
                   "arn:aws:rds:ap-south-1:123456789012:db:my-db")
                "ap-south-1" (Sample.freshWorld 0)))
  = [EvGetSecretValue "ap-south-1" "root/my-db/psql"].
Proof.
  split.
  - destruct (replica_notice Sample.healthy Sample.config
                (mkInstanceInfo "replica-db" "" "" 5432 "15"
                   "arn:aws:rds:ap-south-1:123456789012:db:master-db")
                "ap-south-1" (Sample.freshWorld 0)) as (Hnotice & _).
    eexists. apply Hnotice. split.
    + split; [reflexivity | vm_compute; lia].
    + discriminate.
  - destruct (replica_notice Sample.healthy Sample.config
                (mkInstanceInfo "my-db" "" "" 5432 "15"
                   "arn:aws:rds:ap-south-1:123456789012:db:my-db")
                "ap-south-1" (Sample.freshWorld 0)) as (_ & Hquiet).
    apply Hquiet. intros [_ Hother]. now apply Hother.
Defined.

Lemma legacy_lookup_agrees_witness :
  Legacy.getRDSCredentials Sample.healthy Sample.config
    (mkInstanceInfo "replica-db" "" "" 5432 "15" "master-db")
    "ap-south-1" (Sample.freshWorld 0)
  = getRDSCredentials Sample.healthy Sample.config
      (mkInstanceInfo "replica-db" "" "" 5432 "15" "master-db")
      "ap-south-1" (Sample.freshWorld 0) /\
  exists notice,
    trace (snd (Legacy.getRDSCredentials Sample.healthy Sample.config
                  (mkInstanceInfo "my-db" "" "" 5432 "15"
                     "arn:aws:rds:ap-south-1:123456789012:db:my-db")
                  "ap-south-1" (Sample.freshWorld 0)))
    = [EvPrint notice; EvGetSecretValue "ap-south-1" "root/my-db/psql"].
Proof.
  split.
  - destruct (legacy_lookup_agrees Sample.healthy Sample.config
                (mkInstanceInfo "replica-db" "" "" 5432 "15" "master-db")
                "ap-south-1" (Sample.freshWorld 0)) as (_ & _ & Hsame & _).
    apply Hsame. intros [[Hprefix _] _]. discriminate.
  - destruct (legacy_lookup_agrees Sample.healthy Sample.config
                (mkInstanceInfo "my-db" "" "" 5432 "15"
                   "arn:aws:rds:ap-south-1:123456789012:db:my-db")
                "ap-south-1" (Sample.freshWorld 0)) as (_ & _ & _ & Hextra).
    destruct Hextra as [notice Htrace].
    + split; [reflexivity | vm_compute; lia].
    + reflexivity.
    + exists notice. exact Htrace.
Defined.

(** ** Completion on the command line *)

Section Completion.

Variable C : Collaborators.

Lemma instanceCompletions_In (instances : list InstanceInfo)
    (toComplete line : string) :
  In line (instanceCompletions instances toComplete) <->
  exists inst, In inst instances /\
               HasPrefix (ID inst) toComplete = true /\
               line = ID inst +:+ tab +:+ Size inst.
Proof.
  unfold instanceCompletions. rewrite in_map_iff. split.
  - intros (inst & <- & Hin). apply filter_In in Hin as [Hin Hpre].
    now exists inst.
  - intros (inst & Hin & Hpre & ->). exists inst. split; [reflexivity |].
    now apply filter_In.
Qed.

(** X18. Completion of the instance argument does nothing once an argument
    is there, and it reports a failed configuration or fetch to the shell
    instead of returning an error.  Otherwise the configuration is loaded
    for the region of the flag, else of [AWS_REGION], else of the profile,
    and what is offered is, instance by instance in the order of the list
    [GetInstancesWithCache] returns, one line of identifier, tab and size
    for each instance whose identifier starts with what was typed, and no
    other line: as many lines as there are such instances, every line that
    of such an instance, every such instance offered.  An offered
    identifier given to [rds connect] resolves in the first pass to a
    record with that identifier. *)
Theorem connectValidArgs_offers (awsProfile rFlag toComplete : string)
    (args : list string) (w : World) :
  let region :=
    if String.eqb rFlag "" then
      if String.eqb (os_Getenv "AWS_REGION" w) "" then None
      else Some (os_Getenv "AWS_REGION" w)
    else Some rFlag in
  (args <> [] ->
   connectValidArgs C awsProfile rFlag args toComplete w
   = (Ok ([], ShellCompDirectiveNoFileComp), w)) /\
  (forall e, fst (connectValidArgs C awsProfile rFlag args toComplete w) <> Err e) /\
  (forall lines w',
      connectValidArgs C awsProfile rFlag [] toComplete w
      = (Ok (lines, ShellCompDirectiveNoFileComp), w') ->
      exists cfg instances,
        awsconfig_LoadDefaultConfig C awsProfile region = Ok cfg /\
        GetInstancesWithCache C cfg awsProfile w = (Ok instances, w') /\
        lines =
          map (fun inst => ID inst +:+ tab +:+ Size inst)
            (List.filter (fun inst => HasPrefix (ID inst) toComplete)
               instances) /\
        length lines =
          length (List.filter (fun inst => HasPrefix (ID inst) toComplete)
                    instances) /\
        (forall line,
            In line lines <->
            exists inst, In inst instances /\
                         HasPrefix (ID inst) toComplete = true /\
                         line = ID inst +:+ tab +:+ Size inst) /\
        (forall inst, In inst instances ->
            HasPrefix (ID inst) toComplete = true ->
            exists found, findByName C instances (ID inst) = Ok found /\
                          ID found = ID inst)) /\
  (forall cfg instances w',
      awsconfig_LoadDefaultConfig C awsProfile region = Ok cfg ->
      GetInstancesWithCache C cfg awsProfile w = (Ok instances, w') ->
      connectValidArgs C awsProfile rFlag [] toComplete w
      = (Ok (map (fun inst => ID inst +:+ tab +:+ Size inst)
               (List.filter (fun inst => HasPrefix (ID inst) toComplete)
                  instances),
             ShellCompDirectiveNoFileComp), w')).
Proof.
  intros region.
  assert (region =
          if negb (String.eqb rFlag "") then Some rFlag
          else if negb (String.eqb (os_Getenv "AWS_REGION" w) "")
               then Some (os_Getenv "AWS_REGION" w)
               else None) as Hregion.
  { subst region.
    now destruct (String.eqb rFlag ""), (String.eqb (os_Getenv "AWS_REGION" w) ""). }
  split; [| split; [| split]].
  - intros Hargs. unfold connectValidArgs.
    destruct args; [congruence | reflexivity].
  - intros e. unfold connectValidArgs.
    destruct (0 <? length args)%nat; [discriminate |].
    destruct (awsconfig_LoadDefaultConfig C awsProfile _) as [cfg | e' | p];
      try discriminate.
    destruct (GetInstancesWithCache C cfg awsProfile w) as [[instances | e' | p] w1];
      discriminate.
  - intros lines w'. unfold connectValidArgs. cbn [length Nat.ltb Nat.leb].
    rewrite <- Hregion.
    destruct (awsconfig_LoadDefaultConfig C awsProfile region) as [cfg | e | p];
      try discriminate.
    destruct (GetInstancesWithCache C cfg awsProfile w) as [[instances | e | p] w1]
      eqn:Hfetch; try discriminate.
    intros [= <- <-]. exists cfg, instances.
    split; [reflexivity |]. split; [exact Hfetch |].
    split; [reflexivity |].
    split; [unfold instanceCompletions; apply length_map |].
    split; [apply instanceCompletions_In |].
    intros inst Hin _.
    destruct (find_finds (hasID (ID inst)) instances inst Hin) as [found Hfind].
    { apply String.eqb_refl. }
    exists found. unfold findByName. rewrite Hfind. split; [reflexivity |].
    apply find_some in Hfind as [_ Hid]. now apply String.eqb_eq.
  - intros cfg instances w' Hcfg Hfetch. unfold connectValidArgs.
    cbn [length Nat.ltb Nat.leb]. rewrite <- Hregion, Hcfg, Hfetch. reflexivity.
Qed.

End Completion.

Section ProfileCompletion.

Variable C : Collaborators.

Lemma length_append (a b : string) :
  String.length (a +:+ b) = (String.length a + String.length b)%nat.
Proof.
  induction a as [|c a IH]; [reflexivity |].
  rewrite append_cons. cbn [String.length]. now rewrite IH.
Qed.

(** A string is its first [n] bytes followed by the rest. *)
Lemma take_drop_bytes (s : string) (n : nat) :
  (n <= String.length s)%nat -> s = takeBytes n s +:+ dropBytes n s.
Proof.
  unfold takeBytes, dropBytes. revert n.
  induction s as [|c s IH]; intros n Hn.
  - cbn in Hn. assert (n = 0%nat) as -> by lia. reflexivity.
  - destruct n as [|n].
    + cbn [String.substring String.length Nat.sub].
      rewrite append_empty_l. f_equal.
      clear. induction s as [|d s IH]; [reflexivity |].
      cbn [String.substring String.length]. now rewrite <- IH.
    + cbn [String.length] in Hn. cbn [String.substring String.length Nat.sub].
      rewrite append_cons. f_equal. apply IH. lia.
Qed.

Lemma dropBytes_append (pre suf : string) :
  dropBytes (String.length pre) (pre +:+ suf) = suf.
Proof.
  unfold dropBytes. rewrite length_append.
  replace (String.length pre + String.length suf - String.length pre)%nat
    with (String.length suf) by lia.
  induction pre as [|c pre IH].
  - rewrite append_empty_l. cbn [String.length].
    clear. induction suf as [|d s IH]; [reflexivity |].
    cbn [String.substring String.length]. now rewrite IH.
  - rewrite append_cons. cbn [String.length String.substring]. exact IH.
Qed.

(** [HasSuffix s suffix] holds exactly when [s] is something followed by
    [suffix]. *)
Lemma HasSuffix_spec (s suffix : string) :
  HasSuffix s suffix = true <-> exists pre, s = pre +:+ suffix.
Proof.
  unfold HasSuffix. rewrite andb_true_iff, Nat.leb_le, String.eqb_eq. split.
  - intros [Hlen Hdrop].
    exists (takeBytes (String.length s - String.length suffix) s).
    pose proof (take_drop_bytes s (String.length s - String.length suffix))
      as Hsplit.
    rewrite Hdrop in Hsplit. apply Hsplit. lia.
  - intros [pre ->]. rewrite length_append. split; [lia |].
    replace (String.length pre + String.length suffix - String.length suffix)%nat
      with (String.length pre) by lia.
    apply dropBytes_append.
Qed.

(** A section line is a pair of brackets around something. *)
Lemma isSectionLine_spec (line : string) :
  isSectionLine line = true <-> exists name, line = "[" +:+ name +:+ "]".
Proof.
  unfold isSectionLine. rewrite andb_true_iff, HasPrefix_spec, HasSuffix_spec.
  split.
  - intros [[rest ->] [pre Hpre]].
    destruct pre as [|c pre].
    + rewrite append_empty_l in Hpre. discriminate.
    + rewrite !append_cons, append_empty_l in Hpre. injection Hpre as <- ->.
      now exists pre.
  - intros [name ->]. split; [now eexists |].
    exists ("[" +:+ name). now rewrite append_assoc.
Qed.

Lemma TrimRight_snoc (s cutset : string) (c : ascii) :
  byteIn c cutset = true ->
  TrimRight (s +:+ String c "") cutset = TrimRight s cutset.
Proof.
  intros Hc. induction s as [|d s IH].
  - rewrite append_empty_l. cbn. now rewrite Hc.
  - rewrite append_cons. cbn [TrimRight]. rewrite IH. reflexivity.
Qed.

(** The brackets of a section line go with whatever brackets the name
    itself starts or ends with. *)
Lemma Trim_section (name : string) :
  Trim ("[" +:+ name +:+ "]") "[]" = Trim name "[]".
Proof.
  unfold Trim. rewrite append_cons, append_empty_l.
  rewrite <- append_cons, TrimRight_snoc by reflexivity.
  cbn [TrimRight]. destruct (TrimRight name "[]") as [|c kept]; reflexivity.
Qed.

Lemma TrimRight_clean (s cutset : string) :
  (forall pre c, s = pre +:+ String c "" -> byteIn c cutset = false) ->
  TrimRight s cutset = s.
Proof.
  induction s as [|c s IH]; intros Hend; [reflexivity |].
  cbn [TrimRight]. destruct s as [|d s].
  - cbn. now rewrite (Hend "" c eq_refl).
  - rewrite IH; [reflexivity |].
    intros pre x Hpre. apply (Hend (String c pre) x).
    now rewrite append_cons, Hpre.
Qed.

(** X19. The completion of [--profile] fails when the credentials file
    under the home directory cannot be read.  Otherwise it offers, for
    every line of the file that starts with [[] and ends with []], what
    the brackets enclose, stripped of the brackets it starts or ends with
    itself, provided that starts with what was typed; nothing else is
    offered, and a name without brackets at its ends is offered as it
    is. *)
Theorem profileFlagCompletion_spec (toComplete : string) (w : World) :
  let credsPath :=
    filepath_Join C [os_Getenv "HOME" w; ".aws"; "credentials"] in
  (files w !! credsPath = None ->
   profileFlagCompletion C toComplete w = ([], ShellCompDirectiveError)) /\
  (forall file, files w !! credsPath = Some file ->
     snd (profileFlagCompletion C toComplete w) = ShellCompDirectiveNoFileComp /\
     forall profile,
       In profile (fst (profileFlagCompletion C toComplete w)) <->
       exists name,
         In ("[" +:+ name +:+ "]") (Split (content file) nl) /\
         profile = Trim name "[]" /\
         HasPrefix profile toComplete = true) /\
  (forall name,
      HasPrefix name "[" = false -> HasPrefix name "]" = false ->
      HasSuffix name "[" = false -> HasSuffix name "]" = false ->
      Trim name "[]" = name).
Proof.
  intros credsPath. unfold profileFlagCompletion, os_ReadFile. fold credsPath.
  split; [| split].
  - intros ->. reflexivity.
  - intros file ->. cbn [fmap option_fmap option_map fst snd].
    split; [reflexivity |].
    intros profile. unfold profilesIn.
    rewrite filter_In, in_map_iff. split.
    + intros [(line & <- & Hline) Hpre].
      apply filter_In in Hline as [Hin Hsection].
      apply isSectionLine_spec in Hsection as [name ->].
      exists name. rewrite Trim_section in *. auto.
    + intros (name & Hin & -> & Hpre). split; [| exact Hpre].
      exists ("[" +:+ name +:+ "]"). split; [apply Trim_section |].
      apply filter_In. split; [exact Hin |].
      apply isSectionLine_spec. now exists name.
  - intros name Hl1 Hl2 Hr1 Hr2. unfold Trim.
    rewrite TrimRight_clean.
    + destruct name as [|c name]; [reflexivity |].
      cbn [TrimLeft byteIn]. cbn [HasPrefix] in Hl1, Hl2.
      rewrite andb_true_r in Hl1, Hl2. now rewrite Hl1, Hl2.
    + intros pre c ->. cbn [byteIn].
      destruct (Ascii.eqb_spec c "["%char) as [-> | _].
      { assert (HasSuffix (pre +:+ "[") "[" = true) as H
          by (apply HasSuffix_spec; now exists pre).
        congruence. }
      destruct (Ascii.eqb_spec c "]"%char) as [-> | _]; [| reflexivity].
      assert (HasSuffix (pre +:+ "]") "]" = true) as H
        by (apply HasSuffix_spec; now exists pre).
      congruence.
Qed.

End ProfileCompletion.

(** The sample credentials file: the section that ends in a carriage
    return is not offered. *)
Lemma profileFlagCompletion_spec_witness :
  profileFlagCompletion Sample.healthy "de" Scenario.awsWorld
  = (["default"; "dev-admin"], ShellCompDirectiveNoFileComp) /\
  profileFlagCompletion Sample.healthy "" (Sample.freshWorld 0)
  = ([], ShellCompDirectiveError) /\
  In "dev-admin" (fst (profileFlagCompletion Sample.healthy "dev" Scenario.awsWorld)).
Proof.
  split; [reflexivity |]. split.
  - apply (profileFlagCompletion_spec Sample.healthy "" (Sample.freshWorld 0)).
    reflexivity.
  - destruct (profileFlagCompletion_spec Sample.healthy "dev" Scenario.awsWorld)
      as (_ & Hfile & _).
    destruct (Hfile (mkFile Scenario.credentials 0) eq_refl) as [_ Hin].
    apply Hin. exists "dev-admin".
    split; [| split; reflexivity].
    vm_compute. right. right. now left.
Defined.

Lemma connectValidArgs_offers_witness :
  connectValidArgs Sample.healthy "testprofile" "" [] "" (Sample.freshWorld 0)
  = (Ok (["staging-db-1" +:+ tab +:+ "db.t3.small";
          "metabasedev-poc" +:+ tab +:+ "db.t3.micro"],
         ShellCompDirectiveNoFileComp),
     snd (GetInstancesWithCache Sample.healthy Sample.config "testprofile"
            (Sample.freshWorld 0))) /\
  connectValidArgs Sample.healthy "testprofile" "" [] "meta" (Sample.freshWorld 0)
  = (Ok (["metabasedev-poc" +:+ tab +:+ "db.t3.micro"],
         ShellCompDirectiveNoFileComp),
     snd (GetInstancesWithCache Sample.healthy Sample.config "testprofile"
            (Sample.freshWorld 0))) /\
  connectValidArgs Sample.healthy "testprofile" "" ["staging-db-1"] "meta"
    (Sample.freshWorld 0)
  = (Ok ([], ShellCompDirectiveNoFileComp), Sample.freshWorld 0).
Proof.
  assert (GetInstancesWithCache Sample.healthy Sample.config "testprofile"
            (Sample.freshWorld 0)
          = (Ok [Sample.staging; Sample.metabase],
             snd (GetInstancesWithCache Sample.healthy Sample.config
                    "testprofile" (Sample.freshWorld 0)))) as Hfetch.
  { vm_compute. reflexivity. }
  split; [| split].
  - destruct (connectValidArgs_offers Sample.healthy "testprofile" "" "" []
                (Sample.freshWorld 0)) as (_ & _ & _ & Hoffered).
    exact (Hoffered Sample.config [Sample.staging; Sample.metabase] _
             eq_refl Hfetch).
  - destruct (connectValidArgs_offers Sample.healthy "testprofile" "" "meta" []
                (Sample.freshWorld 0)) as (_ & _ & _ & Hoffered).
    exact (Hoffered Sample.config [Sample.staging; Sample.metabase] _
             eq_refl Hfetch).
  - apply (connectValidArgs_offers Sample.healthy). discriminate.
Defined.

(** ** The native session *)

Section Native.

Variable D : Driver.

Lemma queriesOf_app (a b : list SessionEvent) :
  queriesOf (a ++ b) = queriesOf a ++ queriesOf b.
Proof. apply omap_app. Qed.

Lemma queriesOf_printed (evs : list SessionEvent) :
  (forall e, In e evs -> exists text, e = Printed text) -> queriesOf evs = [].
Proof.
  induction evs as [|e evs IH]; intros Hall; [reflexivity |].
  destruct (Hall e) as [text ->]; [now left |].
  cbn. apply IH. intros e' He'. apply Hall. now right.
Qed.

Lemma queriesOf_executeAndPrint (conn query : string) :
  queriesOf (executeAndPrint D conn query) = [query].
Proof.
  unfold executeAndPrint.
  change (queriesOf (Queried query :: ?l)) with (query :: queriesOf l).
  f_equal. apply queriesOf_printed.
  destruct (db_Query D conn query) as [e | [cols rows]].
  - intros e' [<- | []]. now eexists.
  - intros e' [<- | Hin]; [now eexists |].
    apply in_flat_map in Hin as (row & _ & Hin).
    apply in_app_or in Hin as [Hin | [<- | []]]; [| now eexists].
    apply in_map_iff in Hin as (val & <- & _). now eexists.
Qed.

(** X20. The queries a session sends are the lines typed before the first
    [exit] or [quit], trimmed, without the blank ones, in their order,
    whatever the database answers: a query that fails prints one line with
    the error and the session goes on with the next line. *)
Theorem readEvalPrint_queries (conn : string) (typed : list string) :
  queriesOf (readEvalPrint D conn typed) =
  takeUntil isExit
    (List.filter (fun query => negb (String.eqb query ""))
       (map TrimSpace typed)) /\
  (forall line rest e,
      typed = line :: rest ->
      TrimSpace line <> "" -> isExit (TrimSpace line) = false ->
      db_Query D conn (TrimSpace line) = inl e ->
      readEvalPrint D conn typed =
      Queried (TrimSpace line) :: Printed ("ERROR: " +:+ e +:+ nl)
        :: readEvalPrint D conn rest).
Proof.
  split.
  - induction typed as [|line typed IH]; [reflexivity |].
    cbn [readEvalPrint map List.filter].
    destruct (String.eqb (TrimSpace line) "") eqn:Hblank; cbn [negb]; [exact IH |].
    cbn [takeUntil]. unfold isExit at 1.
    destruct (String.eqb (TrimSpace line) "exit" || String.eqb (TrimSpace line) "quit");
      [reflexivity |].
    now rewrite queriesOf_app, queriesOf_executeAndPrint, IH.
  - intros line rest e -> Hblank Hexit Hfail.
    cbn [readEvalPrint]. apply String.eqb_neq in Hblank. rewrite Hblank.
    unfold isExit in Hexit. rewrite Hexit.
    unfold executeAndPrint. rewrite Hfail. reflexivity.
Qed.

(** X21. A connection that cannot be opened or does not answer the ping
    ends the session before a prompt and before any query, with one line
    that says so; once the connection is open it is closed on every way
    out, last of all. *)
Theorem nativeSession_connection (host : string) (port : Z)
    (user password dbname : string) (typed : option (list string)) :
  let connStr :=
    "host=" +:+ host +:+ " port=" +:+ formatInt port +:+ " user=" +:+ user
    +:+ " password=" +:+ password +:+ " dbname=" +:+ dbname
    +:+ " sslmode=require" in
  let evs := nativeSession D host port user password dbname typed in
  (forall e, sql_Open D connStr = inl e ->
     evs = [Printed ("❌ Connection Error: " +:+ e +:+ nl)]) /\
  (forall e, sql_Open D connStr = inr tt -> db_Ping D connStr = inl e ->
     evs = [Printed ("❌ Connection Failed: " +:+ e +:+ nl); ClosedDB]) /\
  (sql_Open D connStr = inr tt -> List.last evs ClosedPrompt = ClosedDB) /\
  (queriesOf evs <> [] ->
   sql_Open D connStr = inr tt /\ db_Ping D connStr = inr tt) /\
  (forall lines,
     sql_Open D connStr = inr tt -> db_Ping D connStr = inr tt ->
     typed = Some lines ->
     queriesOf evs = queriesOf (readEvalPrint D connStr lines)).
Proof.
  intros connStr evs. subst evs. unfold nativeSession. fold connStr.
  destruct (sql_Open D connStr) as [e | []].
  - split; [now intros e' [= <-] |].
    split; [discriminate |]. split; [discriminate |].
    split; [intros Hq; now cbn in Hq | discriminate].
  - destruct (db_Ping D connStr) as [e | []].
    + split; [discriminate |].
      split; [now intros e' _ [= <-] |].
      split; [reflexivity |].
      split; [intros Hq; now cbn in Hq | discriminate].
    + split; [discriminate |]. split; [discriminate |].
      split; [| split; [now split |]].
      * intros _. destruct typed as [lines|]; [| reflexivity].
        rewrite app_comm_cons.
        change [ClosedPrompt; ClosedDB] with ([ClosedPrompt] ++ [ClosedDB]).
        rewrite app_assoc. apply last_last.
      * intros lines _ _ ->.
        change (queriesOf (Printed ?t :: ?l)) with (queriesOf l).
        rewrite queriesOf_app. cbn. now rewrite app_nil_r.
Qed.

End Native.

(** Blank lines are skipped, a failing query does not end the session, and
    nothing after [quit] is sent. *)
Lemma readEvalPrint_queries_witness :
  queriesOf (readEvalPrint Scenario.database "conn"
               ["  select 1 "; ""; "selct 2"; "select 1"; " quit"; "select 1"])
  = ["select 1"; "selct 2"; "select 1"] /\
  readEvalPrint Scenario.database "conn" ["selct 2"; "exit"]
  = [Queried "selct 2"; Printed ("ERROR: pq: syntax error" +:+ nl)].
Proof.
  split.
  - destruct (readEvalPrint_queries Scenario.database "conn"
                ["  select 1 "; ""; "selct 2"; "select 1"; " quit"; "select 1"])
      as [Hqueries _].
    rewrite Hqueries. reflexivity.
  - destruct (readEvalPrint_queries Scenario.database "conn" ["selct 2"; "exit"])
      as [_ Hfail].
    rewrite (Hfail "selct 2" ["exit"] "pq: syntax error");
      [reflexivity | reflexivity | discriminate | reflexivity | reflexivity].
Defined.

Lemma nativeSession_connection_witness :
  nativeSession Scenario.unreachable "db.example.com" 5432 "admin" "secret"
    "postgres" (Some ["select 1"])
  = [Printed ("❌ Connection Failed: dial tcp: i/o timeout" +:+ nl); ClosedDB] /\
  List.last (nativeSession Scenario.database "db.example.com" 5432 "admin"
               "secret" "postgres" (Some ["select 1"; "exit"])) ClosedPrompt
  = ClosedDB.
Proof.
  destruct (nativeSession_connection Scenario.unreachable "db.example.com" 5432
              "admin" "secret" "postgres" (Some ["select 1"]))
    as (_ & Hping & _).
  destruct (nativeSession_connection Scenario.database "db.example.com" 5432
              "admin" "secret" "postgres" (Some ["select 1"; "exit"]))
    as (_ & _ & Hclosed & _).
  split.
  - apply Hping; reflexivity.
  - apply Hclosed. reflexivity.
Defined.

(** A VPN that is down is reported and the run goes on; a machine without
    the Pritunl client is not even told. *)
Lemma vpnWarning_only_warns_witness :
  fst (vpnWarning Scenario.vpnDown "ackodev" Scenario.pritunlWorld) = Ok tt /\
  files (snd (vpnWarning Scenario.vpnDown "ackodev" Scenario.pritunlWorld))
  = files Scenario.pritunlWorld /\
  vpnWarning Sample.healthy "ackodev" (Sample.freshWorld 0)
  = (Ok tt, Sample.freshWorld 0).
Proof.
  destruct (vpnWarning_only_warns Scenario.vpnDown "ackodev" Scenario.pritunlWorld)
    as (_ & Hfiles & _).
  destruct (vpnWarning_only_warns Sample.healthy "ackodev" (Sample.freshWorld 0))
    as (_ & _ & _ & Habsent & _).
  split; [reflexivity |]. split; [exact Hfiles |].
  apply Habsent. reflexivity.
Defined.
